(** * can_tools.scrapers.db_util: the bulk loader, the temp-table session and
      the DDL drafter, embedded in Rocq.

    The Python module talks to three collaborators: pandas (schema text and
    CSV staging), the SQLAlchemy handle passed as [conn], and the psycopg2
    connection underneath it.  The embedding keeps the control flow of the
    source (statement order, [with] blocks, the bare [except]) and makes every
    call on a database handle an explicit event that is both logged and
    answered by a driver.

    Layout: the text helpers; exceptions, handles, calls and the monad; the
    frame; [fast_to_sql] and [TempTable]; [textwrap.dedent], the type map and
    [draft_sql_ddl_statement]; a reference pandas and a reference database to
    run the loader on; the vocabulary of the statements; [_clean_cols] of the
    Florida hospital scraper; facts; the properties of the specification,
    claim by claim; and further properties of the loader, the session, the
    drafter and the cleaning. *)

From Stdlib Require Import String Ascii List Bool Arith Lia.
From stdpp Require Import gmap strings.

(** ** Text helpers (Python [str]) *)

Module Str.

Definition chr (n : nat) : string := String (ascii_of_nat n) EmptyString.
Definition nl : string := chr 10.
Definition tab : string := chr 9.
Definition dquote : string := chr 34.

(** [f'"{x}"'] *)
Definition quoted (x : string) : string := dquote +:+ x +:+ dquote.

(** [sep.join(parts)] *)
Fixpoint join (sep : string) (parts : list string) : string :=
  match parts with
  | [] => ""
  | [p] => p
  | p :: rest => p +:+ sep +:+ join sep rest
  end.

(** [s.startswith(p)] *)
Fixpoint startswith (p s : string) : bool :=
  match p, s with
  | EmptyString, _ => true
  | String a p', String b s' => Ascii.eqb a b && startswith p' s'
  | String _ _, EmptyString => false
  end.

(** [s[n:]] *)
Fixpoint drop (n : nat) (s : string) : string :=
  match n, s with
  | O, _ => s
  | S k, String _ s' => drop k s'
  | S _, EmptyString => EmptyString
  end.

(** [s.replace(old, new)] for a non-empty [old]: occurrences are found left
    to right and do not overlap.  [skip] counts the characters of the
    occurrence just replaced that are still to be passed over. *)
Fixpoint replace_from (skip : nat) (s old new : string) : string :=
  match s with
  | EmptyString => EmptyString
  | String c s' =>
      match skip with
      | S k => replace_from k s' old new
      | O =>
          if startswith old s
          then new +:+ replace_from (String.length old - 1) s' old new
          else String c (replace_from 0 s' old new)
      end
  end.

(** With an empty [old], Python inserts [new] before every character and at
    the end. *)
Fixpoint intersperse (s new : string) : string :=
  match s with
  | EmptyString => new
  | String c s' => new +:+ String c (intersperse s' new)
  end.

Definition replace (s old new : string) : string :=
  match old with
  | EmptyString => intersperse s new
  | _ => replace_from 0 s old new
  end.

(** [c in s] for a single character *)
Fixpoint has_char (c : ascii) (s : string) : bool :=
  match s with
  | EmptyString => false
  | String a s' => Ascii.eqb a c || has_char c s'
  end.

(** [s.split(sep)] for the one-character separator [c]: always at least
    one piece. *)
Fixpoint split (c : ascii) (s : string) : list string :=
  match s with
  | EmptyString => [EmptyString]
  | String a s' =>
      if Ascii.eqb a c then EmptyString :: split c s'
      else match split c s' with
           | [] => [String a EmptyString]
           | p :: ps => String a p :: ps
           end
  end.

(** [needle in s] *)
Fixpoint contains (needle s : string) : bool :=
  startswith needle s ||
  match s with
  | EmptyString => false
  | String _ s' => contains needle s'
  end.

End Str.

(** ** Python exceptions and outcomes *)

(** An exception is its class name and its constructor arguments. *)
Record exn := PyExc { exn_class : string; exn_args : list string }.

Definition ValueError (args : list string) : exn := PyExc "ValueError" args.

Inductive outcome (A : Type) : Type :=
| Ok (a : A)
| Raise (e : exn).
Arguments Ok {A} a.
Arguments Raise {A} e.

(** ** The database handle and the calls made on it *)

(** The runtime type of the [conn] argument, as the [isinstance] tests of
    [fast_to_sql] see it. *)
Inductive handle :=
| Engine                       (* sa.engine.base.Engine *)
| Connection                   (* sa.engine.base.Connection *)
| Other (type_name : string).  (* anything else; [type_name] is [str(type(conn))] *)

(** Every call the module makes on a handle, a DBAPI connection or a cursor.
    [Rollback] is part of the DBAPI vocabulary; it is listed so that its
    absence from a log can be stated. *)
Inductive call :=
| ConnExecute (h : handle) (sql : string)   (* conn.execute(sql) *)
| EngineConnect                             (* conn.connect().__enter__() *)
| ConnectionExit                            (* con.__exit__(...) *)
| OpenCursor                                (* con.cursor().__enter__() *)
| CursorExit                                (* cur.__exit__(...) *)
| CursorExecute (sql : string)              (* cur.execute(sql) *)
| CopyFrom (payload table : string) (columns : list string) (null : string)
                                            (* cur.copy_from(csv, table, columns=, null=) *)
| Commit                                    (* cur.connection.commit() *)
| Rollback.                                 (* cur.connection.rollback() *)

(** A driver answers each call: it returns or raises, and moves to a new
    state. *)
Class Driver (D : Type) := { step : call -> D -> outcome unit * D }.

Record world (D : Type) := World { log : list call; dbst : D }.
Arguments World {D} log dbst.
Arguments log {D} w.
Arguments dbst {D} w.

(** ** The monad of the embedding: state (log and driver state) and exceptions *)

Definition M (D A : Type) : Type := world D -> outcome A * world D.

Definition ret {D A} (a : A) : M D A := fun w => (Ok a, w).

Definition raise {D A} (e : exn) : M D A := fun w => (Raise e, w).

Definition bind {D A B} (m : M D A) (k : A -> M D B) : M D B :=
  fun w =>
    match m w with
    | (Ok a, w') => k a w'
    | (Raise e, w') => (Raise e, w')
    end.

Notation "'let*' x ':=' m 'in' k" := (bind m (fun x => k))
  (at level 10, x name, m at level 100, k at level 200).
Notation "m '>>' k" := (bind m (fun _ => k))
  (at level 62, right associativity).

(** A pure library call that may raise. *)
Definition lift {D A} (r : outcome A) : M D A := fun w => (r, w).

(** One call on the driver: logged, then answered. *)
Definition perform {D} `{Driver D} (c : call) : M D unit :=
  fun w =>
    let (r, d') := step c (dbst w) in
    (r, World (log w ++ [c]) d').

(** [with enter as r: body]: the exit runs on every path out of the body.  The
    exits of this module all return [None], so an exception of the body
    propagates unless the exit itself raises, in which case the exit's
    exception is the one the caller sees. *)
Definition with_ {D R A} (enter : M D R) (exit : R -> M D unit)
    (body : R -> M D A) : M D A :=
  fun w =>
    match enter w with
    | (Raise e, w1) => (Raise e, w1)
    | (Ok r, w1) =>
        match body r w1 with
        | (Ok a, w2) =>
            match exit r w2 with
            | (Ok _, w3) => (Ok a, w3)
            | (Raise e', w3) => (Raise e', w3)
            end
        | (Raise e, w2) =>
            match exit r w2 with
            | (Ok _, w3) => (Raise e, w3)
            | (Raise e', w3) => (Raise e', w3)
            end
        end
    end.

(** [try: m / except: pass] *)
Definition try_except_pass {D A} (m : M D A) : M D unit :=
  fun w => let (_, w') := m w in (Ok tt, w').

(** ** pandas: the dataset *)

(** A column dtype.  numpy dtypes are identified by their canonical name
    ([str(np.dtype(...))]), so [np.dtype("O")] is [NpDtype "object"] and
    [np.dtype("<M8[ns]")] is [NpDtype "datetime64[ns]"]. *)
Inductive dtype :=
| NpDtype (name : string)
| DatetimeTZDtype (unit tz : string)
| ExtensionDtype (name : string).

#[global] Instance dtype_eq_dec : EqDecision dtype.
Proof. solve_decision. Defined.

(** [str(dt)], as an f-string renders it *)
Definition dtype_str (dt : dtype) : string :=
  match dt with
  | NpDtype n => n
  | DatetimeTZDtype u tz => "datetime64[" +:+ u +:+ ", " +:+ tz +:+ "]"
  | ExtensionDtype n => n
  end.

(** A cell of the frame.  [Missing] is NaN, the missing value of a numeric
    column and of a text column read from a file; [NoneValue] and [NaT] are
    the two other values pandas takes for missing.  A number carries the
    text pandas writes for it. *)
Inductive cell :=
| Missing
| Text (s : string)
| Number (repr : string)
| NoneValue
| NaT.

Record row := Row { index_cells : list cell; data_cells : list cell }.

Fixpoint distinct (l : list string) : bool :=
  match l with
  | [] => true
  | x :: r => negb (existsb (String.eqb x) r) && distinct r
  end.

(** The frame: index level names, the columns in order with their dtypes,
    and the rows.  Labels are rendered as text.  A label may be repeated: the
    label-keyed lookups of the module ([dict(df.dtypes)[c]],
    [to_csv(columns=...)]) then address every column under it. *)
Record DataFrame := {
  index_names : list string;            (* df.index.names *)
  columns : list (string * dtype);      (* list(df), with df.dtypes *)
  rows : list row
}.

(** [list(df)] *)
Definition list_df (df : DataFrame) : list string := map fst (columns df).

(** The two pandas entry points [fast_to_sql] calls.  Both are library code:
    [get_schema] is [pd.io.sql.get_schema(df, name, con=conn)], [to_csv] is
    the text [df.to_csv(buf, sep=, columns=, index=, header=)] writes. *)
Class Pandas := {
  get_schema : DataFrame -> string -> handle -> outcome string;
  to_csv : DataFrame -> forall (sep : string) (columns : list string)
             (index header : bool), outcome string
}.

(** ** fast_to_sql *)

Section Loader.
Context {D : Type} {drv : Driver D} {pd : Pandas}.

(** The nested function [upload_via_conn]; [df], [cols], [index],
    [if_exists], [full_name] and [colnames] are the variables it closes
    over.  The [StringIO] buffer is the text [csv]. *)
Definition upload_via_conn (df : DataFrame) (cols : list string)
    (index : bool) (if_exists full_name : string) (colnames : list string)
    : M D unit :=
  let* csv := lift (to_csv df Str.tab cols index false) in
  with_ (perform OpenCursor) (fun _ => perform CursorExit) (fun _ =>
    (if String.eqb if_exists "replace"
     then perform (CursorExecute ("DELETE FROM " +:+ full_name +:+ ";"))
     else ret tt) >>
    perform (CopyFrom csv full_name colnames "") >>
    perform Commit).

Definition default_cols (df : DataFrame) (index : bool) : list string :=
  if index then index_names df ++ list_df df else list_df df.

Definition full_name_of (schema : option string) (name : string) : string :=
  match schema with
  | None => name
  | Some s => s +:+ "." +:+ name
  end.

Definition create_want (temp : bool) : string :=
  if temp then "CREATE TEMP TABLE" else "CREATE TABLE IF NOT EXISTS".

Definition create_query_of (q name full_name : string) (temp : bool) : string :=
  Str.replace (Str.replace q "CREATE TABLE" (create_want temp))
              (Str.quoted name) full_name.

Definition fast_to_sql (df : DataFrame) (conn : handle) (name : string)
    (index : bool) (if_exists : string) (cols : option (list string))
    (schema : option string) (temp : bool) : M D unit :=
  let cols := match cols with
              | None => default_cols df index
              | Some c => c
              end in
  let colnames := map Str.quoted cols in
  let full_name := full_name_of schema name in
  (if String.eqb if_exists "replace"
   then perform (ConnExecute conn ("DROP TABLE IF EXISTS " +:+ full_name +:+ ";"))
   else ret tt) >>
  let* q := lift (get_schema df name conn) in
  perform (ConnExecute conn (create_query_of q name full_name temp)) >>
  match conn with
  | Engine =>
      with_ (perform EngineConnect) (fun _ => perform ConnectionExit)
            (fun _ => upload_via_conn df cols index if_exists full_name colnames)
  | Connection =>
      upload_via_conn df cols index if_exists full_name colnames
  | Other ty =>
      raise (ValueError ["Don't know how to handle conn with type:"; ty])
  end.

(** ** TempTable *)

(** The keyword arguments [**kw] that [TempTable] forwards to
    [fast_to_sql]; a keyword left out takes the default of the signature. *)
Record kwargs := {
  kw_index : bool;
  kw_if_exists : string;
  kw_cols : option (list string);
  kw_schema : option string;
  kw_temp : bool
}.

Definition default_kw : kwargs :=
  {| kw_index := false; kw_if_exists := "append"; kw_cols := None;
     kw_schema := None; kw_temp := false |}.

Record TempTable := {
  tt_df : DataFrame;
  table_name : string;
  tt_conn : handle;
  tt_kw : kwargs;
  destroy : bool
}.

Definition _try_empty_table (self : TempTable) : M D unit :=
  try_except_pass
    (perform (ConnExecute (tt_conn self)
                ("TRUNCATE TABLE " +:+ table_name self +:+ ";"))).

Definition __enter__ (self : TempTable) : M D TempTable :=
  _try_empty_table self >>
  fast_to_sql (tt_df self) (tt_conn self) (table_name self)
    (kw_index (tt_kw self)) (kw_if_exists (tt_kw self)) (kw_cols (tt_kw self))
    (kw_schema (tt_kw self)) (kw_temp (tt_kw self)) >>
  ret self.

Definition __exit__ (self : TempTable) : M D unit :=
  _try_empty_table self >>
  (if destroy self
   then perform (ConnExecute (tt_conn self)
                   ("DROP TABLE IF EXISTS " +:+ table_name self +:+ ";"))
   else ret tt).

(** [with TempTable(...) as t: body]: [t] is what [__enter__] returns, and the
    exit is that of the manager. *)
Definition session {A} (self : TempTable) (body : TempTable -> M D A) : M D A :=
  with_ (__enter__ self) (fun _ => __exit__ self) body.

End Loader.

(** ** textwrap.dedent (Python standard library) *)

Module Textwrap.

Definition is_blank (c : ascii) : bool :=
  Ascii.eqb c " "%char || Ascii.eqb c (ascii_of_nat 9).

Fixpoint all_blank (s : string) : bool :=
  match s with
  | EmptyString => true
  | String c s' => is_blank c && all_blank s'
  end.

(** [_whitespace_only_re.sub('', text)], line by line: a line of blanks
    becomes empty. *)
Definition normalize_line (l : string) : string :=
  if all_blank l then EmptyString else l.

Fixpoint leading_blank (s : string) : string :=
  match s with
  | EmptyString => EmptyString
  | String c s' => if is_blank c then String c (leading_blank s') else EmptyString
  end.

(** One match of [_leading_whitespace_re]: the leading blanks of a line that
    has a character other than blanks. *)
Definition indent_of (l : string) : option string :=
  if all_blank l then None else Some (leading_blank l).

Fixpoint common_prefix (a b : string) : string :=
  match a, b with
  | String x a', String y b' =>
      if Ascii.eqb x y then String x (common_prefix a' b') else EmptyString
  | _, _ => EmptyString
  end.

(** One round of the loop over [indents] *)
Definition merge_margin (margin : option string) (indent : string) : option string :=
  match margin with
  | None => Some indent
  | Some m =>
      if Str.startswith m indent then Some m
      else if Str.startswith indent m then Some indent
      else Some (common_prefix m indent)
  end.

(** The final [re.sub] that removes [margin] at the start of each line *)
Definition strip_margin (m l : string) : string :=
  if Str.startswith m l then Str.drop (String.length m) l else l.

Definition dedent (text : string) : string :=
  let lines := map normalize_line (Str.split (ascii_of_nat 10) text) in
  let margin := fold_left merge_margin (omap indent_of lines) None in
  match margin with
  | Some (String c m) => Str.join Str.nl (map (strip_margin (String c m)) lines)
  | _ => Str.join Str.nl lines
  end.

End Textwrap.

(** ** The type map and draft_sql_ddl_statement *)

(** Lookup in a dict given by its items; the keys are distinct. *)
Fixpoint dict_get {K V : Type} `{EqDecision K} (d : list (K * V)) (k : K) : option V :=
  match d with
  | [] => None
  | (k', v) :: r => if decide (k' = k) then Some v else dict_get r k
  end.

Definition _dtype_map : list (dtype * string) :=
  [ (NpDtype "float64", "numeric(12, 6)");
    (NpDtype "float32", "numeric(10, 4)");
    (NpDtype "int64", "INT");
    (NpDtype "int32", "SMALLINT");
    (NpDtype "datetime64[ns]", "TIMESTAMP WITHOUT TIME ZONE");
    (DatetimeTZDtype "ns" "UTC", "TIMESTAMPTZ");
    (NpDtype "object", "TEXT") ].

Definition KeyError (k : string) : exn := PyExc "KeyError" [k].

Definition TypeError (msg : string) : exn := PyExc "TypeError" [msg].

(** What [hash] raises for a Series; [dt not in _dtype_map] hashes [dt].  The
    class is [TypeError] in every pandas; the wording of the message is the
    one of pandas 2. *)
Definition unhashable_series : exn := TypeError "unhashable type: 'Series'".

(** An item of [dict(df.dtypes)]: the dtype of the one column under a label
    or, for a repeated label, the Series of the dtypes of the columns under
    it. *)
Inductive dtypes_item :=
| OneDtype (dt : dtype)
| DtypeSeries (dts : list dtype).

(** The dtypes of the columns labelled [c], in column order *)
Definition dtypes_under (dtypes : list (string * dtype)) (c : string) : list dtype :=
  map snd (List.filter (fun col => String.eqb (fst col) c) dtypes).

(** [dict(df.dtypes)[c]] *)
Definition dtypes_getitem (dtypes : list (string * dtype)) (c : string)
    : option dtypes_item :=
  match dtypes_under dtypes c with
  | [] => None
  | [dt] => Some (OneDtype dt)
  | dts => Some (DtypeSeries dts)
  end.

(** The message of the [ValueError] raised for a dtype outside the map *)
Definition unknown_dtype_msg (dt : dtype) (c : string) : string :=
  " Don't know how to handle dtype " +:+ dtype_str dt +:+ " for column " +:+ c
  +:+ ". Add it!".

(** The [for c in list(df)] loop; [cols] and [col_comments] are the two lists
    it appends to. *)
Fixpoint ddl_loop (dtypes : list (string * dtype)) (table_name : string)
    (labels : list string) (cols col_comments : list string)
    : outcome (list string * list string) :=
  match labels with
  | [] => Ok (cols, col_comments)
  | c :: rest =>
      match dtypes_getitem dtypes c with
      | None => Raise (KeyError c)
      | Some (DtypeSeries _) => Raise unhashable_series
      | Some (OneDtype dt) =>
          match dict_get _dtype_map dt with
          | None => Raise (ValueError [unknown_dtype_msg dt c])
          | Some ty =>
              ddl_loop dtypes table_name rest
                (cols ++ [Str.quoted c +:+ " " +:+ ty])
                (col_comments ++
                   ["COMMENT ON COLUMN " +:+ table_name +:+ "." +:+ c +:+ " is E'';"])
          end
      end
  end.

(** The f-string assigned to [out] *)
Definition ddl_template (table_name col_str comment_str : string) : string :=
  Str.nl +:+
  "    CREATE TABLE " +:+ table_name +:+ " (" +:+ Str.nl +:+
  "        " +:+ col_str +:+ Str.nl +:+
  "    );" +:+ Str.nl +:+
  Str.nl +:+
  "    COMMENT ON TABLE " +:+ table_name +:+ " is E'';" +:+ Str.nl +:+
  Str.nl +:+
  "    " +:+ comment_str +:+ Str.nl +:+
  "    ".

Definition draft_sql_ddl_statement (df : DataFrame) (table_name : option string)
    : outcome string :=
  let table_name := match table_name with
                    | None => "REPLACE_NAME"
                    | Some t => t
                    end in
  let dtypes := columns df in
  match ddl_loop dtypes table_name (list_df df) [] [] with
  | Raise e => Raise e
  | Ok (cols, col_comments) =>
      let col_str := Str.join ("," +:+ Str.nl +:+ "        ") cols in
      let comment_str := Str.join (Str.nl +:+ "    ") col_comments in
      Ok (Textwrap.dedent (ddl_template table_name col_str comment_str))
  end.

(** ** A reference pandas: the staging text and the schema text

    Both functions are library code outside the repository.  The reference
    instance below follows the documented behaviour closely enough to run the
    loader on concrete frames. *)

Module RefPandas.

(** A missing value is written as [na_rep], whose default is the empty
    string; every other value is written as its text. *)
Definition cell_text (c : cell) : string :=
  match c with
  | Missing | NoneValue | NaT => ""
  | Text s => s
  | Number r => r
  end.

Fixpoint double_quotes (s : string) : string :=
  match s with
  | EmptyString => EmptyString
  | String c s' =>
      if Ascii.eqb c (ascii_of_nat 34)
      then String c (String c (double_quotes s'))
      else String c (double_quotes s')
  end.

Fixpoint has_special (sep : string) (s : string) : bool :=
  match s with
  | EmptyString => false
  | String c s' =>
      Str.has_char c sep || Ascii.eqb c (ascii_of_nat 34)
      || Ascii.eqb c (ascii_of_nat 10) || Ascii.eqb c (ascii_of_nat 13)
      || has_special sep s'
  end.

(** [csv.QUOTE_MINIMAL] *)
Definition csv_field (sep f : string) : string :=
  if has_special sep f then Str.dquote +:+ double_quotes f +:+ Str.dquote else f.

(** One record, closed by the line terminator (a line feed).  A record whose
    only field is empty is written as a pair of quotes. *)
Definition csv_line (sep : string) (fields : list string) : string :=
  match fields with
  | [EmptyString] => Str.dquote +:+ Str.dquote +:+ Str.nl
  | _ => Str.join sep (map (csv_field sep) fields) +:+ Str.nl
  end.

(** The positions of the columns labelled [c], counted from [i] *)
Fixpoint positions (c : string) (labels : list string) (i : nat) : list nat :=
  match labels with
  | [] => []
  | l :: r => (if String.eqb l c then [i] else []) ++ positions c r (S i)
  end.

(** [df.loc[:, cols]]: the positions of the selected labels among the
    columns, every column under a label, label by label; a label that is not
    a column is a [KeyError]. *)
Fixpoint select (labels cols : list string) : outcome (list nat) :=
  match cols with
  | [] => Ok []
  | c :: rest =>
      match positions c labels 0 with
      | [] => Raise (KeyError c)
      | ps =>
          match select labels rest with
          | Ok l => Ok (ps ++ l)
          | Raise e => Raise e
          end
      end
  end.

Definition row_fields (index : bool) (sel : list nat) (r : row) : list string :=
  (if index then map cell_text (index_cells r) else []) ++
  map (fun i => cell_text (nth i (data_cells r) Missing)) sel.

Definition ref_to_csv (df : DataFrame) (sep : string) (cols : list string)
    (index header : bool) : outcome string :=
  match select (list_df df) cols with
  | Raise e => Raise e
  | Ok sel =>
      let head := if header
                  then [csv_line sep ((if index then index_names df else []) ++ cols)]
                  else [] in
      Ok (String.concat "" (head ++ map (fun r => csv_line sep (row_fields index sel r)) (rows df)))
  end.

Definition sql_type (dt : dtype) : string :=
  match dt with
  | NpDtype "float64" => "FLOAT(53)"
  | NpDtype "float32" => "FLOAT(23)"
  | NpDtype "int64" => "BIGINT"
  | NpDtype "int32" => "INTEGER"
  | NpDtype "bool" => "BOOLEAN"
  | NpDtype "datetime64[ns]" => "TIMESTAMP WITHOUT TIME ZONE"
  | DatetimeTZDtype _ _ => "TIMESTAMP WITH TIME ZONE"
  | _ => "TEXT"
  end.

(** *** The schema text for a SQLAlchemy handle

    pandas has SQLAlchemy compile a [CreateTable]; the PostgreSQL dialect
    puts an identifier in double quotes only when it has to. *)

Definition is_upper (c : ascii) : bool :=
  Nat.leb 65 (nat_of_ascii c) && Nat.leb (nat_of_ascii c) 90.

Definition is_lower (c : ascii) : bool :=
  Nat.leb 97 (nat_of_ascii c) && Nat.leb (nat_of_ascii c) 122.

Definition is_decimal (c : ascii) : bool :=
  Nat.leb 48 (nat_of_ascii c) && Nat.leb (nat_of_ascii c) 57.

Definition to_lower (c : ascii) : ascii :=
  if is_upper c then ascii_of_nat (nat_of_ascii c + 32) else c.

Fixpoint lower (s : string) : string :=
  match s with
  | EmptyString => EmptyString
  | String c s' => String (to_lower c) (lower s')
  end.

(** The words the dialect always quotes *)
Definition reserved_words : list string :=
  [ "all"; "analyse"; "analyze"; "and"; "any"; "array"; "as"; "asc"; "asymmetric";
    "both"; "case"; "cast"; "check"; "collate"; "column"; "constraint"; "create";
    "current_catalog"; "current_date"; "current_role"; "current_time";
    "current_timestamp"; "current_user"; "default"; "deferrable"; "desc"; "distinct";
    "do"; "else"; "end"; "except"; "false"; "fetch"; "for"; "foreign"; "from"; "grant";
    "group"; "having"; "in"; "initially"; "intersect"; "into"; "leading"; "limit";
    "localtime"; "localtimestamp"; "new"; "not"; "null"; "of"; "off"; "offset"; "old";
    "on"; "only"; "or"; "order"; "placing"; "primary"; "references"; "returning";
    "select"; "session_user"; "some"; "symmetric"; "table"; "then"; "to"; "trailing";
    "true"; "union"; "unique"; "user"; "using"; "variadic"; "when"; "where"; "window";
    "with"; "authorization"; "between"; "binary"; "cross"; "current_schema"; "freeze";
    "full"; "ilike"; "inner"; "is"; "isnull"; "join"; "left"; "like"; "natural";
    "notnull"; "outer"; "over"; "overlaps"; "right"; "similar"; "verbose" ].

(** A character an unquoted identifier may hold *)
Definition legal_character (c : ascii) : bool :=
  is_upper c || is_lower c || is_decimal c
  || Ascii.eqb c "_"%char || Ascii.eqb c "$"%char.

Fixpoint all_legal (s : string) : bool :=
  match s with
  | EmptyString => true
  | String c s' => legal_character c && all_legal s'
  end.

(** [IdentifierPreparer._requires_quotes]: a reserved word, a first character
    that is a digit or a dollar sign, a character outside letters, digits,
    underscore and dollar sign, or an upper-case letter *)
Definition requires_quotes (value : string) : bool :=
  match value with
  | EmptyString => true
  | String c _ =>
      existsb (String.eqb (lower value)) reserved_words
      || is_decimal c || Ascii.eqb c "$"%char
      || negb (all_legal value)
      || negb (String.eqb (lower value) value)
  end.

(** The identifier in quotes: a double quote in it is doubled, and so is a
    percent sign. *)
Definition quote_identifier (value : string) : string :=
  Str.dquote +:+
  Str.replace (Str.replace value Str.dquote (Str.dquote +:+ Str.dquote)) "%" "%%"
  +:+ Str.dquote.

Definition format_identifier (value : string) : string :=
  if requires_quotes value then quote_identifier value else value.

(** The columns behind the opening parenthesis: the first on a new line, the
    others behind a comma, a space and a new line, each behind a tab *)
Definition column_specs (cols : list (string * dtype)) : string :=
  match cols with
  | [] => EmptyString
  | _ =>
      Str.nl +:+
      Str.join (", " +:+ Str.nl)
        (map (fun c => Str.tab +:+ format_identifier (fst c) +:+ " " +:+ sql_type (snd c))
             cols)
  end.

(** For a frame with a repeated label the text depends on the version of
    SQLAlchemy (the later column replaces the earlier one, or the table is
    refused); the reference writes one line per column. *)
Definition sqlalchemy_schema (df : DataFrame) (name : string) : string :=
  Str.nl +:+ "CREATE TABLE " +:+ format_identifier name +:+ " (" +:+
  column_specs (columns df) +:+ Str.nl +:+ ")" +:+ Str.nl +:+ Str.nl.

(** *** The schema text for any other handle

    pandas then writes the statement itself, in its SQLite flavour, with
    every identifier in double quotes. *)

Definition sqlite_type (dt : dtype) : string :=
  match dt with
  | NpDtype "float64" | NpDtype "float32" => "REAL"
  | NpDtype "int64" | NpDtype "int32" | NpDtype "bool" => "INTEGER"
  | NpDtype "datetime64[ns]" | DatetimeTZDtype _ _ => "TIMESTAMP"
  | _ => "TEXT"
  end.

Definition sqlite_name (value : string) : string :=
  Str.dquote +:+ Str.replace value Str.dquote (Str.dquote +:+ Str.dquote) +:+ Str.dquote.

Definition sqlite_schema (df : DataFrame) (name : string) : string :=
  "CREATE TABLE " +:+ sqlite_name name +:+ " (" +:+ Str.nl +:+
  Str.join ("," +:+ Str.nl +:+ "  ")
    (map (fun c => sqlite_name (fst c) +:+ " " +:+ sqlite_type (snd c)) (columns df))
  +:+ Str.nl +:+ ")".

(** [pd.io.sql.get_schema(df, name, con=conn)] *)
Definition ref_get_schema (df : DataFrame) (name : string) (con : handle)
    : outcome string :=
  match con with
  | Engine | Connection => Ok (sqlalchemy_schema df name)
  | Other _ => Ok (sqlite_schema df name)
  end.

#[global] Instance ref_pandas : Pandas :=
  {| get_schema := ref_get_schema; to_csv := ref_to_csv |}.

End RefPandas.

(** ** A reference database: tables in memory

    One session against a store of named tables.  A statement sent through
    [conn.execute] is committed at once (SQLAlchemy's autocommit of textual
    DDL and DML); the statements of a cursor and [copy_from] accumulate in a
    pending view until [commit]; closing the connection or [rollback] discards
    the pending view. *)

Module MemDb.

Definition dbrow : Type := list (option string).

Record memdb := Db {
  committed : gmap string (list dbrow);
  pending : option (gmap string (list dbrow))
}.

Definition view (d : memdb) : gmap string (list dbrow) :=
  match pending d with
  | Some t => t
  | None => committed d
  end.

Inductive stmt :=
| DropIfExists (n : string)
| Truncate (n : string)
| DeleteFrom (n : string)
| CreateIfNotExists (n : string)
| CreateTemp (n : string)
| CreateTable (n : string)
| Unparsed.

Definition is_space (c : ascii) : bool :=
  Ascii.eqb c " "%char || Ascii.eqb c (ascii_of_nat 9) || Ascii.eqb c (ascii_of_nat 10).

Fixpoint lstrip (s : string) : string :=
  match s with
  | EmptyString => EmptyString
  | String c s' => if is_space c then lstrip s' else s
  end.

(** The statement text without its final semicolon *)
Fixpoint chop_semicolon (s : string) : string :=
  match s with
  | EmptyString => EmptyString
  | String c EmptyString => if Ascii.eqb c ";"%char then EmptyString else s
  | String c s' => String c (chop_semicolon s')
  end.

(** The table name of a [CREATE]: up to the first space or parenthesis *)
Fixpoint name_token (s : string) : string :=
  match s with
  | EmptyString => EmptyString
  | String c s' =>
      if is_space c || Ascii.eqb c "("%char then EmptyString
      else String c (name_token s')
  end.

Definition after (prefix s : string) : option string :=
  if Str.startswith prefix s then Some (Str.drop (String.length prefix) s) else None.

Definition parse (sql : string) : stmt :=
  let s := lstrip sql in
  match after "DROP TABLE IF EXISTS " s with
  | Some r => DropIfExists (chop_semicolon r)
  | None =>
  match after "TRUNCATE TABLE " s with
  | Some r => Truncate (chop_semicolon r)
  | None =>
  match after "DELETE FROM " s with
  | Some r => DeleteFrom (chop_semicolon r)
  | None =>
  match after "CREATE TABLE IF NOT EXISTS " s with
  | Some r => CreateIfNotExists (name_token r)
  | None =>
  match after "CREATE TEMP TABLE " s with
  | Some r => CreateTemp (name_token r)
  | None =>
  match after "CREATE TABLE " s with
  | Some r => CreateTable (name_token r)
  | None => Unparsed
  end end end end end end.

Definition ProgrammingError (msg : string) : exn := PyExc "ProgrammingError" [msg].

Definition undefined_table (n : string) : exn :=
  ProgrammingError ("relation " +:+ n +:+ " does not exist").

Definition duplicate_table (n : string) : exn :=
  ProgrammingError ("relation " +:+ n +:+ " already exists").

Definition run_stmt (s : stmt) (t : gmap string (list dbrow))
    : outcome (gmap string (list dbrow)) :=
  match s with
  | DropIfExists n => Ok (delete n t)
  | Truncate n | DeleteFrom n =>
      match t !! n with
      | Some _ => Ok (<[n := []]> t)
      | None => Raise (undefined_table n)
      end
  | CreateIfNotExists n =>
      match t !! n with
      | Some _ => Ok t
      | None => Ok (<[n := []]> t)
      end
  | CreateTemp n | CreateTable n =>
      match t !! n with
      | Some _ => Raise (duplicate_table n)
      | None => Ok (<[n := []]> t)
      end
  | Unparsed => Raise (ProgrammingError "syntax error")
  end.

(** *** COPY FROM STDIN in text format

    [copy_from] has the server read the payload as the text format of COPY,
    with the tab as delimiter and [null] as null marker.  A backslash
    protects the character behind it.  A record ends at a line feed that is
    not protected and a field at a tab that is not protected; a backslash
    and a period end the data.  A field whose text, as it stands in the
    payload, is the null marker is NULL; in every other field the backslash
    sequences are decoded.  A record must have one field per column of the
    column list.  The check of the decoded bytes against the encoding of the
    database and the check of the column list against the columns of the
    table are not part of the model. *)

Definition backslash : ascii := ascii_of_nat 92.

(** Put a character in front of the first piece *)
Definition cons_char (a : ascii) (pieces : list string) : list string :=
  match pieces with
  | [] => [String a EmptyString]
  | p :: ps => String a p :: ps
  end.

(** The records of the payload, as they stand: up to the end of the text or
    to the end-of-data marker. *)
Fixpoint copy_lines (s : string) : list string :=
  match s with
  | EmptyString => [EmptyString]
  | String a r =>
      if Ascii.eqb a backslash then
        match r with
        | EmptyString => [String a EmptyString]
        | String c r' =>
            if Ascii.eqb c "."%char then [EmptyString]
            else cons_char a (cons_char c (copy_lines r'))
        end
      else if Ascii.eqb a (ascii_of_nat 10) then EmptyString :: copy_lines r
      else cons_char a (copy_lines r)
  end.

(** The fields of a record, as they stand *)
Fixpoint copy_fields (l : string) : list string :=
  match l with
  | EmptyString => [EmptyString]
  | String a r =>
      if Ascii.eqb a backslash then
        match r with
        | EmptyString => [String a EmptyString]
        | String c r' => cons_char a (cons_char c (copy_fields r'))
        end
      else if Ascii.eqb a (ascii_of_nat 9) then EmptyString :: copy_fields r
      else cons_char a (copy_fields r)
  end.

Definition octal_digit (c : ascii) : option nat :=
  let n := nat_of_ascii c in
  if Nat.leb 48 n && Nat.leb n 55 then Some (n - 48) else None.

Definition hex_digit (c : ascii) : option nat :=
  let n := nat_of_ascii c in
  if Nat.leb 48 n && Nat.leb n 57 then Some (n - 48)
  else if Nat.leb 97 n && Nat.leb n 102 then Some (n - 87)
  else if Nat.leb 65 n && Nat.leb n 70 then Some (n - 55)
  else None.

(** The control character a letter stands for behind a backslash *)
Definition control (c : ascii) : option ascii :=
  if Ascii.eqb c "b"%char then Some (ascii_of_nat 8)
  else if Ascii.eqb c "f"%char then Some (ascii_of_nat 12)
  else if Ascii.eqb c "n"%char then Some (ascii_of_nat 10)
  else if Ascii.eqb c "r"%char then Some (ascii_of_nat 13)
  else if Ascii.eqb c "t"%char then Some (ascii_of_nat 9)
  else if Ascii.eqb c "v"%char then Some (ascii_of_nat 11)
  else None.

Definition byte (n : nat) : ascii := ascii_of_nat (n mod 256).

(** The text of a field: one to three octal digits or [x] and one or two
    hexadecimal digits give a byte, six letters a control character, and any
    other character behind a backslash stands for itself; a backslash at the
    end is dropped. *)
Fixpoint unescape (s : string) : string :=
  match s with
  | EmptyString => EmptyString
  | String a r =>
      if negb (Ascii.eqb a backslash) then String a (unescape r)
      else
        match r with
        | EmptyString => EmptyString
        | String c r1 =>
            match octal_digit c with
            | Some d1 =>
                match r1 with
                | EmptyString => String (byte d1) EmptyString
                | String c2 r2 =>
                    match octal_digit c2 with
                    | None => String (byte d1) (unescape r1)
                    | Some d2 =>
                        match r2 with
                        | EmptyString => String (byte (d1 * 8 + d2)) EmptyString
                        | String c3 r3 =>
                            match octal_digit c3 with
                            | None => String (byte (d1 * 8 + d2)) (unescape r2)
                            | Some d3 =>
                                String (byte (d1 * 64 + d2 * 8 + d3)) (unescape r3)
                            end
                        end
                    end
                end
            | None =>
                if Ascii.eqb c "x"%char then
                  match r1 with
                  | EmptyString => String c EmptyString
                  | String h1 r2 =>
                      match hex_digit h1 with
                      | None => String c (unescape r1)
                      | Some v1 =>
                          match r2 with
                          | EmptyString => String (byte v1) EmptyString
                          | String h2 r3 =>
                              match hex_digit h2 with
                              | None => String (byte v1) (unescape r2)
                              | Some v2 => String (byte (v1 * 16 + v2)) (unescape r3)
                              end
                          end
                      end
                  end
                else
                  match control c with
                  | Some k => String k (unescape r1)
                  | None => String c (unescape r1)
                  end
            end
        end
  end.

(** The lines of a payload: the text after the last line feed is not a row
    when it is empty. *)
Fixpoint payload_lines (pieces : list string) : list string :=
  match pieces with
  | [] => []
  | [EmptyString] => []
  | p :: r => p :: payload_lines r
  end.

(** A field equal to the [null] marker is loaded as NULL. *)
Definition copy_field (null f : string) : option string :=
  if String.eqb f null then None else Some (unescape f).

Definition copy_rows (payload null : string) : list dbrow :=
  map (fun l => map (copy_field null) (copy_fields l))
      (payload_lines (copy_lines payload)).

(** What makes the server refuse the payload while it reads the records: a
    carriage return that is not protected, or an end-of-data marker that does
    not end its line. *)
Fixpoint malformed (s : string) : bool :=
  match s with
  | EmptyString => false
  | String a r =>
      if Ascii.eqb a backslash then
        match r with
        | EmptyString => false
        | String c r' =>
            if Ascii.eqb c "."%char
            then match r' with
                 | EmptyString => false
                 | String e _ => negb (Ascii.eqb e (ascii_of_nat 10))
                 end
            else malformed r'
        end
      else Ascii.eqb a (ascii_of_nat 13) || malformed r
  end.

(** Whether [copy_from] is refused: the payload is malformed, or a record
    has not as many fields as columns are named.  Without a column list the
    columns are those of the table, which the reference database does not
    keep. *)
Definition copy_refused (payload : string) (columns : list string) (null : string)
    : bool :=
  malformed payload
  || match columns with
     | [] => false
     | _ => negb (forallb (fun r => Nat.eqb (length r) (length columns))
                          (copy_rows payload null))
     end.

(** The server message is left out of the exception. *)
Definition BadCopyFileFormat : exn := PyExc "BadCopyFileFormat" [].

Definition memdb_step (c : call) (d : memdb) : outcome unit * memdb :=
  match c with
  | ConnExecute _ sql =>
      match run_stmt (parse sql) (view d) with
      | Ok t => (Ok tt, Db t None)
      | Raise e => (Raise e, d)
      end
  | CursorExecute sql =>
      match run_stmt (parse sql) (view d) with
      | Ok t => (Ok tt, Db (committed d) (Some t))
      | Raise e => (Raise e, d)
      end
  | CopyFrom payload table columns null =>
      match view d !! table with
      | Some old =>
          if copy_refused payload columns null then (Raise BadCopyFileFormat, d)
          else (Ok tt, Db (committed d)
                          (Some (<[table := old ++ copy_rows payload null]> (view d))))
      | None => (Raise (undefined_table table), d)
      end
  | Commit => (Ok tt, Db (view d) None)
  | Rollback | ConnectionExit => (Ok tt, Db (committed d) None)
  | EngineConnect | OpenCursor | CursorExit => (Ok tt, d)
  end.

#[global] Instance memdb_driver : Driver memdb := {| step := memdb_step |}.

(** What a reader on another connection sees of a table *)
Definition visible (d : memdb) (n : string) : option (list dbrow) := committed d !! n.

End MemDb.

(** ** Connection loss: a server that stops answering after a number of calls *)

Record lossy (D : Type) := Lossy { calls_left : nat; inner : D }.
Arguments Lossy {D} calls_left inner.
Arguments calls_left {D} l.
Arguments inner {D} l.

Definition OperationalError (msg : string) : exn := PyExc "OperationalError" [msg].

(** Leaving a cursor block or a connection block is done on the client: it
    is answered as before when the connection is lost. *)
Definition is_exit (c : call) : bool :=
  match c with
  | CursorExit | ConnectionExit => true
  | _ => false
  end.

Definition lossy_step {D} `{Driver D} (c : call) (s : lossy D) : outcome unit * lossy D :=
  match calls_left s with
  | O =>
      if is_exit c
      then let (r, d') := step c (inner s) in (r, Lossy O d')
      else (Raise (OperationalError "server closed the connection unexpectedly"), s)
  | S n => let (r, d') := step c (inner s) in (r, Lossy n d')
  end.

#[global] Instance lossy_driver {D} `{Driver D} : Driver (lossy D) :=
  {| step := lossy_step |}.


(** A driver into which [copy_from] never gets a row: every copy is refused
    with a constraint violation, every other call is passed on. *)
Record rejecting (D : Type) := Rejecting { behind : D }.
Arguments Rejecting {D} behind.
Arguments behind {D} r.

Definition IntegrityError (msg : string) : exn := PyExc "IntegrityError" [msg].

Definition rejecting_step {D} `{Driver D} (c : call) (s : rejecting D)
    : outcome unit * rejecting D :=
  match c with
  | CopyFrom _ _ _ _ =>
      (Raise (IntegrityError "null value in column violates not-null constraint"), s)
  | _ => let (r, d') := step c (behind s) in (r, Rejecting d')
  end.

#[global] Instance rejecting_driver {D} `{Driver D} : Driver (rejecting D) :=
  {| step := rejecting_step |}.

(** ** Vocabulary of the statements about the loader *)

(** The driver answers every call of [cs] in turn without raising, and ends
    in the state returned. *)
Fixpoint accepts {D} `{Driver D} (cs : list call) (d : D) : option D :=
  match cs with
  | [] => Some d
  | c :: r =>
      match step c d with
      | (Ok _, d') => accepts r d'
      | (Raise _, _) => None
      end
  end.

Definition is_replace (if_exists : string) : bool := String.eqb if_exists "replace".

Definition drop_stmt (full_name : string) : string :=
  "DROP TABLE IF EXISTS " +:+ full_name +:+ ";".

Definition delete_stmt (full_name : string) : string :=
  "DELETE FROM " +:+ full_name +:+ ";".

Definition truncate_stmt (name : string) : string :=
  "TRUNCATE TABLE " +:+ name +:+ ";".

Definition selected_cols (df : DataFrame) (index : bool) (cols : option (list string))
    : list string :=
  match cols with
  | None => default_cols df index
  | Some c => c
  end.

(** The calls [fast_to_sql] makes before it looks at the type of [conn] *)
Definition ddl_calls (conn : handle) (if_exists full_name query : string) : list call :=
  (if is_replace if_exists then [ConnExecute conn (drop_stmt full_name)] else [])
  ++ [ConnExecute conn query].

(** The calls from there up to, and without, [copy_from] *)
Definition open_calls (conn : handle) (if_exists full_name : string) : list call :=
  (match conn with Engine => [EngineConnect] | _ => [] end)
  ++ [OpenCursor]
  ++ (if is_replace if_exists then [CursorExecute (delete_stmt full_name)] else []).

(** The exits of the [with] blocks that are open during staging *)
Definition exit_calls (conn : handle) : list call :=
  CursorExit :: (match conn with Engine => [ConnectionExit] | _ => [] end).

(** All the calls of a load that runs to its end *)
Definition load_calls (conn : handle) (if_exists full_name query csv : string)
    (colnames : list string) : list call :=
  ddl_calls conn if_exists full_name query
  ++ open_calls conn if_exists full_name
  ++ [CopyFrom csv full_name colnames ""; Commit]
  ++ exit_calls conn.

Definition recognised (conn : handle) : bool :=
  match conn with
  | Engine | Connection => true
  | Other _ => false
  end.

(** The spec's error classes.  [UnsupportedTypeError] is the spec's name for
    the [ValueError] that [draft_sql_ddl_statement] raises, and
    [ConfigurationError] for the one [fast_to_sql] raises on an unknown
    handle; no class of the module corresponds to [LoadError]. *)
Definition UnsupportedTypeError (e : exn) : Prop :=
  exists dt c, e = ValueError [unknown_dtype_msg dt c].

Definition ConfigurationError (e : exn) : Prop :=
  exists ty, e = ValueError ["Don't know how to handle conn with type:"; ty].

Definition LoadError (e : exn) : Prop := exn_class e = "LoadError".



(** The calls of [__exit__] *)
Definition release_calls (self : TempTable) : list call :=
  ConnExecute (tt_conn self) (truncate_stmt (table_name self))
  :: (if destroy self
      then [ConnExecute (tt_conn self) (drop_stmt (table_name self))]
      else []).

(** ** Vocabulary of the statements about the DDL text *)

Definition no_nl (s : string) : Prop := Str.has_char (ascii_of_nat 10) s = false.

(** The lines of a joined block: every item on a line of its own behind the
    indent [ind], every line but the last closed by [sepc]. *)
Fixpoint block (ind sepc : string) (items : list string) : list string :=
  match items with
  | [] => [ind]
  | [d] => [ind +:+ d]
  | d :: rest => (ind +:+ d +:+ sepc) :: block ind sepc rest
  end.

Definition out_block (ind sepc : string) (items : list string) : list string :=
  match items with
  | [] => [EmptyString]
  | _ => block ind sepc items
  end.

(** The lines of the f-string before [dedent] *)
Definition raw_lines (t : string) (decls comments : list string) : list string :=
  [EmptyString; "    CREATE TABLE " +:+ t +:+ " ("]
  ++ block "        " "," decls
  ++ ["    );"; EmptyString; "    COMMENT ON TABLE " +:+ t +:+ " is E'';"; EmptyString]
  ++ block "    " EmptyString comments
  ++ ["    "].

(** The lines of the text the drafter returns *)
Definition ddl_lines (t : string) (decls comments : list string) : list string :=
  [EmptyString; "CREATE TABLE " +:+ t +:+ " ("]
  ++ out_block "    " "," decls
  ++ [");"; EmptyString; "COMMENT ON TABLE " +:+ t +:+ " is E'';"; EmptyString]
  ++ out_block EmptyString EmptyString comments
  ++ [EmptyString].

(** One column declaration: the quoted label and the type of the map *)
Definition column_decl (c ty : string) : string := Str.quoted c +:+ " " +:+ ty.

(** The comment placeholder of one column *)
Definition column_comment (t c : string) : string :=
  "COMMENT ON COLUMN " +:+ t +:+ "." +:+ c +:+ " is E'';".

Definition mapped_type (dt : dtype) : string :=
  match dict_get _dtype_map dt with
  | Some ty => ty
  | None => EmptyString
  end.

Definition ddl_text (t : string) (cols : list (string * dtype)) : string :=
  Str.join Str.nl
    (ddl_lines t
       (map (fun col => column_decl (fst col) (mapped_type (snd col))) cols)
       (map (fun col => column_comment t (fst col)) cols)).

(** A column whose dtype is not a key of [_dtype_map] *)
Definition unmapped (col : string * dtype) : bool :=
  match dict_get _dtype_map (snd col) with
  | Some _ => false
  | None => true
  end.

(** A column whose label is the label of another column too *)
Definition repeated (cols : list (string * dtype)) (col : string * dtype) : bool :=
  negb (Nat.eqb (length (dtypes_under cols (fst col))) 1).

(** A column at which the loop of the drafter stops *)
Definition refused (cols : list (string * dtype)) (col : string * dtype) : bool :=
  repeated cols col || unmapped col.

Definition margin4 : string := "    ".

Definition keeps_margin (l : string) : Prop :=
  match Textwrap.indent_of (Textwrap.normalize_line l) with
  | None => True
  | Some i => Str.startswith margin4 i = true
  end.

Definition starts_nonblank (d : string) : Prop :=
  exists a r, d = String a r /\ Textwrap.is_blank a = false.

Definition dedent_line (l : string) : string :=
  Textwrap.strip_margin margin4 (Textwrap.normalize_line l).

(** ** Vocabulary of the statements about staging *)

(** A field that [csv.QUOTE_MINIMAL] writes as it is *)
Definition plain (f : string) : Prop := RefPandas.has_special Str.tab f = false.

(** A field that is written as it is and read back as it is: no tab, line
    feed, carriage return or double quote, and no backslash *)
Definition verbatim (f : string) : Prop :=
  plain f /\ Str.has_char MemDb.backslash f = false.

(** A record that is written as the line of its fields: it has a field, it
    is not one empty field, and its fields are verbatim. *)
Definition verbatim_record (fs : list string) : Prop :=
  fs <> [] /\ fs <> [EmptyString] /\ Forall verbatim fs.




(** The value of a cell as a table holds it: NULL for a missing value, the
    text for every other one. *)
Definition cell_value (c : cell) : option string :=
  match c with
  | Missing | NoneValue | NaT => None
  | Text s => Some s
  | Number r => Some r
  end.

(** The rows of the dataset, as rows of a table *)
Definition dataset_rows (df : DataFrame) : list (list (option string)) :=
  map (fun r => map cell_value (data_cells r)) (rows df).

(** The records of the staged text, field by field *)
Definition staged_fields (index : bool) (sel : list nat) (df : DataFrame)
    : list (list string) :=
  map (RefPandas.row_fields index sel) (rows df).

(** White space in front of a statement *)
Definition blank_text (ws : string) : Prop := MemDb.lstrip ws = EmptyString.

(** ** Frames and databases of the examples *)

(** The frame of the spec's example scenario *)
Definition beds : DataFrame :=
  {| index_names := ["None"];
     columns := [("county", NpDtype "object"); ("value", NpDtype "float64")];
     rows := [Row [Number "0"] [Text "Dade"; Number "120.5"];
              Row [Number "1"] [Text "Leon"; Missing]] |}.

(** A frame with a boolean column, a dtype the type map does not list *)
Definition flags : DataFrame :=
  {| index_names := ["None"];
     columns := [("county", NpDtype "object"); ("open", NpDtype "bool")];
     rows := [Row [Number "0"] [Text "Dade"; Text "True"]] |}.

(** A frame with a genuine empty text *)
Definition notes : DataFrame :=
  {| index_names := ["None"];
     columns := [("note", NpDtype "object"); ("county", NpDtype "object")];
     rows := [Row [Number "0"] [Text EmptyString; Text "Dade"]] |}.

(** Two float columns under one label *)
Definition twins : DataFrame :=
  {| index_names := ["None"];
     columns := [("value", NpDtype "float64"); ("value", NpDtype "float64")];
     rows := [Row [Number "0"] [Number "1.5"; Number "2.5"]] |}.

(** A text column and a boolean column under one label *)
Definition twin_flags : DataFrame :=
  {| index_names := ["None"];
     columns := [("open", NpDtype "object"); ("open", NpDtype "bool")];
     rows := [Row [Number "0"] [Text "yes"; Text "True"]] |}.

(** A frame whose one label has a line break followed by two spaces *)
Definition odd_label : string := "a" +:+ Str.nl +:+ "  x".

Definition odd : DataFrame :=
  {| index_names := ["None"];
     columns := [(odd_label, NpDtype "object")];
     rows := [] |}.

Definition empty_db : MemDb.memdb := MemDb.Db ∅ None.

(** A database in which [beds_test] already holds a row *)
Definition stocked : MemDb.memdb :=
  MemDb.Db {[ "beds_test" := [[Some "Polk"; Some "7"]] ]} None.

(** A database in which the table [covid.beds_test] exists and is empty *)
Definition covid_db : MemDb.memdb := MemDb.Db {[ "covid.beds_test" := [] ]} None.

Definition RuntimeError (msg : string) : exn := PyExc "RuntimeError" [msg].

(** A session body that fails without touching the database *)
Definition failing_body {D} (t : TempTable) : M D unit :=
  raise (RuntimeError "scrape failed").

Definition beds_session (d : bool) : TempTable :=
  {| tt_df := beds; table_name := "beds_test"; tt_conn := Engine;
     tt_kw := default_kw; destroy := d |}.


(** ** Vocabulary of the statements about whole runs of the loader *)

(** The calls of a run replayed against the driver: every cursor and every
    connection that an accepted call opened has been left again, and nothing
    is left that was not open.  An opening call that raises opens nothing; an
    exit counts whether or not it raises. *)
Fixpoint brackets_closed {D} `{Driver D} (cs : list call) (d : D)
    (cursors conns : nat) : bool :=
  match cs with
  | [] => Nat.eqb cursors 0 && Nat.eqb conns 0
  | c :: r =>
      let (o, d') := step c d in
      match c with
      | OpenCursor =>
          brackets_closed r d' (match o with Ok _ => S cursors | Raise _ => cursors end) conns
      | EngineConnect =>
          brackets_closed r d' cursors (match o with Ok _ => S conns | Raise _ => conns end)
      | CursorExit =>
          match cursors with
          | O => false
          | S k => brackets_closed r d' k conns
          end
      | ConnectionExit =>
          match conns with
          | O => false
          | S k => brackets_closed r d' cursors k
          end
      | _ => brackets_closed r d' cursors conns
      end
  end.

(** The calls of a run replayed against the driver: a commit is only ever the
    call that follows a copy the driver accepted.  [copied] tells whether the
    call just replayed was such a copy. *)
Fixpoint commits_follow_copy {D} `{Driver D} (cs : list call) (d : D)
    (copied : bool) : bool :=
  match cs with
  | [] => true
  | c :: r =>
      let (o, d') := step c d in
      match c with
      | Commit => copied && commits_follow_copy r d' false
      | CopyFrom _ _ _ _ =>
          commits_follow_copy r d' (match o with Ok _ => true | Raise _ => false end)
      | _ => commits_follow_copy r d' false
      end
  end.

(** The calls of a load under a policy other than replace: the one statement
    sent through [conn.execute] is the create statement, and no statement is
    sent through the cursor. *)
Definition append_call `{Pandas} (df : DataFrame) (conn : handle) (name full : string)
    (temp : bool) (c : call) : Prop :=
  match c with
  | ConnExecute h sql =>
      h = conn /\ exists q, get_schema df name conn = Ok q
                            /\ sql = create_query_of q name full temp
  | CursorExecute _ => False
  | _ => True
  end.

(** The calls an Engine adds around a staging that fails before a cursor is
    opened *)
Definition connect_calls (conn : handle) : list call :=
  match conn with
  | Engine => [EngineConnect; ConnectionExit]
  | _ => []
  end.

(** The rows of a table, none when the table does not exist *)
Definition rows_of (t : gmap string (list MemDb.dbrow)) (n : string) : list MemDb.dbrow :=
  match t !! n with
  | Some rs => rs
  | None => []
  end.

(** ** can_tools.scrapers.official.FL.fl_hospitals: _clean_cols

    The frame is taken column by column, as [df[col]] reads and writes it: a
    list of labelled series, the labels distinct.  The source assigns each
    cleaned series back into the frame it was given and returns that frame;
    the model returns the columns of the frame after the call, and an
    exception in their place.  The patterns of the callers have no character
    that a regular expression treats specially, so [Series.str.replace]
    replaces the pattern as it is written.  [pd.to_numeric] is library code
    and is a parameter. *)

(** [str(x)] of a cell, as [Series.astype(str)] applies it *)
Definition astype_str (c : cell) : string :=
  match c with
  | Missing => "nan"
  | NoneValue => "None"
  | NaT => "NaT"
  | Text s => s
  | Number r => r
  end.

(** [s.astype(str).str.replace(bad, "")] *)
Definition str_replace_series (bad : string) (s : list cell) : list cell :=
  map (fun c => Text (Str.replace (astype_str c) bad "")) s.

(** The loop [for bad in bads] on one column *)
Definition clean_series (bads : list string) (s : list cell) : list cell :=
  fold_left (fun s bad => str_replace_series bad s) bads s.

(** [col in str_cols] *)
Definition in_list (x : string) (l : list string) : bool := existsb (String.eqb x) l.

(** The loop [for col in list(df)]: the patterns are removed from every
    column, and the columns outside [str_cols] are converted. *)
Fixpoint _clean_cols (to_numeric : list cell -> outcome (list cell))
    (df : list (string * list cell)) (bads str_cols : list string)
    : outcome (list (string * list cell)) :=
  match df with
  | [] => Ok []
  | (col, s) :: rest =>
      let s1 := clean_series bads s in
      match (if in_list col str_cols then Ok s1 else to_numeric s1) with
      | Raise e => Raise e
      | Ok s2 =>
          match _clean_cols to_numeric rest bads str_cols with
          | Raise e => Raise e
          | Ok out => Ok ((col, s2) :: out)
          end
      end
  end.

(** The patterns and the text columns of the two [_clean_df] that call
    [_clean_cols] *)
Definition bads : list string := [","; "%"; "nan"].

Definition str_cols : list string := ["County"; "FileNumber"; "ProviderName"].

(** What the three patterns, removed in turn, leave of a text *)
Definition clean_text (t : string) : string :=
  Str.replace (Str.replace (Str.replace t "," "") "%" "") "nan" "".

(** A text in which none of the three patterns occurs *)
Definition clean_already (t : string) : Prop :=
  Str.has_char ","%char t = false
  /\ Str.has_char "%"%char t = false
  /\ Str.contains "nan" t = false.

(** A text cell without comma and without percent sign *)
Definition separator_free (c : cell) : Prop :=
  exists t, c = Text t
            /\ Str.has_char ","%char t = false
            /\ Str.has_char "%"%char t = false.

(** ** Frames and sessions of the further examples *)

(** A session that loads into the schema [covid] *)
Definition schema_session (d : bool) : TempTable :=
  {| tt_df := beds; table_name := "beds_test"; tt_conn := Engine;
     tt_kw := {| kw_index := false; kw_if_exists := "append"; kw_cols := None;
                 kw_schema := Some "covid"; kw_temp := false |};
     destroy := d |}.

Definition is_digit (c : ascii) : bool :=
  Nat.leb 48 (nat_of_ascii c) && Nat.leb (nat_of_ascii c) 57.

Fixpoint all_digits (s : string) : bool :=
  match s with
  | EmptyString => true
  | String c s' => is_digit c && all_digits s'
  end.

(** A whole number written in at most eighteen digits, without sign and
    without a leading zero *)
Definition whole_number (c : cell) : bool :=
  match c with
  | Text (String a r) =>
      all_digits (String a r)
      && (negb (Ascii.eqb a "0"%char) || String.eqb r EmptyString)
      && Nat.leb (String.length r) 17
  | _ => false
  end.

(** A stand-in for [pd.to_numeric] in the examples.  It converts the series
    whose values are all such whole numbers, to the numbers that
    [pd.to_numeric] gives for them, and refuses every other series with a
    [ValueError].  It is not [pd.to_numeric], which converts more: an empty
    text, a sign, a fraction. *)
Definition whole_numbers (s : list cell) : outcome (list cell) :=
  if forallb whole_number s
  then Ok (map (fun c => Number (astype_str c)) s)
  else Raise (ValueError ["Unable to parse string"]).

(** Two columns of a hospital frame as the dashboard gives them *)
Definition census : list (string * list cell) :=
  [ ("County", [Text "Dade"; Missing]);
    ("Bed Census", [Text "1,234"; Text "56%"]) ].

(** A frame without columns *)
Definition no_columns : DataFrame :=
  {| index_names := ["None"]; columns := []; rows := [] |}.

(** * Facts about the text helpers *)

Module StrFacts.
Import Str.

Lemma append_cons c s t : String c s +:+ t = String c (s +:+ t).
Proof. reflexivity. Qed.

Lemma append_nil_l s : "" +:+ s = s.
Proof. reflexivity. Qed.

Lemma append_nil_r s : s +:+ "" = s.
Proof. induction s as [|c s IH]; [reflexivity|]. rewrite append_cons. now rewrite IH. Qed.

Lemma append_assoc s t u : (s +:+ t) +:+ u = s +:+ t +:+ u.
Proof. induction s as [|c s IH]; [reflexivity|]. rewrite !append_cons. now rewrite IH. Qed.

Lemma has_char_app c s t : has_char c (s +:+ t) = has_char c s || has_char c t.
Proof.
  induction s as [|a s IH]; [reflexivity|].
  rewrite append_cons. cbn [has_char]. rewrite IH. now rewrite orb_assoc.
Qed.

Lemma startswith_app p s : startswith p (p +:+ s) = true.
Proof.
  induction p as [|a p IH]; [reflexivity|].
  rewrite append_cons. cbn [startswith]. now rewrite Ascii.eqb_refl, IH.
Qed.

Lemma drop_app p s : drop (String.length p) (p +:+ s) = s.
Proof. induction p as [|a p IH]; [now destruct s|]. exact IH. Qed.

(** *** split *)

Lemma split_no_sep c s : has_char c s = false -> split c s = [s].
Proof.
  induction s as [|a s IH]; [reflexivity|].
  cbn [has_char split]. intros E. apply orb_false_iff in E as [E1 E2].
  rewrite E1, (IH E2). reflexivity.
Qed.

Lemma split_app c a b :
  has_char c a = false -> split c (a +:+ String c b) = a :: split c b.
Proof.
  induction a as [|x a IH].
  - intros _. rewrite append_nil_l. cbn [split]. now rewrite Ascii.eqb_refl.
  - cbn [has_char]. intros E. apply orb_false_iff in E as [E1 E2].
    rewrite append_cons. cbn [split]. rewrite E1, (IH E2). reflexivity.
Qed.

(** *** replace *)

Lemma replace_from_skip p s old new :
  replace_from (String.length p) (p +:+ s) old new = replace_from 0 s old new.
Proof.
  induction p as [|a p IH]; [now destruct s|].
  rewrite append_cons. exact IH.
Qed.

Lemma replace_hit c old s new :
  replace_from 0 (String c old +:+ s) (String c old) new
  = new +:+ replace_from 0 s (String c old) new.
Proof.
  rewrite append_cons. cbn [replace_from].
  change (startswith (String c old) (String c (old +:+ s)))
    with (startswith (String c old) (String c old +:+ s)).
  rewrite startswith_app.
  replace (String.length (String c old) - 1) with (String.length old)
    by (cbn [String.length]; lia).
  now rewrite replace_from_skip.
Qed.

Lemma replace_pass c old p s new :
  has_char c p = false ->
  replace_from 0 (p +:+ s) (String c old) new
  = p +:+ replace_from 0 s (String c old) new.
Proof.
  induction p as [|a p IH]; [reflexivity|].
  cbn [has_char]. intros E. apply orb_false_iff in E as [E1 E2].
  rewrite !append_cons. cbn [replace_from startswith].
  rewrite Ascii.eqb_sym, E1. cbn [andb]. now rewrite (IH E2).
Qed.


Lemma split_nonempty c s : split c s <> [].
Proof.
  destruct s as [|a s]; [discriminate|]. cbn [split].
  destruct (Ascii.eqb a c); [discriminate|]. destruct (split c s); discriminate.
Qed.

Lemma split_sep_app c a b : split c (a +:+ String c b) = split c a ++ split c b.
Proof.
  induction a as [|x a IH].
  - rewrite append_nil_l. cbn [split]. now rewrite Ascii.eqb_refl.
  - rewrite append_cons. cbn [split]. rewrite IH.
    destruct (Ascii.eqb x c); [reflexivity|].
    destruct (split c a) eqn:E; [now apply split_nonempty in E|reflexivity].
Qed.

Lemma split_join c (l : list string) :
  l <> [] -> split c (join (String c "") l) = concat (map (split c) l).
Proof.
  induction l as [|a l IH]; [congruence|]. intros _.
  destruct l as [|b l].
  - cbn [join map concat]. now rewrite List.app_nil_r.
  - change (join (String c "") (a :: b :: l))
      with (a +:+ String c "" +:+ join (String c "") (b :: l)).
    rewrite append_cons, append_nil_l, split_sep_app, IH by discriminate. reflexivity.
Qed.

End StrFacts.

(** * Facts about the loader and the session, for every driver *)

Section LoaderFacts.
Context {D : Type} {drv : Driver D} {pd : Pandas}.

(** Unfold the loader down to the driver calls. *)
Ltac unfold_loader :=
  cbv [fast_to_sql upload_via_conn bind ret raise lift perform with_
       try_except_pass _try_empty_table __enter__ __exit__ session];
  cbn [log dbst].

(** Case analysis on the answer of every driver and pandas call of the goal,
    in the order in which the program makes them. *)
Ltac step_cases :=
  repeat match goal with
  | |- context [step ?c ?d] =>
      let E := fresh "E" in
      destruct (step c d) as [[[]|?] ?] eqn:E; cbn [log dbst]
  | |- context [get_schema ?a ?b ?c] =>
      let E := fresh "G" in
      destruct (get_schema a b c) eqn:E; cbn [log dbst]
  | |- context [to_csv ?a ?b ?c ?d ?e] =>
      let E := fresh "C" in
      destruct (to_csv a b c d e) eqn:E; cbn [log dbst]
  end.

(** Run the program of the goal along the answers given as hypotheses. *)
Ltac use_steps :=
  repeat match goal with
  | E : step _ _ = _ |- _ => rewrite E; clear E; cbv beta iota zeta delta [log dbst]
  end.

Ltac flatten_log := repeat rewrite <- app_assoc; cbn [app].

(** Accepting a sequence of calls is accepting its two halves in turn. *)
Lemma accepts_app (cs1 cs2 : list call) (d : D) :
  accepts (cs1 ++ cs2) d = match accepts cs1 d with Some d' => accepts cs2 d' | None => None end.
Proof.
  revert d. induction cs1 as [|c cs1 IH]; intros d; simpl; [reflexivity|].
  destruct (step c d) as [[|] ?]; [apply IH | reflexivity].
Qed.

(** A load that returns has made exactly the calls of [load_calls], all
    accepted. *)
Lemma load_success df conn name index if_exists cols schema temp w w' :
  fast_to_sql df conn name index if_exists cols schema temp w = (Ok tt, w') ->
  exists q csv,
    get_schema df name conn = Ok q /\
    to_csv df Str.tab (selected_cols df index cols) index false = Ok csv /\
    recognised conn = true /\
    let calls := load_calls conn if_exists (full_name_of schema name)
                   (create_query_of q name (full_name_of schema name) temp) csv
                   (map Str.quoted (selected_cols df index cols)) in
    accepts calls (dbst w) = Some (dbst w') /\ log w' = log w ++ calls.
Proof.
  unfold_loader. unfold load_calls, ddl_calls, open_calls, exit_calls, is_replace, selected_cols.
  destruct (String.eqb if_exists "replace"); destruct conn; step_cases.
  all: intros [= <-]; try discriminate.
  all: cbn [log dbst]; do 2 eexists; repeat split; try reflexivity.
  all: flatten_log; unfold drop_stmt, delete_stmt; cbn [accepts]; use_steps; reflexivity.
Qed.

(** Conversely, when pandas returns and the driver accepts the calls of
    [load_calls], the load returns. *)
Lemma load_runs df conn name index if_exists cols schema temp q csv w d' :
  recognised conn = true ->
  get_schema df name conn = Ok q ->
  to_csv df Str.tab (selected_cols df index cols) index false = Ok csv ->
  let calls := load_calls conn if_exists (full_name_of schema name)
                 (create_query_of q name (full_name_of schema name) temp) csv
                 (map Str.quoted (selected_cols df index cols)) in
  accepts calls (dbst w) = Some d' ->
  fast_to_sql df conn name index if_exists cols schema temp w
  = (Ok tt, World (log w ++ calls) d').
Proof.
  intros Hrec G C. unfold_loader.
  unfold load_calls, ddl_calls, open_calls, exit_calls, is_replace, selected_cols in *.
  rewrite G.
  destruct (String.eqb if_exists "replace"); destruct conn; try discriminate Hrec.
  all: cbn [app accepts]; unfold drop_stmt, delete_stmt; rewrite ?C; step_cases.
  all: try discriminate.
  all: intros [= <-]; flatten_log; reflexivity.
Qed.

(** The first call of a replace load is the drop, whatever happens next. *)
Lemma replace_drops_first df conn name index cols schema temp w :
  exists rest,
    log (snd (fast_to_sql df conn name index "replace" cols schema temp w))
    = log w ++ ConnExecute conn (drop_stmt (full_name_of schema name)) :: rest.
Proof.
  unfold_loader. cbn [String.eqb Ascii.eqb Bool.eqb]. unfold drop_stmt.
  destruct conn; step_cases; cbn [snd log]; flatten_log; eexists; reflexivity.
Qed.

(** A handle of another type: the DDL calls, then the [ValueError]. *)
Lemma unknown_handle df ty name index if_exists cols schema temp q w d' :
  get_schema df name (Other ty) = Ok q ->
  let calls := ddl_calls (Other ty) if_exists (full_name_of schema name)
                 (create_query_of q name (full_name_of schema name) temp) in
  accepts calls (dbst w) = Some d' ->
  fast_to_sql df (Other ty) name index if_exists cols schema temp w
  = (Raise (ValueError ["Don't know how to handle conn with type:"; ty]),
     World (log w ++ calls) d').
Proof.
  intros G. unfold_loader. unfold ddl_calls, is_replace, drop_stmt. rewrite G.
  destruct (String.eqb if_exists "replace"); cbn [app accepts]; step_cases;
    try discriminate; intros [= <-]; flatten_log; reflexivity.
Qed.

(** An exception of [get_schema] comes after the drop of the replace policy. *)
Lemma schema_error_after_drop df conn name index cols schema temp e w d' :
  get_schema df name conn = Raise e ->
  step (ConnExecute conn (drop_stmt (full_name_of schema name))) (dbst w) = (Ok tt, d') ->
  fast_to_sql df conn name index "replace" cols schema temp w
  = (Raise e, World (log w ++ [ConnExecute conn (drop_stmt (full_name_of schema name))]) d').
Proof.
  intros G E. unfold_loader. cbn [String.eqb Ascii.eqb Bool.eqb].
  unfold drop_stmt in E. rewrite E, G. reflexivity.
Qed.

(** Turn an [accepts] hypothesis into one equation per call. *)
Ltac split_accepts Hacc :=
  cbn [app accepts] in Hacc;
  repeat match type of Hacc with
  | context [step ?c ?d] =>
      let E := fresh "E" in
      destruct (step c d) as [[[]|?] ?] eqn:E; try discriminate Hacc
  end;
  injection Hacc as <-.

(** An exception of [copy_from] goes through the exits of the [with] blocks
    and reaches the caller as it is. *)
Lemma copy_failure df conn name index if_exists cols schema temp q csv e w d1 d2 d3 :
  recognised conn = true ->
  get_schema df name conn = Ok q ->
  to_csv df Str.tab (selected_cols df index cols) index false = Ok csv ->
  let full := full_name_of schema name in
  let before := ddl_calls conn if_exists full (create_query_of q name full temp)
                ++ open_calls conn if_exists full in
  let copy := CopyFrom csv full (map Str.quoted (selected_cols df index cols)) "" in
  accepts before (dbst w) = Some d1 ->
  step copy d1 = (Raise e, d2) ->
  accepts (exit_calls conn) d2 = Some d3 ->
  fast_to_sql df conn name index if_exists cols schema temp w
  = (Raise e, World (log w ++ before ++ [copy] ++ exit_calls conn) d3).
Proof.
  intros Hrec G C full before copy Hacc Hcopy Hexit. subst full before copy.
  unfold ddl_calls, open_calls, exit_calls, is_replace, selected_cols, drop_stmt, delete_stmt in *.
  destruct (String.eqb if_exists "replace") eqn:R; destruct conn; try discriminate Hrec.
  all: split_accepts Hacc; split_accepts Hexit.
  all: unfold_loader; rewrite R, G, C; use_steps; flatten_log; reflexivity.
Qed.

(** The create statement a load issues is the schema text of [get_schema]
    after the two replacements. *)
Lemma create_is_issued df conn name index if_exists cols schema temp q w :
  get_schema df name conn = Ok q ->
  (is_replace if_exists = true ->
   fst (step (ConnExecute conn (drop_stmt (full_name_of schema name))) (dbst w)) = Ok tt) ->
  exists rest,
    log (snd (fast_to_sql df conn name index if_exists cols schema temp w))
    = log w
      ++ ddl_calls conn if_exists (full_name_of schema name)
           (create_query_of q name (full_name_of schema name) temp)
      ++ rest.
Proof.
  intros G Hdrop. unfold_loader. unfold ddl_calls, is_replace, drop_stmt in *. rewrite G.
  destruct (String.eqb if_exists "replace").
  - specialize (Hdrop eq_refl).
    destruct (step (ConnExecute conn _) (dbst w)) as [[[]|?] ?]; [|discriminate Hdrop].
    cbv beta iota zeta delta [log dbst].
    destruct conn; step_cases; cbn [snd log]; flatten_log; eexists; reflexivity.
  - destruct conn; step_cases; cbn [snd log]; flatten_log; eexists; reflexivity.
Qed.


(** The truncate is issued and its outcome is dropped. *)
Lemma try_empty_table_ok (self : TempTable) (w : world D) :
  _try_empty_table self w
  = (Ok tt,
     World (log w ++ [ConnExecute (tt_conn self) (truncate_stmt (table_name self))])
           (snd (step (ConnExecute (tt_conn self) (truncate_stmt (table_name self))) (dbst w)))).
Proof.
  unfold _try_empty_table, try_except_pass, perform, truncate_stmt.
  destruct (step _ (dbst w)) as [r d']. reflexivity.
Qed.

(** What [__exit__] does, in one equation. *)
Lemma exit_runs (self : TempTable) (w : world D) :
  let tr := ConnExecute (tt_conn self) (truncate_stmt (table_name self)) in
  let dr := ConnExecute (tt_conn self) (drop_stmt (table_name self)) in
  let d1 := snd (step tr (dbst w)) in
  __exit__ self w =
    if destroy self
    then (fst (step dr d1), World (log w ++ release_calls self) (snd (step dr d1)))
    else (Ok tt, World (log w ++ release_calls self) d1).
Proof.
  cbv zeta. unfold __exit__, release_calls, bind. rewrite try_empty_table_ok.
  destruct (destroy self); [|reflexivity].
  unfold perform, drop_stmt. cbn [log dbst].
  destruct (step _ (snd _)) as [r d']. cbn [fst snd]. flatten_log. reflexivity.
Qed.

(** A session whose acquisition succeeded: the body, then the exit, whose
    exception, if any, wins. *)
Lemma session_release {A} (self : TempTable) (body : TempTable -> M D A) w t w1 r w2 :
  __enter__ self w = (Ok t, w1) ->
  body t w1 = (r, w2) ->
  session self body w =
    (match fst (__exit__ self w2) with
     | Ok _ => r
     | Raise e' => Raise e'
     end, snd (__exit__ self w2)).
Proof.
  intros He Hb. unfold session, with_. rewrite He, Hb.
  destruct (__exit__ self w2) as [[[]|e'] w3]; destruct r; reflexivity.
Qed.

(** [__enter__] returns the manager. *)
Lemma enter_returns_self (self t : TempTable) w w1 :
  __enter__ self w = (Ok t, w1) -> t = self.
Proof.
  unfold __enter__, bind, ret. rewrite try_empty_table_ok.
  destruct (fast_to_sql _ _ _ _ _ _ _ _ _) as [[[]|e] w']; congruence.
Qed.

End LoaderFacts.

(** * Facts about the reference database *)

Module MemDbFacts.
Import MemDb.

(** The three maintenance statements are parsed back to the name they were
    built from, whatever the name. *)
Lemma chop_semicolon_app (n : string) : chop_semicolon (n +:+ ";") = n.
Proof.
  induction n as [|c n IH]; [reflexivity|].
  destruct n as [|c' n']; [reflexivity|].
  change (String c (chop_semicolon (String c' n' +:+ ";")) = String c (String c' n')).
  now rewrite IH.
Qed.

Lemma parse_drop n : parse (drop_stmt n) = DropIfExists n.
Proof. unfold parse, drop_stmt. cbn. f_equal. apply chop_semicolon_app. Qed.

Lemma parse_truncate n : parse (truncate_stmt n) = Truncate n.
Proof. unfold parse, truncate_stmt. cbn. f_equal. apply chop_semicolon_app. Qed.

Lemma parse_delete n : parse (delete_stmt n) = DeleteFrom n.
Proof. unfold parse, delete_stmt. cbn. f_equal. apply chop_semicolon_app. Qed.

(** What the reference database answers to each statement of the module *)
Lemma drop_never_fails conn n (d : memdb) :
  step (ConnExecute conn (drop_stmt n)) d = (Ok tt, Db (delete n (view d)) None).
Proof. cbn [step memdb_driver memdb_step]. rewrite parse_drop. reflexivity. Qed.

Lemma truncate_step conn n (d : memdb) :
  step (ConnExecute conn (truncate_stmt n)) d =
    match view d !! n with
    | Some _ => (Ok tt, Db (<[n := []]> (view d)) None)
    | None => (Raise (undefined_table n), d)
    end.
Proof.
  cbn [step memdb_driver memdb_step]. rewrite parse_truncate. cbn [run_stmt].
  destruct (view d !! n); reflexivity.
Qed.

Lemma delete_step n (d : memdb) :
  step (CursorExecute (delete_stmt n)) d =
    match view d !! n with
    | Some _ => (Ok tt, Db (committed d) (Some (<[n := []]> (view d))))
    | None => (Raise (undefined_table n), d)
    end.
Proof.
  cbn [step memdb_driver memdb_step]. rewrite parse_delete. cbn [run_stmt].
  destruct (view d !! n); reflexivity.
Qed.

Lemma copy_step payload table cols null (d : memdb) :
  step (CopyFrom payload table cols null) d =
    match view d !! table with
    | Some old =>
        if copy_refused payload cols null then (Raise BadCopyFileFormat, d)
        else (Ok tt, Db (committed d)
                        (Some (<[table := old ++ copy_rows payload null]> (view d))))
    | None => (Raise (undefined_table table), d)
    end.
Proof. reflexivity. Qed.

(** After a replace load that returned, the table holds the staged rows and
    nothing else. *)
Lemma replace_load_rows `{Pandas} df conn name index cols schema temp
    (w w' : world memdb) :
  fast_to_sql df conn name index "replace" cols schema temp w = (Ok tt, w') ->
  exists csv,
    to_csv df Str.tab (selected_cols df index cols) index false = Ok csv
    /\ visible (dbst w') (full_name_of schema name) = Some (copy_rows csv "").
Proof.
  intros Hrun. apply load_success in Hrun as (q & csv & _ & C & Hrec & Hacc & _).
  exists csv. split; [exact C|].
  set (full := full_name_of schema name) in *.
  unfold load_calls, ddl_calls, open_calls, exit_calls in Hacc.
  change (is_replace "replace") with true in Hacc.
  assert (Hstage : forall d d',
             accepts [OpenCursor; CursorExecute (delete_stmt full);
                      CopyFrom csv full (map Str.quoted (selected_cols df index cols)) "";
                      Commit; CursorExit] d = Some d' ->
             d' = Db (<[full := copy_rows csv ""]> (<[full := []]> (view d))) None).
  { intros d d'. cbn [accepts]. change (step OpenCursor d) with (Ok tt, d).
    cbv iota beta. rewrite delete_step.
    destruct (view d !! full) as [old|]; [|discriminate].
    rewrite copy_step. cbn [view pending]. rewrite lookup_insert_eq.
    destruct (copy_refused _ _ _); [discriminate|].
    change (step Commit ?x) with (Ok tt, Db (view x) None). cbv iota beta.
    change (step CursorExit ?x) with (Ok tt, x). cbv iota beta.
    cbn [view pending app]. now intros [= <-]. }
  assert (HstageE : forall d d',
             accepts ([OpenCursor; CursorExecute (delete_stmt full);
                       CopyFrom csv full (map Str.quoted (selected_cols df index cols)) "";
                       Commit; CursorExit] ++ [ConnectionExit]) d = Some d' ->
             d' = Db (<[full := copy_rows csv ""]> (<[full := []]> (view d))) None).
  { intros d d'. rewrite accepts_app.
    destruct (accepts _ d) as [d5|] eqn:E; [|discriminate].
    apply Hstage in E. subst d5. cbn [accepts].
    change (step ConnectionExit ?x) with (Ok tt, Db (committed x) None).
    cbv iota beta. cbn [committed]. now intros [= <-]. }
  destruct conn; try discriminate Hrec; cbn [app accepts] in Hacc;
    rewrite drop_never_fails in Hacc;
    destruct (step (ConnExecute _ (create_query_of _ _ _ _)) _) as [[[]|?] dc];
    try discriminate Hacc.
  - change (step EngineConnect dc) with (Ok tt, dc) in Hacc. cbv iota beta in Hacc.
    apply HstageE in Hacc. rewrite Hacc. unfold visible. cbn [committed].
    apply lookup_insert_eq.
  - apply Hstage in Hacc. rewrite Hacc. unfold visible. cbn [committed].
    apply lookup_insert_eq.
Qed.

(** The release on the reference database: it returns, and leaves the table
    absent, or empty when it is only truncated. *)
Lemma release_on_memdb (self : TempTable) (w : world memdb) :
  let r := __exit__ self w in
  fst r = Ok tt
  /\ if destroy self
     then view (dbst (snd r)) !! table_name self = None
     else view (dbst (snd r)) !! table_name self = Some []
          \/ view (dbst (snd r)) !! table_name self = None.
Proof.
  cbv zeta. rewrite exit_runs. rewrite truncate_step.
  destruct (destroy self).
  - rewrite drop_never_fails. cbn [fst snd dbst view pending]. split; [reflexivity|].
    apply lookup_delete_eq.
  - cbn [fst snd dbst]. split; [reflexivity|].
    destruct (view (dbst w) !! table_name self) eqn:E; cbn [snd view pending].
    + left. apply lookup_insert_eq.
    + right. exact E.
Qed.

End MemDbFacts.

(** * Facts about dedent on the DDL template *)

Module DedentFacts.
Import Str Textwrap StrFacts.

(** The lines of an indented, joined block *)
Lemma split_block ind sepc items :
  no_nl ind -> no_nl sepc -> Forall no_nl items ->
  split (ascii_of_nat 10) (ind +:+ join (sepc +:+ nl +:+ ind) items) = block ind sepc items.
Proof.
  intros Hi Hs Hall. induction Hall as [|d rest Hd Hrest IH].
  - cbn [join block]. rewrite append_nil_r. now apply split_no_sep.
  - destruct rest as [|d' rest'].
    + cbn [join block]. apply split_no_sep. unfold no_nl in *.
      now rewrite has_char_app, Hi, Hd.
    + change (join (sepc +:+ nl +:+ ind) (d :: d' :: rest'))
        with (d +:+ (sepc +:+ nl +:+ ind) +:+ join (sepc +:+ nl +:+ ind) (d' :: rest')).
      change (block ind sepc (d :: d' :: rest'))
        with ((ind +:+ d +:+ sepc) :: block ind sepc (d' :: rest')).
      rewrite <- IH.
      replace (ind +:+ d +:+ (sepc +:+ nl +:+ ind) +:+ join (sepc +:+ nl +:+ ind) (d' :: rest'))
        with ((ind +:+ d +:+ sepc) +:+ String (ascii_of_nat 10) (ind +:+ join (sepc +:+ nl +:+ ind) (d' :: rest'))).
      * apply split_app. unfold no_nl in *. now rewrite !has_char_app, Hi, Hd, Hs.
      * rewrite !append_assoc. reflexivity.
Qed.


(** The f-string is its nine pieces joined by line feeds. *)
Lemma template_join t cs ms :
  ddl_template t cs ms
  = join nl [""; "    CREATE TABLE " +:+ t +:+ " ("; "        " +:+ cs; "    );"; "";
             "    COMMENT ON TABLE " +:+ t +:+ " is E'';"; ""; "    " +:+ ms; "    "].
Proof.
  unfold ddl_template. cbn [join]. rewrite !append_assoc. reflexivity.
Qed.

(** Without line feeds in the name, the declarations and the comments, the
    lines of the f-string are [raw_lines]. *)
Lemma split_template t decls comments :
  no_nl t -> Forall no_nl decls -> Forall no_nl comments ->
  split (ascii_of_nat 10) (ddl_template t (join ("," +:+ nl +:+ "        ") decls)
                            (join (nl +:+ "    ") comments))
  = raw_lines t decls comments.
Proof.
  intros Ht Hd Hc. rewrite template_join.
  change nl with (String (ascii_of_nat 10) "") at 1. rewrite split_join by discriminate.
  cbn [map concat]. rewrite (split_block "        " "," decls); [|reflexivity|reflexivity|assumption].
  change (nl +:+ "    ") with ("" +:+ nl +:+ "    ").
  rewrite (split_block "    " "" comments); [|reflexivity|reflexivity|assumption].
  assert (Hlit : forall a b, has_char (ascii_of_nat 10) a = false -> has_char (ascii_of_nat 10) b = false ->
                          has_char (ascii_of_nat 10) (a +:+ t +:+ b) = false).
  { intros a b Ha Hb. unfold no_nl in Ht. now rewrite !has_char_app, Ha, Ht, Hb. }
  rewrite !split_no_sep by (reflexivity || (apply Hlit; reflexivity)).
  unfold raw_lines. cbn [app]. reflexivity.
Qed.


(** The margin: every line keeps the four-space margin of the first one. *)
Lemma indent_of_normalize l :
  indent_of (normalize_line l) = if all_blank l then None else Some (leading_blank l).
Proof.
  unfold normalize_line, indent_of. destruct (all_blank l) eqn:E; [reflexivity|].
  now rewrite E.
Qed.

Lemma keeps_margin_indented r : keeps_margin (margin4 +:+ r).
Proof.
  unfold keeps_margin. rewrite indent_of_normalize.
  destruct (all_blank _); [exact I|]. reflexivity.
Qed.

Lemma keeps_margin_empty : keeps_margin "".
Proof. exact I. Qed.

Lemma keeps_margin_block ind sepc items :
  Forall keeps_margin (block (margin4 +:+ ind) sepc items).
Proof.
  induction items as [|d rest IH].
  - constructor; [|constructor]. rewrite <- (append_nil_r (margin4 +:+ ind)), append_assoc.
    apply keeps_margin_indented.
  - destruct rest as [|d' rest'].
    + constructor; [|constructor]. cbn [block]. rewrite append_assoc. apply keeps_margin_indented.
    + change (block (margin4 +:+ ind) sepc (d :: d' :: rest'))
        with (((margin4 +:+ ind) +:+ d +:+ sepc) :: block (margin4 +:+ ind) sepc (d' :: rest')).
      constructor; [|exact IH]. rewrite append_assoc. apply keeps_margin_indented.
Qed.

Lemma margin_stable (ls : list string) :
  Forall keeps_margin ls ->
  fold_left merge_margin (omap indent_of (map normalize_line ls)) (Some margin4)
  = Some margin4.
Proof.
  induction 1 as [|l ls Hl _ IH]; [reflexivity|].
  cbn [map omap list_omap]. unfold keeps_margin in Hl.
  destruct (indent_of (normalize_line l)) as [i|]; [|exact IH].
  cbn [fold_left merge_margin]. rewrite Hl. exact IH.
Qed.

Lemma raw_lines_margin t decls comments :
  fold_left merge_margin
    (omap indent_of (map normalize_line (raw_lines t decls comments))) None
  = Some margin4.
Proof.
  unfold raw_lines. cbn [app map omap list_omap].
  change (normalize_line "") with "". change (indent_of "") with (@None string).
  rewrite indent_of_normalize.
  change (all_blank ("    CREATE TABLE " +:+ t +:+ " (")) with false.
  change (leading_blank ("    CREATE TABLE " +:+ t +:+ " (")) with margin4.
  cbn [fold_left merge_margin].
  apply margin_stable.
  apply Forall_app. split; [apply (keeps_margin_block "    ")|].
  repeat (constructor; [first [apply keeps_margin_empty | apply (keeps_margin_indented _)]|]).
  apply Forall_app. split; [apply (keeps_margin_block "")|].
  constructor; [apply (keeps_margin_indented "")|constructor].
Qed.


(** Removing the margin, line by line *)
Lemma all_blank_app x y : all_blank (x +:+ y) = all_blank x && all_blank y.
Proof.
  induction x as [|a x IH]; [reflexivity|].
  rewrite append_cons. cbn [all_blank]. now rewrite IH, andb_assoc.
Qed.

Lemma dedent_line_indented ind d r :
  starts_nonblank d ->
  dedent_line (margin4 +:+ ind +:+ d +:+ r) = ind +:+ d +:+ r.
Proof.
  intros (a & d' & -> & Ha). unfold dedent_line, normalize_line.
  rewrite !all_blank_app. cbn [all_blank String.append]. rewrite Ha.
  rewrite !andb_false_r. unfold strip_margin.
  rewrite startswith_app. apply drop_app.
Qed.

Lemma dedent_line_blank l : all_blank l = true -> dedent_line l = "".
Proof. intros E. unfold dedent_line, normalize_line. now rewrite E. Qed.

Lemma dedent_block ind sepc items :
  all_blank ind = true -> Forall starts_nonblank items ->
  map dedent_line (block (margin4 +:+ ind) sepc items) = out_block ind sepc items.
Proof.
  intros Hi Hall. destruct Hall as [|d rest Hd Hrest].
  - cbn [block map out_block]. rewrite dedent_line_blank; [reflexivity|].
    now rewrite all_blank_app, Hi.
  - unfold out_block. revert d Hd. induction Hrest as [|d' rest' Hd' Hrest' IH]; intros d Hd.
    + cbn [block map]. rewrite append_assoc, <- (append_nil_r d) at 1.
      rewrite dedent_line_indented by assumption. now rewrite append_nil_r.
    + change (block (margin4 +:+ ind) sepc (d :: d' :: rest'))
        with (((margin4 +:+ ind) +:+ d +:+ sepc) :: block (margin4 +:+ ind) sepc (d' :: rest')).
      change (block ind sepc (d :: d' :: rest'))
        with ((ind +:+ d +:+ sepc) :: block ind sepc (d' :: rest')).
      cbn [map]. rewrite (IH d' Hd'), append_assoc.
      now rewrite dedent_line_indented by assumption.
Qed.

Lemma dedent_raw_lines t decls comments :
  Forall starts_nonblank decls -> Forall starts_nonblank comments ->
  map dedent_line (raw_lines t decls comments) = ddl_lines t decls comments.
Proof.
  intros Hd Hc. unfold raw_lines, ddl_lines. rewrite !map_app.
  change (block "        " "," decls) with (block (margin4 +:+ "    ") "," decls).
  change (block "    " "" comments) with (block (margin4 +:+ "") "" comments).
  rewrite (dedent_block "    " "," decls), (dedent_block "" "" comments) by (assumption || reflexivity).
  reflexivity.
Qed.

(** [dedent] on the f-string of the drafter *)
Lemma dedent_template t decls comments :
  no_nl t -> Forall no_nl decls -> Forall no_nl comments ->
  Forall starts_nonblank decls -> Forall starts_nonblank comments ->
  dedent (ddl_template t (join ("," +:+ nl +:+ "        ") decls)
                         (join (nl +:+ "    ") comments))
  = join nl (ddl_lines t decls comments).
Proof.
  intros Ht Hd Hc Sd Sc. unfold dedent.
  rewrite split_template by assumption.
  rewrite raw_lines_margin. unfold margin4 at 1.
  rewrite map_map. f_equal.
  now apply dedent_raw_lines.
Qed.

End DedentFacts.

(** * Facts about the drafter *)

Module DraftFacts.
Import Str Textwrap StrFacts DedentFacts.

Lemma existsb_eqb_In x (l : list string) : existsb (String.eqb x) l = true <-> In x l.
Proof.
  rewrite existsb_exists. split.
  - intros (y & Hy & E). apply String.eqb_eq in E. now subst.
  - intros Hx. exists x. split; [assumption|apply String.eqb_refl].
Qed.

(** The dtype of a column is among the dtypes under its label. *)
Lemma under_in (cols : list (string * dtype)) c dt :
  In (c, dt) cols -> In dt (dtypes_under cols c).
Proof.
  intros Hin. unfold dtypes_under. apply in_map_iff. exists (c, dt). split; [reflexivity|].
  apply filter_In. split; [assumption|]. apply String.eqb_refl.
Qed.

Lemma under_absent (cols : list (string * dtype)) c :
  existsb (String.eqb c) (map fst cols) = false -> dtypes_under cols c = [].
Proof.
  unfold dtypes_under. induction cols as [|[c0 d0] cols IH]; [reflexivity|].
  cbn [map fst existsb List.filter]. intros H. apply orb_false_iff in H as [H0 H].
  rewrite String.eqb_sym, H0. now apply IH.
Qed.

(** With distinct labels no column is repeated. *)
Lemma distinct_not_repeated (cols : list (string * dtype)) col :
  distinct (map fst cols) = true -> In col cols -> repeated cols col = false.
Proof.
  unfold repeated. induction cols as [|[c0 d0] cols IH]; intros Hd Hin; [destruct Hin|].
  cbn [map fst distinct] in Hd. apply andb_true_iff in Hd as [Hn Hd].
  apply negb_true_iff in Hn. unfold dtypes_under in *. cbn [List.filter].
  destruct Hin as [<-|Hin].
  - cbn [fst]. rewrite String.eqb_refl. cbn [map length].
    fold (dtypes_under cols c0). now rewrite under_absent.
  - change (fst (c0, d0)) with c0.
    destruct (String.eqb_spec c0 (fst col)) as [E|E].
    + exfalso. assert (Hl : In c0 (map fst cols)) by (rewrite E; now apply in_map).
      apply existsb_eqb_In in Hl. congruence.
    + now apply IH.
Qed.

(** Conversely, labels none of which is repeated are distinct. *)
Lemma under_cons_ne c0 d0 (cols : list (string * dtype)) c :
  c0 <> c -> dtypes_under ((c0, d0) :: cols) c = dtypes_under cols c.
Proof.
  intros E. unfold dtypes_under. cbn [List.filter fst].
  destruct (String.eqb_spec c0 c); [contradiction|reflexivity].
Qed.

Lemma not_repeated_distinct (cols : list (string * dtype)) :
  (forall col, In col cols -> repeated cols col = false) ->
  distinct (map fst cols) = true.
Proof.
  induction cols as [|[c0 d0] cols IH]; intros H; [reflexivity|].
  cbn [map fst distinct].
  assert (H0 : dtypes_under cols c0 = []).
  { specialize (H (c0, d0) (or_introl eq_refl)). unfold repeated, dtypes_under in H.
    cbn [fst List.filter] in H. rewrite String.eqb_refl in H. cbn [map length] in H.
    apply negb_false_iff, Nat.eqb_eq in H. injection H as H.
    now apply length_zero_iff_nil in H. }
  assert (Hn : existsb (String.eqb c0) (map fst cols) = false).
  { destruct (existsb (String.eqb c0) (map fst cols)) eqn:E; [|reflexivity].
    apply existsb_eqb_In in E. apply in_map_iff in E as ([c d] & Hc & Hin).
    cbn [fst] in Hc. subst c. apply under_in in Hin. rewrite H0 in Hin. destruct Hin. }
  rewrite Hn. cbn [negb andb]. apply IH. intros [c d] Hin.
  specialize (H (c, d) (or_intror Hin)). unfold repeated in *. cbn [fst] in *.
  rewrite under_cons_ne in H; [exact H|].
  intros ->. apply under_in in Hin. rewrite H0 in Hin. destruct Hin.
Qed.

(** What the lookup gives for the label of a column of the frame *)
Lemma getitem_column (cols : list (string * dtype)) c dt :
  In (c, dt) cols ->
  if repeated cols (c, dt)
  then exists dts, dtypes_getitem cols c = Some (DtypeSeries dts)
  else dtypes_getitem cols c = Some (OneDtype dt).
Proof.
  intros Hin. apply under_in in Hin. unfold repeated, dtypes_getitem. cbn [fst].
  destruct (dtypes_under cols c) as [|d1 [|d2 r]]; cbn [length Nat.eqb negb].
  - destruct Hin.
  - destruct Hin as [->|[]]. reflexivity.
  - eauto.
Qed.

(** The loop stops at the first column that is repeated or outside the map,
    or collects one declaration and one comment per column. *)
Lemma ddl_loop_spec dtypes t pre suf acc1 acc2 :
  dtypes = pre ++ suf ->
  ddl_loop dtypes t (map fst suf) acc1 acc2 =
    match find (refused dtypes) suf with
    | Some (c, dt) =>
        if repeated dtypes (c, dt) then Raise unhashable_series
        else Raise (ValueError [unknown_dtype_msg dt c])
    | None =>
        Ok (acc1 ++ map (fun col => column_decl (fst col) (mapped_type (snd col))) suf,
            acc2 ++ map (fun col => column_comment t (fst col)) suf)
    end.
Proof.
  revert pre acc1 acc2. induction suf as [|[c dt] suf IH]; intros pre acc1 acc2 E.
  - cbn. now rewrite !List.app_nil_r.
  - cbn [map fst ddl_loop find]. unfold refused at 1.
    assert (Hin : In (c, dt) dtypes) by (rewrite E; apply in_elt).
    pose proof (getitem_column dtypes c dt Hin) as Hg.
    destruct (repeated dtypes (c, dt)) eqn:R; cbn [orb].
    + destruct Hg as [dts Hg]. rewrite Hg, R. reflexivity.
    + rewrite Hg. unfold unmapped at 1, mapped_type at 1. cbn [snd fst].
      destruct (dict_get _dtype_map dt) as [ty|] eqn:Ety; [|now rewrite R].
      rewrite (IH (pre ++ [(c, dt)])) by now rewrite <- List.app_assoc.
      destruct (find (refused dtypes) suf) as [[c' dt']|]; [reflexivity|].
      rewrite <- !List.app_assoc. reflexivity.
Qed.

(** The drafter, without its loop *)
Lemma draft_spec df table_name :
  let t := match table_name with None => "REPLACE_NAME" | Some t => t end in
  draft_sql_ddl_statement df table_name =
    match find (refused (columns df)) (columns df) with
    | Some (c, dt) =>
        if repeated (columns df) (c, dt) then Raise unhashable_series
        else Raise (ValueError [unknown_dtype_msg dt c])
    | None =>
        Ok (dedent (ddl_template t
              (join ("," +:+ nl +:+ "        ")
                 (map (fun col => column_decl (fst col) (mapped_type (snd col))) (columns df)))
              (join (nl +:+ "    ")
                 (map (fun col => column_comment t (fst col)) (columns df)))))
    end.
Proof.
  cbv zeta. unfold draft_sql_ddl_statement, list_df.
  rewrite (ddl_loop_spec (columns df) _ [] (columns df)) by reflexivity.
  destruct (find (refused (columns df)) (columns df)) as [[c dt]|]; [|reflexivity].
  now destruct (repeated (columns df) (c, dt)).
Qed.

(** The declarations and the comments have no line feed when the labels have
    none, and begin with a character that is not a blank. *)
Lemma mapped_type_no_nl dt ty : dict_get _dtype_map dt = Some ty -> no_nl ty.
Proof.
  unfold _dtype_map. cbn [dict_get].
  repeat (case_decide; [intros [= <-]; reflexivity|]). discriminate.
Qed.

Lemma find_unmapped_none (cols : list (string * dtype)) :
  Forall (fun col => exists ty, dict_get _dtype_map (snd col) = Some ty) cols ->
  find unmapped cols = None.
Proof.
  induction 1 as [|col cols [ty Hty] _ IH]; [reflexivity|].
  cbn [find]. unfold unmapped at 1. now rewrite Hty.
Qed.

Lemma find_unmapped_some (cols : list (string * dtype)) :
  Exists (fun col => dict_get _dtype_map (snd col) = None) cols ->
  exists c dt, find unmapped cols = Some (c, dt)
               /\ In (c, dt) cols /\ dict_get _dtype_map dt = None.
Proof.
  induction 1 as [[c dt] cols Hnone|[c dt] cols _ IH].
  - exists c, dt. cbn [find]. unfold unmapped.
    change (dict_get _dtype_map dt = None) in Hnone. cbn [snd].
    split; [now rewrite Hnone|]. split; [now left|assumption].
  - cbn [find]. unfold unmapped at 1. cbn [snd].
    destruct (dict_get _dtype_map dt) eqn:E.
    + destruct IH as (c' & dt' & Hf & Hin & Hn). exists c', dt'.
      split; [assumption|]. split; [now right|assumption].
    + exists c, dt. split; [reflexivity|]. split; [now left|assumption].
Qed.

Lemma quoted_no_nl c : no_nl c -> no_nl (quoted c).
Proof.
  unfold no_nl, quoted. intros Hc. now rewrite !has_char_app, Hc.
Qed.

Lemma column_decl_no_nl c dt ty :
  no_nl c -> dict_get _dtype_map dt = Some ty -> no_nl (column_decl c (mapped_type dt)).
Proof.
  intros Hc Hty. unfold column_decl, mapped_type. rewrite Hty.
  pose proof (quoted_no_nl c Hc) as Hq. pose proof (mapped_type_no_nl dt ty Hty) as Ht.
  unfold no_nl in *. now rewrite !has_char_app, Hq, Ht.
Qed.

Lemma column_comment_no_nl t c : no_nl t -> no_nl c -> no_nl (column_comment t c).
Proof.
  unfold no_nl, column_comment. intros Ht Hc. now rewrite !has_char_app, Ht, Hc.
Qed.

Lemma column_decl_starts c ty : starts_nonblank (column_decl c ty).
Proof. eexists _, _. split; reflexivity. Qed.

Lemma column_comment_starts t c : starts_nonblank (column_comment t c).
Proof. eexists _, _. split; reflexivity. Qed.

Lemma find_all_false {A} (f : A -> bool) (l : list A) :
  (forall x, In x l -> f x = false) -> find f l = None.
Proof.
  induction l as [|a l IH]; intros H; [reflexivity|].
  cbn [find]. rewrite (H a) by now left. apply IH. intros x Hx. apply H. now right.
Qed.

Lemma unmapped_false col :
  (exists ty, dict_get _dtype_map (snd col) = Some ty) -> unmapped col = false.
Proof. intros [ty H]. unfold unmapped. now rewrite H. Qed.

(** With distinct labels and mapped dtypes the loop stops nowhere. *)
Lemma find_refused_none (cols : list (string * dtype)) :
  distinct (map fst cols) = true ->
  Forall (fun col => exists ty, dict_get _dtype_map (snd col) = Some ty) cols ->
  find (refused cols) cols = None.
Proof.
  intros Hd Hmap. apply find_all_false. intros col Hin. unfold refused.
  rewrite (distinct_not_repeated cols col Hd Hin).
  rewrite List.Forall_forall in Hmap. now apply unmapped_false, Hmap.
Qed.

Lemma find_ext_in {A} (f g : A -> bool) (l : list A) :
  (forall x, In x l -> f x = g x) -> find f l = find g l.
Proof.
  induction l as [|a l IH]; intros H; [reflexivity|].
  cbn [find]. rewrite (H a) by now left.
  destruct (g a); [reflexivity|]. apply IH. intros x Hx. apply H. now right.
Qed.

(** With distinct labels the loop stops at the first column outside the
    map. *)
Lemma find_refused_distinct (cols : list (string * dtype)) :
  distinct (map fst cols) = true -> find (refused cols) cols = find unmapped cols.
Proof.
  intros Hd. apply find_ext_in. intros col Hin. unfold refused.
  now rewrite (distinct_not_repeated cols col Hd Hin).
Qed.

(** With a column outside the map the loop stops somewhere. *)
Lemma find_refused_some (cols : list (string * dtype)) :
  Exists (fun col => dict_get _dtype_map (snd col) = None) cols ->
  exists c dt, find (refused cols) cols = Some (c, dt) /\ In (c, dt) cols.
Proof.
  intros Hex. destruct (find (refused cols) cols) as [[c dt]|] eqn:Hf.
  - exists c, dt. split; [reflexivity|]. now apply find_some in Hf.
  - exfalso. apply List.Exists_exists in Hex as (col & Hin & Hn).
    pose proof (find_none _ _ Hf col Hin) as Hr. unfold refused, unmapped in Hr.
    rewrite Hn in Hr. now rewrite orb_true_r in Hr.
Qed.

(** The text the drafter returns for a frame whose labels are distinct and
    whose dtypes are all mapped *)
Lemma draft_text df table_name :
  let t := match table_name with None => "REPLACE_NAME" | Some t => t end in
  distinct (list_df df) = true ->
  Forall (fun col => exists ty, dict_get _dtype_map (snd col) = Some ty) (columns df) ->
  no_nl t ->
  Forall (fun col => no_nl (fst col)) (columns df) ->
  draft_sql_ddl_statement df table_name = Ok (ddl_text t (columns df)).
Proof.
  intros t Hd Hmap Ht Hlab. pose proof (draft_spec df table_name) as Hs. cbv zeta in Hs.
  rewrite Hs, find_refused_none by assumption. fold t. f_equal. unfold ddl_text.
  apply dedent_template; try assumption.
  - apply Forall_map. apply Forall_forall. intros col Hin.
    rewrite Forall_forall in Hmap, Hlab. destruct (Hmap col Hin) as [ty Hty].
    now apply (column_decl_no_nl _ _ ty); [apply Hlab|].
  - apply Forall_map. apply Forall_forall. intros col Hin.
    rewrite Forall_forall in Hlab. apply column_comment_no_nl; [assumption|now apply Hlab].
  - apply Forall_map. apply Forall_forall. intros col _. apply column_decl_starts.
  - apply Forall_map. apply Forall_forall. intros col _. apply column_comment_starts.
Qed.

End DraftFacts.

(** * Facts about staging *)

Module StagingFacts.
Import Str StrFacts RefPandas MemDb.

(** A plain field has neither tab nor line feed and is written as it is. *)
Lemma plain_no_tab f : plain f -> has_char (ascii_of_nat 9) f = false.
Proof.
  unfold plain. induction f as [|a f IH]; [reflexivity|].
  cbn [has_special has_char]. intros E.
  apply orb_false_iff in E as [E1 E2].
  apply orb_false_iff in E1 as [E1 _]. apply orb_false_iff in E1 as [E1 _].
  apply orb_false_iff in E1 as [E1 _]. cbn [Str.tab Str.chr has_char] in E1.
  rewrite orb_false_r in E1. rewrite Ascii.eqb_sym, E1. now apply IH.
Qed.

Lemma plain_no_nl f : plain f -> has_char (ascii_of_nat 10) f = false.
Proof.
  unfold plain. induction f as [|a f IH]; [reflexivity|].
  cbn [has_special has_char]. intros E.
  apply orb_false_iff in E as [E1 E2].
  apply orb_false_iff in E1 as [E1 _]. apply orb_false_iff in E1 as [_ E1].
  rewrite E1. now apply IH.
Qed.

Lemma csv_field_plain f : plain f -> csv_field Str.tab f = f.
Proof. unfold plain, csv_field. now intros ->. Qed.

Lemma map_csv_field_plain fs : Forall plain fs -> map (csv_field Str.tab) fs = fs.
Proof.
  induction 1 as [|f fs Hf _ IH]; [reflexivity|].
  cbn [map]. now rewrite csv_field_plain, IH.
Qed.

Lemma csv_line_plain fs :
  fs <> [EmptyString] -> Forall plain fs -> csv_line Str.tab fs = join Str.tab fs +:+ nl.
Proof.
  intros Hl Hp. unfold csv_line. rewrite map_csv_field_plain by assumption.
  destruct fs as [|f [|g fs]]; try reflexivity; destruct f; try reflexivity; congruence.
Qed.

Lemma join_no_nl fs : Forall plain fs -> has_char (ascii_of_nat 10) (join Str.tab fs) = false.
Proof.
  induction 1 as [|f fs Hf Hfs IH]; [reflexivity|].
  destruct fs as [|g fs]; [now apply plain_no_nl|].
  change (join Str.tab (f :: g :: fs)) with (f +:+ Str.tab +:+ join Str.tab (g :: fs)).
  rewrite !has_char_app, IH, (plain_no_nl f Hf). reflexivity.
Qed.

Lemma join_no_backslash fs :
  Forall (fun f => has_char backslash f = false) fs ->
  has_char backslash (join Str.tab fs) = false.
Proof.
  induction 1 as [|f fs Hf Hfs IH]; [reflexivity|].
  destruct fs as [|g fs]; [exact Hf|].
  change (join Str.tab (f :: g :: fs)) with (f +:+ Str.tab +:+ join Str.tab (g :: fs)).
  rewrite !has_char_app, IH, Hf. reflexivity.
Qed.

(** Splitting the staged text gives back the records and their fields. *)
Lemma split_join_plain fs :
  fs <> [] -> Forall plain fs -> split (ascii_of_nat 9) (join Str.tab fs) = fs.
Proof.
  intros Hne Hp. change Str.tab with (String (ascii_of_nat 9) "").
  rewrite split_join by assumption. clear Hne.
  induction Hp as [|f fs Hf _ IH]; [reflexivity|].
  cbn [map concat]. rewrite IH, split_no_sep by now apply plain_no_tab. reflexivity.
Qed.

Lemma payload_lines_end (ls : list string) : payload_lines (ls ++ [""]) = ls.
Proof.
  induction ls as [|l ls IH]; [reflexivity|].
  cbn [app payload_lines]. rewrite IH.
  destruct l; destruct (ls ++ [""]) eqn:E; try reflexivity;
    now destruct ls.
Qed.

Lemma split_payload (R : list (list string)) :
  Forall (fun fs => fs <> [EmptyString] /\ Forall plain fs) R ->
  split (ascii_of_nat 10) (String.concat "" (map (csv_line Str.tab) R))
  = map (join Str.tab) R ++ [""].
Proof.
  induction 1 as [|fs R [Hl Hp] _ IH]; [reflexivity|].
  cbn [map String.concat app].
  rewrite csv_line_plain by assumption.
  destruct (map (csv_line Str.tab) R) as [|x xs] eqn:E.
  - destruct R; [|discriminate]. cbn [map app]. change nl with (String (ascii_of_nat 10) "").
    rewrite split_app by now apply join_no_nl. reflexivity.
  - rewrite append_nil_l. rewrite <- IH. rewrite append_assoc.
    change (nl +:+ String.concat "" (x :: xs))
      with (String (ascii_of_nat 10) (String.concat "" (x :: xs))).
    apply split_app. now apply join_no_nl.
Qed.

(** Without a backslash nothing is protected and nothing is decoded: the
    records are the lines, the fields are the pieces between the tabs, and a
    field is its own text. *)
Lemma copy_lines_plain s :
  has_char backslash s = false -> copy_lines s = split (ascii_of_nat 10) s.
Proof.
  induction s as [|a s IH]; [reflexivity|].
  cbn [has_char]. intros H. apply orb_false_iff in H as [Ha Hs].
  cbn [copy_lines split]. rewrite Ha, (IH Hs). reflexivity.
Qed.

Lemma copy_fields_plain s :
  has_char backslash s = false -> copy_fields s = split (ascii_of_nat 9) s.
Proof.
  induction s as [|a s IH]; [reflexivity|].
  cbn [has_char]. intros H. apply orb_false_iff in H as [Ha Hs].
  cbn [copy_fields split]. rewrite Ha, (IH Hs). reflexivity.
Qed.

Lemma unescape_plain s : has_char backslash s = false -> unescape s = s.
Proof.
  induction s as [|a s IH]; [reflexivity|].
  cbn [has_char]. intros H. apply orb_false_iff in H as [Ha Hs].
  cbn [unescape]. rewrite Ha. cbn [negb]. now rewrite (IH Hs).
Qed.

Lemma copy_field_verbatim f :
  verbatim f -> copy_field "" f = if String.eqb f "" then None else Some f.
Proof.
  intros [_ Hb]. unfold copy_field. now rewrite unescape_plain.
Qed.

Lemma verbatim_plain fs : Forall verbatim fs -> Forall plain fs.
Proof. apply List.Forall_impl. now intros f [Hp _]. Qed.

Lemma verbatim_no_backslash fs :
  Forall verbatim fs -> Forall (fun f => has_char backslash f = false) fs.
Proof. apply List.Forall_impl. now intros f [_ Hb]. Qed.

Lemma concat_no_backslash (ls : list string) :
  Forall (fun l => has_char backslash l = false) ls ->
  has_char backslash (String.concat "" ls) = false.
Proof.
  induction 1 as [|l ls Hl _ IH]; [reflexivity|].
  cbn [String.concat]. destruct ls as [|l' ls']; [exact Hl|].
  rewrite append_nil_l, has_char_app, Hl. exact IH.
Qed.

Lemma payload_no_backslash (R : list (list string)) :
  Forall verbatim_record R ->
  has_char backslash (String.concat "" (map (csv_line Str.tab) R)) = false.
Proof.
  intros HR. apply concat_no_backslash. apply Forall_map.
  eapply List.Forall_impl; [|exact HR]. intros fs (_ & Hne & Hv). cbn beta.
  rewrite csv_line_plain by (assumption || now apply verbatim_plain).
  rewrite has_char_app, join_no_backslash by now apply verbatim_no_backslash.
  reflexivity.
Qed.

Lemma verbatim_records_plain (R : list (list string)) :
  Forall verbatim_record R -> Forall (fun fs => fs <> [EmptyString] /\ Forall plain fs) R.
Proof.
  apply List.Forall_impl. intros fs (_ & Hne & Hv). split; [assumption|now apply verbatim_plain].
Qed.

(** The rows [copy_from] reads from the staged text of verbatim records:
    the records, field by field, an empty field as NULL. *)
Lemma staged_round_trip (R : list (list string)) :
  Forall verbatim_record R ->
  copy_rows (String.concat "" (map (csv_line Str.tab) R)) ""
  = map (map (copy_field "")) R.
Proof.
  intros HR. unfold copy_rows.
  rewrite copy_lines_plain by now apply payload_no_backslash.
  rewrite split_payload, payload_lines_end by now apply verbatim_records_plain.
  rewrite map_map. apply map_ext_Forall. eapply List.Forall_impl; [|exact HR].
  intros fs (Hne & _ & Hv). cbn beta.
  rewrite copy_fields_plain by now apply join_no_backslash, verbatim_no_backslash.
  rewrite split_join_plain; [reflexivity|assumption|now apply verbatim_plain].
Qed.

(** A staged text of verbatim records is well formed. *)
Lemma malformed_plain s :
  has_char backslash s = false -> has_char (ascii_of_nat 13) s = false ->
  malformed s = false.
Proof.
  induction s as [|a s IH]; [reflexivity|].
  cbn [has_char]. intros Hb Hc.
  apply orb_false_iff in Hb as [Hb1 Hb2]. apply orb_false_iff in Hc as [Hc1 Hc2].
  cbn [malformed]. rewrite Hb1, Hc1. now apply IH.
Qed.





(** The staged text is the concatenation of the lines of [staged_fields]. *)
Lemma to_csv_staged df cols index sel :
  select (list_df df) cols = Ok sel ->
  ref_to_csv df Str.tab cols index false
  = Ok (String.concat "" (map (csv_line Str.tab) (staged_fields index sel df))).
Proof.
  intros Hsel. unfold ref_to_csv, staged_fields. rewrite Hsel. cbn [app].
  now rewrite map_map.
Qed.

End StagingFacts.

(** * Facts about the create statement *)

Module CreateFacts.
Import Str StrFacts MemDb.

(** White space in front of a statement *)
Lemma blank_text_cons a ws : blank_text (String a ws) -> is_space a = true /\ blank_text ws.
Proof. unfold blank_text. cbn [lstrip]. destruct (is_space a); [auto|discriminate]. Qed.

Lemma blank_text_no_char c ws :
  is_space c = false -> blank_text ws -> has_char c ws = false.
Proof.
  intros Hc. induction ws as [|a ws IH]; [reflexivity|].
  intros H. apply blank_text_cons in H as [Ha Hws].
  cbn [has_char]. rewrite (IH Hws), orb_false_r.
  destruct (Ascii.eqb_spec a c); [congruence|reflexivity].
Qed.

Lemma lstrip_blank ws s :
  blank_text ws -> lstrip (ws +:+ s) = lstrip s.
Proof.
  induction ws as [|a ws IH]; [reflexivity|].
  intros H. apply blank_text_cons in H as [Ha Hws].
  rewrite append_cons. cbn [lstrip]. rewrite Ha. now apply IH.
Qed.

(** The statement built from a schema text of the usual shape *)
Lemma create_query_shape ws rest name full temp :
  blank_text ws ->
  create_query_of (ws +:+ "CREATE TABLE " +:+ rest) name full temp
  = ws +:+ create_want temp +:+ " " +:+
    replace_from 0 (replace_from 0 rest "CREATE TABLE" (create_want temp))
                 (quoted name) full.
Proof.
  intros Hws. unfold create_query_of, Str.replace.
  change (quoted name) with (String (ascii_of_nat 34) (name +:+ dquote)).
  cbv iota.
  rewrite (replace_pass "C" "REATE TABLE" ws) by now apply blank_text_no_char.
  change ("CREATE TABLE " +:+ rest) with ("CREATE TABLE" +:+ " " +:+ rest).
  rewrite (replace_hit "C" "REATE TABLE").
  rewrite (replace_pass "C" "REATE TABLE" " ") by reflexivity.
  rewrite <- !append_assoc.
  rewrite (replace_pass (ascii_of_nat 34) (name +:+ dquote)).
  - rewrite !append_assoc. reflexivity.
  - rewrite !has_char_app, (blank_text_no_char _ ws) by (reflexivity || assumption).
    now destruct temp.
Qed.

(** The reference database on the two forms of the create statement *)
Lemma parse_create_if_not_exists ws rest :
  blank_text ws ->
  parse (ws +:+ "CREATE TABLE IF NOT EXISTS " +:+ rest) = CreateIfNotExists (name_token rest).
Proof.
  intros Hws. unfold parse. rewrite lstrip_blank by assumption. reflexivity.
Qed.

Lemma parse_create_temp ws rest :
  blank_text ws ->
  parse (ws +:+ "CREATE TEMP TABLE " +:+ rest) = CreateTemp (name_token rest).
Proof.
  intros Hws. unfold parse. rewrite lstrip_blank by assumption. reflexivity.
Qed.

Lemma create_if_not_exists_accepted conn ws rest (d : memdb) :
  blank_text ws ->
  fst (step (ConnExecute conn (ws +:+ "CREATE TABLE IF NOT EXISTS " +:+ rest)) d) = Ok tt.
Proof.
  intros Hws. cbn [step memdb_driver memdb_step].
  rewrite parse_create_if_not_exists by assumption. cbn [run_stmt].
  destruct (view d !! name_token rest); reflexivity.
Qed.

Lemma create_temp_refused conn ws rest (d : memdb) :
  blank_text ws ->
  is_Some (view d !! name_token rest) ->
  step (ConnExecute conn (ws +:+ "CREATE TEMP TABLE " +:+ rest)) d
  = (Raise (duplicate_table (name_token rest)), d).
Proof.
  intros Hws [rows Hrows]. cbn [step memdb_driver memdb_step].
  rewrite parse_create_temp by assumption. cbn [run_stmt]. now rewrite Hrows.
Qed.

End CreateFacts.

(** * Facts about runs on the reference database *)

Module RunFacts.
Import Str StrFacts MemDb MemDbFacts CreateFacts.

Lemma length_append (s t : string) :
  String.length (s +:+ t) = String.length s + String.length t.
Proof. induction s as [|c s IH]; [reflexivity|]. rewrite append_cons. cbn. now rewrite IH. Qed.

(** A name qualified by a schema is never the unqualified name. *)
Lemma qualified_name_differs s n : full_name_of (Some s) n <> n.
Proof.
  unfold full_name_of. intros H. apply (f_equal String.length) in H.
  rewrite !length_append in H. cbn in H. lia.
Qed.

Lemma is_replace_true x : is_replace x = true -> x = "replace".
Proof. unfold is_replace. apply String.eqb_eq. Qed.

(** No statement of the reference database puts a row into a table: a table
    is as before, or empty, or absent. *)
Lemma run_stmt_rows s (t t' : gmap string (list dbrow)) n :
  run_stmt s t = Ok t' ->
  t' !! n = t !! n \/ t' !! n = Some [] \/ t' !! n = None.
Proof.
  destruct s as [m|m|m|m|m|m|]; cbn [run_stmt];
    try (destruct (t !! m) eqn:Em); intros [= <-];
    destruct (decide (m = n)) as [->|Hne];
    rewrite ?lookup_insert_eq, ?lookup_delete_eq, ?lookup_insert_ne, ?lookup_delete_ne
      by assumption; auto.
Qed.

(** A create statement leaves the rows of every table as they are. *)
Lemma create_rows s (t t' : gmap string (list dbrow)) n old :
  (exists m, s = CreateIfNotExists m \/ s = CreateTemp m) ->
  run_stmt s t = Ok t' ->
  t' !! n = Some old -> old = rows_of t n.
Proof.
  intros [m [->| ->]]; cbn [run_stmt]; destruct (t !! m) eqn:Em; intros [= <-];
    unfold rows_of; destruct (decide (m = n)) as [->|Hne];
    rewrite ?lookup_insert_eq, ?lookup_insert_ne by assumption.
  all: try (intros E; rewrite E; reflexivity).
  all: rewrite ?Em; now intros [= <-].
Qed.

Lemma conn_execute_state conn sql (d d' : memdb) :
  step (ConnExecute conn sql) d = (Ok tt, d') ->
  exists t, run_stmt (parse sql) (view d) = Ok t /\ d' = Db t None.
Proof.
  cbn [step memdb_driver memdb_step].
  destruct (run_stmt (parse sql) (view d)) as [t|e]; intros [= <-]. eauto.
Qed.

(** Cursor, copy, commit, exit: the rows of the payload come behind those the
    table holds. *)
Lemma stage_rows csv full cn (d d' : memdb) :
  accepts [OpenCursor; CopyFrom csv full cn ""; Commit; CursorExit] d = Some d' ->
  exists old,
    view d !! full = Some old
    /\ d' = Db (<[full := old ++ copy_rows csv ""]> (view d)) None.
Proof.
  cbn [accepts]. change (step OpenCursor d) with (Ok tt, d). cbv iota beta.
  rewrite copy_step. destruct (view d !! full) as [old|]; [|discriminate].
  destruct (copy_refused _ _ _); [discriminate|].
  change (step Commit ?x) with (Ok tt, Db (view x) None). cbv iota beta.
  change (step CursorExit ?x) with (Ok tt, x). cbv iota beta.
  cbn [view pending]. intros [= <-]. eauto.
Qed.

Lemma stage_rows_engine csv full cn (d d' : memdb) :
  accepts ([OpenCursor; CopyFrom csv full cn ""; Commit; CursorExit] ++ [ConnectionExit]) d
  = Some d' ->
  exists old,
    view d !! full = Some old
    /\ d' = Db (<[full := old ++ copy_rows csv ""]> (view d)) None.
Proof.
  intros H. rewrite accepts_app in H. destruct (accepts _ d) as [d5|] eqn:E; [|discriminate].
  apply stage_rows in E as (old & Hold & ->). exists old. split; [exact Hold|].
  revert H. cbn [accepts].
  change (step ConnectionExit ?x) with (Ok tt, Db (committed x) None).
  cbv iota beta. cbn [committed]. now intros [= <-].
Qed.

(** A load under a policy other than replace that returned: the create
    statement was accepted, the destination existed after it, and the rows of
    the payload were added to it and committed. *)
Lemma append_load_state `{Pandas} df conn name index if_exists cols schema temp
    (w w' : world memdb) :
  is_replace if_exists = false ->
  fast_to_sql df conn name index if_exists cols schema temp w = (Ok tt, w') ->
  let full := full_name_of schema name in
  exists q csv dc old,
    get_schema df name conn = Ok q
    /\ to_csv df Str.tab (selected_cols df index cols) index false = Ok csv
    /\ step (ConnExecute conn (create_query_of q name full temp)) (dbst w) = (Ok tt, dc)
    /\ view dc !! full = Some old
    /\ dbst w' = Db (<[full := old ++ copy_rows csv ""]> (view dc)) None.
Proof.
  intros R Hrun full. apply load_success in Hrun as (q & csv & G & C & Hrec & Hacc & _).
  fold full in Hacc.
  unfold load_calls, ddl_calls, open_calls, exit_calls in Hacc. rewrite R in Hacc.
  exists q, csv.
  destruct conn; try discriminate Hrec; cbn [app accepts] in Hacc;
    destruct (step (ConnExecute _ (create_query_of _ _ _ _)) _) as [[[]|?] dc] eqn:E;
    try discriminate Hacc; exists dc.
  - change (step EngineConnect dc) with (Ok tt, dc) in Hacc. cbv iota beta in Hacc.
    apply stage_rows_engine in Hacc as (old & Hold & Hd). exists old.
    repeat split; assumption.
  - apply stage_rows in Hacc as (old & Hold & Hd). exists old.
    repeat split; assumption.
Qed.

(** The same with a schema text of the usual shape: the rows that were
    there are kept, in front of the new ones. *)
Lemma append_load_rows `{Pandas} df conn name index if_exists cols schema temp ws rest
    (w w' : world memdb) :
  is_replace if_exists = false ->
  get_schema df name conn = Ok (ws +:+ "CREATE TABLE " +:+ rest) ->
  blank_text ws ->
  fast_to_sql df conn name index if_exists cols schema temp w = (Ok tt, w') ->
  let full := full_name_of schema name in
  exists csv,
    to_csv df Str.tab (selected_cols df index cols) index false = Ok csv
    /\ pending (dbst w') = None
    /\ committed (dbst w') !! full
       = Some (rows_of (view (dbst w)) full ++ copy_rows csv "").
Proof.
  intros R G Hws Hrun full.
  destruct (append_load_state df conn name index if_exists cols schema temp w w' R Hrun)
    as (q & csv & dc & old & G' & C & E & Hold & Hst).
  fold full in E, Hold, Hst.
  rewrite G in G'. injection G' as <-.
  exists csv. split; [exact C|]. rewrite Hst. cbn [pending committed].
  split; [reflexivity|]. rewrite lookup_insert_eq. do 2 f_equal.
  apply conn_execute_state in E as (t & Hrun' & ->). cbn [view pending] in Hold.
  rewrite create_query_shape in Hrun' by assumption.
  eapply create_rows; [|exact Hrun'|exact Hold].
  destruct temp.
  - change (ws +:+ create_want true +:+ " " +:+ ?r)
      with (ws +:+ "CREATE TEMP TABLE " +:+ r).
    rewrite parse_create_temp by assumption. eauto.
  - change (ws +:+ create_want false +:+ " " +:+ ?r)
      with (ws +:+ "CREATE TABLE IF NOT EXISTS " +:+ r).
    rewrite parse_create_if_not_exists by assumption. eauto.
Qed.

(** A load that returned has committed: nothing is pending. *)
Lemma load_leaves_nothing_pending `{Pandas} df conn name index if_exists cols schema temp
    (w w' : world memdb) :
  fast_to_sql df conn name index if_exists cols schema temp w = (Ok tt, w') ->
  pending (dbst w') = None.
Proof.
  intros Hrun. apply load_success in Hrun as (q & csv & _ & _ & Hrec & Hacc & _).
  unfold load_calls in Hacc. rewrite !app_assoc in Hacc.
  rewrite !accepts_app in Hacc.
  destruct (accepts (ddl_calls _ _ _ _) (dbst w)) as [d1|]; [|discriminate].
  destruct (accepts (open_calls _ _ _) d1) as [d2|]; [|discriminate].
  destruct (accepts _ d2) as [d5|] eqn:E5; [|discriminate].
  assert (Hd5 : pending d5 = None).
  { revert E5. cbn [accepts]. rewrite copy_step.
    destruct (view d2 !! _); [|discriminate].
    destruct (copy_refused _ _ _); [discriminate|].
    change (step Commit ?x) with (Ok tt, Db (view x) None). cbv iota beta.
    now intros [= <-]. }
  revert Hacc. destruct conn; try discriminate Hrec; cbn [exit_calls accepts].
  - change (step CursorExit d5) with (Ok tt, d5). cbv iota beta.
    change (step ConnectionExit d5) with (Ok tt, Db (committed d5) None). cbv iota beta.
    now intros [= <-].
  - change (step CursorExit d5) with (Ok tt, d5). cbv iota beta.
    intros [= <-]. exact Hd5.
Qed.


(** The release touches no table but [table_name]. *)
Lemma release_frame `{Pandas} (self : TempTable) (w : world memdb) n :
  n <> table_name self ->
  pending (dbst w) = None ->
  visible (dbst (snd (__exit__ self w))) n = visible (dbst w) n.
Proof.
  intros Hne Hp. rewrite exit_runs. rewrite truncate_step. unfold visible.
  assert (Hv : view (dbst w) = committed (dbst w)) by (unfold view; now rewrite Hp).
  destruct (destroy self).
  - rewrite drop_never_fails. cbn [snd dbst committed].
    rewrite lookup_delete_ne by congruence.
    destruct (view (dbst w) !! table_name self); cbn [snd view pending committed].
    + rewrite lookup_insert_ne by congruence. now rewrite Hv.
    + now rewrite Hv.
  - destruct (view (dbst w) !! table_name self); cbn [snd dbst committed]; [|reflexivity].
    rewrite lookup_insert_ne by congruence. now rewrite Hv.
Qed.

(** What [__enter__] is when it returns *)
Lemma enter_load `{Pandas} (self t : TempTable) (w w1 : world memdb) :
  __enter__ self w = (Ok t, w1) ->
  fast_to_sql (tt_df self) (tt_conn self) (table_name self)
    (kw_index (tt_kw self)) (kw_if_exists (tt_kw self)) (kw_cols (tt_kw self))
    (kw_schema (tt_kw self)) (kw_temp (tt_kw self))
    (World (log w ++ [ConnExecute (tt_conn self) (truncate_stmt (table_name self))])
           (snd (step (ConnExecute (tt_conn self) (truncate_stmt (table_name self)))
                      (dbst w))))
  = (Ok tt, w1).
Proof.
  unfold __enter__, bind, ret. rewrite try_empty_table_ok.
  destruct (fast_to_sql _ _ _ _ _ _ _ _ _) as [[[]|e] w'] eqn:E; [|discriminate].
  now intros [= _ <-].
Qed.

End RunFacts.


(** * The properties of the specification, claim by claim *)

(** ** C1: a failing copy *)

(** C1, as stated, fails.  The copy is refused with a constraint violation
    during a replace load into a table that holds a row.  The caller gets the
    driver's [IntegrityError] itself, not a [LoadError]; no rollback was
    issued; and the row that was visible before the call is gone, because the
    drop and the create went through [conn.execute] before staging began. *)
Lemma copy_failure_counterexample :
  let w := World [] (Rejecting stocked) in
  let r := fast_to_sql beds Engine "beds_test" false "replace" None None false w in
  MemDb.visible (behind (dbst w)) "beds_test" = Some [[Some "Polk"; Some "7"]]
  /\ fst r = Raise (IntegrityError "null value in column violates not-null constraint")
  /\ ~ LoadError (IntegrityError "null value in column violates not-null constraint")
  /\ ~ In Rollback (log (snd r))
  /\ MemDb.visible (behind (dbst (snd r))) "beds_test" = Some [].
Proof.
  cbv zeta. repeat split; try (vm_compute; reflexivity).
  - unfold LoadError. cbn. discriminate.
  - vm_compute. intros H. repeat (destruct H as [H|H]; [discriminate H|]). exact H.
Qed.

(** C1, amended.  When [copy_from] raises, [fast_to_sql] lets that very
    exception reach the caller: nothing wraps it.  The calls it has made are
    the DDL, the opening calls, the copy, and the exits of the open [with]
    blocks; among them there is no commit and no rollback.  What the
    statements before the copy did is not undone by the loader. *)
Theorem copy_failure_propagates :
  forall (D : Type) (drv : Driver D) (P : Pandas) (df : DataFrame) (conn : handle)
         (name : string) (index : bool) (if_exists : string)
         (cols : option (list string)) (schema : option string) (temp : bool)
         (q csv : string) (e : exn) (w : world D) (d1 d2 d3 : D),
    recognised conn = true ->
    get_schema df name conn = Ok q ->
    to_csv df Str.tab (selected_cols df index cols) index false = Ok csv ->
    let full := full_name_of schema name in
    let before := ddl_calls conn if_exists full (create_query_of q name full temp)
                  ++ open_calls conn if_exists full in
    let copy := CopyFrom csv full (map Str.quoted (selected_cols df index cols)) "" in
    accepts before (dbst w) = Some d1 ->
    step copy d1 = (Raise e, d2) ->
    accepts (exit_calls conn) d2 = Some d3 ->
    let issued := before ++ [copy] ++ exit_calls conn in
    fast_to_sql df conn name index if_exists cols schema temp w
    = (Raise e, World (log w ++ issued) d3)
    /\ ~ In Commit issued
    /\ ~ In Rollback issued.
Proof.
  intros D drv P df conn name index if_exists cols schema temp q csv e w d1 d2 d3
         Hrec G C full before copy Hacc Hcopy Hexit issued.
  split; [exact (copy_failure df conn name index if_exists cols schema temp q csv e
                   w d1 d2 d3 Hrec G C Hacc Hcopy Hexit)|].
  subst issued before copy. unfold ddl_calls, open_calls, exit_calls.
  split; intros Hin; destruct (is_replace if_exists); destruct conn; cbn in Hin;
    repeat (destruct Hin as [Hin|Hin]; [discriminate Hin|]); exact Hin.
Qed.

(** An append load through a Connection whose copy is refused *)
Lemma copy_failure_propagates_witness :
  fst (fast_to_sql beds Connection "beds_test" false "append" None None false
         (World [] (Rejecting empty_db)))
  = Raise (IntegrityError "null value in column violates not-null constraint").
Proof.
  pose proof (copy_failure_propagates (rejecting MemDb.memdb) rejecting_driver
                RefPandas.ref_pandas beds Connection "beds_test" false "append" None None
                false _ _ _ (World [] (Rejecting empty_db)) _ _ _
                eq_refl eq_refl eq_refl eq_refl eq_refl eq_refl) as [E _].
  rewrite E. reflexivity.
Defined.

(** ** C2: the replace policy *)

(** C2, as stated, fails in its last clause.  The frame holds an empty text
    next to a county name; the replace load returns; and the table holds a
    NULL where the dataset has the empty text, so its rows are not exactly
    those of the dataset. *)
Lemma replace_load_counterexample :
  let r := fast_to_sql notes Engine "notes" false "replace" None None false
             (World [] empty_db) in
  fst r = Ok tt
  /\ dataset_rows notes = [[Some EmptyString; Some "Dade"]]
  /\ MemDb.visible (dbst (snd r)) "notes" = Some [[None; Some "Dade"]]
  /\ MemDb.visible (dbst (snd r)) "notes" <> Some (dataset_rows notes).
Proof.
  cbv zeta. repeat split; try (vm_compute; reflexivity).
  vm_compute. discriminate.
Qed.

(** C2, amended.  Under [if_exists="replace"]: (1) the first call of every
    load is [DROP TABLE IF EXISTS] on the destination, and a load that
    returns has made, in this order, the drop, the create, the opening calls,
    the [DELETE FROM], the copy and the commit; (2) on the reference database
    the drop succeeds whether or not the table exists; (3) on the reference
    database, after a load that returned, the destination holds exactly the
    rows [copy_from] reads from the staged text, whatever it held before;
    (4) with the reference pandas, for a frame with distinct labels whose
    staged records are verbatim (no field holds a tab, a line break, a
    carriage return, a double quote or a backslash, and no record is a single
    empty field), these are the staged records of the dataset, one per row
    and in order, field by field; (5) of such a field, the empty one, which
    is how a missing value and an empty text are staged, is stored as NULL,
    and every other one as its text. *)
Theorem replace_drops_creates_deletes_then_loads :
  (forall (D : Type) (drv : Driver D) (P : Pandas) (df : DataFrame) (conn : handle)
          (name : string) (index : bool) (cols : option (list string))
          (schema : option string) (temp : bool) (w : world D),
     let full := full_name_of schema name in
     let r := fast_to_sql df conn name index "replace" cols schema temp w in
     (exists rest,
        log (snd r) = log w ++ ConnExecute conn ("DROP TABLE IF EXISTS " +:+ full +:+ ";") :: rest)
     /\ (fst r = Ok tt ->
         exists q csv,
           get_schema df name conn = Ok q
           /\ to_csv df Str.tab (selected_cols df index cols) index false = Ok csv
           /\ log (snd r)
              = log w
                ++ [ConnExecute conn ("DROP TABLE IF EXISTS " +:+ full +:+ ";");
                    ConnExecute conn (create_query_of q name full temp)]
                ++ (match conn with Engine => [EngineConnect] | _ => [] end)
                ++ [OpenCursor;
                    CursorExecute ("DELETE FROM " +:+ full +:+ ";");
                    CopyFrom csv full (map Str.quoted (selected_cols df index cols)) "";
                    Commit;
                    CursorExit]
                ++ (match conn with Engine => [ConnectionExit] | _ => [] end)))
  /\ (forall (conn : handle) (n : string) (d : MemDb.memdb),
        fst (step (ConnExecute conn ("DROP TABLE IF EXISTS " +:+ n +:+ ";")) d) = Ok tt)
  /\ (forall (P : Pandas) (df : DataFrame) (conn : handle) (name : string) (index : bool)
             (cols : option (list string)) (schema : option string) (temp : bool)
             (w w' : world MemDb.memdb),
        fast_to_sql df conn name index "replace" cols schema temp w = (Ok tt, w') ->
        exists csv,
          to_csv df Str.tab (selected_cols df index cols) index false = Ok csv
          /\ MemDb.visible (dbst w') (full_name_of schema name)
             = Some (MemDb.copy_rows csv ""))
  /\ (forall (df : DataFrame) (conn : handle) (name : string) (index : bool)
             (cols : option (list string)) (schema : option string) (temp : bool)
             (w w' : world MemDb.memdb) (sel : list nat),
        fast_to_sql (pd := RefPandas.ref_pandas) df conn name index "replace" cols
          schema temp w = (Ok tt, w') ->
        distinct (list_df df) = true ->
        RefPandas.select (list_df df) (selected_cols df index cols) = Ok sel ->
        Forall verbatim_record (staged_fields index sel df) ->
        MemDb.visible (dbst w') (full_name_of schema name)
        = Some (map (map (MemDb.copy_field "")) (staged_fields index sel df)))
  /\ RefPandas.cell_text Missing = EmptyString
  /\ RefPandas.cell_text (Text EmptyString) = EmptyString
  /\ MemDb.copy_field EmptyString EmptyString = None
  /\ (forall f, verbatim f -> f <> EmptyString ->
                MemDb.copy_field EmptyString f = Some f).
Proof.
  split; [|split; [|split; [|split; [|repeat split]]]].
  - intros D drv P df conn name index cols schema temp w full r. split.
    + exact (replace_drops_first df conn name index cols schema temp w).
    + intros Hok. subst r.
      destruct (fast_to_sql df conn name index "replace" cols schema temp w)
        as [o w'] eqn:Hrun.
      cbn [fst snd] in *. subst o.
      apply load_success in Hrun as (q & csv & G & C & Hrec & _ & Hlog).
      exists q, csv. split; [exact G|]. split; [exact C|].
      rewrite Hlog. f_equal. unfold load_calls, ddl_calls, open_calls, exit_calls.
      change (is_replace "replace") with true. unfold drop_stmt, delete_stmt.
      destruct conn; try discriminate Hrec; reflexivity.
  - intros conn n d. change ("DROP TABLE IF EXISTS " +:+ n +:+ ";") with (drop_stmt n).
    now rewrite MemDbFacts.drop_never_fails.
  - intros P df conn name index cols schema temp w w' Hrun.
    exact (MemDbFacts.replace_load_rows df conn name index cols schema temp w w' Hrun).
  - intros df conn name index cols schema temp w w' sel Hrun _ Hsel Hall.
    destruct (MemDbFacts.replace_load_rows df conn name index cols schema temp w w' Hrun)
      as (csv & C & V).
    rewrite V. f_equal. cbn [to_csv RefPandas.ref_pandas] in C.
    rewrite (StagingFacts.to_csv_staged df _ index sel Hsel) in C. injection C as <-.
    now apply StagingFacts.staged_round_trip.
  - intros f Hv Hf. rewrite StagingFacts.copy_field_verbatim by assumption.
    destruct (String.eqb_spec f EmptyString); [contradiction|reflexivity].
Qed.

(** The spec's frame replaces the row that [beds_test] held. *)
Lemma replace_drops_creates_deletes_then_loads_witness :
  let r := fast_to_sql beds Engine "beds_test" false "replace" None None false
             (World [] stocked) in
  MemDb.visible stocked "beds_test" = Some [[Some "Polk"; Some "7"]]
  /\ MemDb.visible (dbst (snd r)) "beds_test"
     = Some [[Some "Dade"; Some "120.5"]; [Some "Leon"; None]].
Proof.
  intros r. split; [vm_compute; reflexivity|].
  destruct replace_drops_creates_deletes_then_loads as (_ & _ & _ & H & _).
  assert (Hall : Forall verbatim_record (staged_fields false [0; 1] beds)).
  { repeat constructor; discriminate. }
  exact (H beds Engine "beds_test" false None None false (World [] stocked) (snd r)
           [0; 1] eq_refl eq_refl eq_refl Hall).
Defined.

(** ** C3: the release of a session *)

(** C3, as stated, fails.  The connection is lost after the eight calls of the
    acquisition; the body raises; the session is to destroy its table.  The
    truncate of the release fails and is swallowed, the drop fails and its
    [OperationalError] is what the caller gets, in place of the body's
    exception; the table is still there with its two rows. *)
Lemma session_release_counterexample :
  let w := World [] (Lossy 8 empty_db) in
  let r := session (beds_session true) failing_body w in
  fst (__enter__ (beds_session true) w) = Ok (beds_session true)
  /\ fst r = Raise (OperationalError "server closed the connection unexpectedly")
  /\ fst r <> Raise (RuntimeError "scrape failed")
  /\ MemDb.visible (inner (dbst (snd r))) "beds_test"
     = Some [[Some "Dade"; Some "120.5"]; [Some "Leon"; None]].
Proof.
  cbv zeta. repeat split; try (vm_compute; reflexivity).
  vm_compute. discriminate.
Qed.

(** C3, amended.  Once the acquisition has succeeded, the release runs
    whether the body returns or raises: it issues [TRUNCATE TABLE] on
    [table_name], ignoring its outcome, and then, when [destroy] is set,
    [DROP TABLE IF EXISTS].  The outcome of the body, an exception included,
    reaches the caller unchanged when [destroy] is not set or the drop
    succeeds; an exception of the drop replaces it.  On the reference
    database, where the statements of the release are answered, the outcome
    of the body always reaches the caller, and the table [table_name] is
    afterwards absent ([destroy] set), or empty or absent ([destroy] not
    set). *)
Theorem session_release_always_runs :
  (forall (D : Type) (drv : Driver D) (P : Pandas) (A : Type) (self : TempTable)
          (body : TempTable -> M D A) (w w1 w2 : world D) (t : TempTable)
          (r : outcome A),
     __enter__ self w = (Ok t, w1) ->
     body t w1 = (r, w2) ->
     let tr := ConnExecute (tt_conn self) ("TRUNCATE TABLE " +:+ table_name self +:+ ";") in
     let dr := ConnExecute (tt_conn self) ("DROP TABLE IF EXISTS " +:+ table_name self +:+ ";") in
     let d3 := snd (step tr (dbst w2)) in
     session self body w =
       if destroy self
       then (match fst (step dr d3) with
             | Ok _ => r
             | Raise e' => Raise e'
             end,
             World (log w2 ++ [tr; dr]) (snd (step dr d3)))
       else (r, World (log w2 ++ [tr]) d3))
  /\ (forall (P : Pandas) (A : Type) (self : TempTable)
             (body : TempTable -> M MemDb.memdb A) (w w1 w2 : world MemDb.memdb)
             (t : TempTable) (r : outcome A),
        __enter__ self w = (Ok t, w1) ->
        body t w1 = (r, w2) ->
        let after := dbst (snd (session self body w)) in
        fst (session self body w) = r
        /\ if destroy self
           then MemDb.view after !! table_name self = None
           else MemDb.view after !! table_name self = Some []
                \/ MemDb.view after !! table_name self = None).
Proof.
  split.
  - intros D drv P A self body w w1 w2 t r He Hb tr dr d3.
    rewrite (session_release self body w t w1 r w2 He Hb).
    pose proof (exit_runs self w2) as Hx. cbv zeta in Hx. rewrite Hx.
    unfold release_calls. subst tr dr d3. unfold truncate_stmt, drop_stmt.
    destruct (destroy self); [reflexivity|].
    cbn [fst snd]. now destruct r.
  - intros P A self body w w1 w2 t r He Hb after. subst after.
    rewrite (session_release self body w t w1 r w2 He Hb).
    destruct (MemDbFacts.release_on_memdb self w2) as [Hok Htab].
    rewrite Hok. cbn [fst snd]. split; [now destruct r|exact Htab].
Qed.

(** The spec's frame in a session that destroys its table, and a body that
    raises: the caller gets the body's exception and the table is gone. *)
Lemma session_release_always_runs_witness :
  let r := session (beds_session true) failing_body (World [] empty_db) in
  fst r = Raise (RuntimeError "scrape failed")
  /\ MemDb.view (dbst (snd r)) !! "beds_test" = None.
Proof.
  destruct session_release_always_runs as [_ H].
  exact (H RefPandas.ref_pandas unit (beds_session true) failing_body
           (World [] empty_db) _ _ (beds_session true) _ eq_refl eq_refl).
Defined.

(** ** C4: the create statement *)

(** C4, as stated, fails.  Two append loads of a temporary table, one after
    the other on the same connection: the first returns, the second raises on
    its create statement, which is the last call it makes. *)
Lemma temp_table_second_create_counterexample :
  let first := fast_to_sql beds Connection "beds_test" false "append" None None true
                 (World [] empty_db) in
  let second := fast_to_sql beds Connection "beds_test" false "append" None None true
                  (World [] (dbst (snd first))) in
  fst first = Ok tt
  /\ fst second = Raise (MemDb.duplicate_table "beds_test")
  /\ (exists q, log (snd second) = [ConnExecute Connection q]
                /\ Str.startswith (Str.nl +:+ "CREATE TEMP TABLE beds_test (") q = true).
Proof.
  cbv zeta. repeat split; try (vm_compute; reflexivity).
  eexists. split; vm_compute; reflexivity.
Qed.

(** C4, amended.  The create statement [fast_to_sql] issues is the schema
    text of [get_schema] after its two replacements.  When that text begins,
    after white space, with [CREATE TABLE] and a space, the statement begins
    with [CREATE TABLE IF NOT EXISTS] when [temp] is false and with
    [CREATE TEMP TABLE], which has no existence guard, when [temp] is true.
    On the reference database the first form is accepted in every state, so
    the create step of a second load does not fail; the second form is
    refused when the table exists. *)
Theorem create_statement_is_guarded_unless_temp :
  (forall (D : Type) (drv : Driver D) (P : Pandas) (df : DataFrame) (conn : handle)
          (name : string) (index : bool) (if_exists : string)
          (cols : option (list string)) (schema : option string) (temp : bool)
          (q : string) (w : world D),
     let full := full_name_of schema name in
     get_schema df name conn = Ok q ->
     (String.eqb if_exists "replace" = true ->
      fst (step (ConnExecute conn ("DROP TABLE IF EXISTS " +:+ full +:+ ";")) (dbst w))
      = Ok tt) ->
     exists rest,
       log (snd (fast_to_sql df conn name index if_exists cols schema temp w))
       = log w
         ++ (if String.eqb if_exists "replace"
             then [ConnExecute conn ("DROP TABLE IF EXISTS " +:+ full +:+ ";")]
             else [])
         ++ ConnExecute conn (create_query_of q name full temp) :: rest)
  /\ (forall (ws rest name full : string),
        blank_text ws ->
        let q := ws +:+ "CREATE TABLE " +:+ rest in
        (exists rest',
           create_query_of q name full false
           = ws +:+ "CREATE TABLE IF NOT EXISTS " +:+ rest'
           /\ forall (conn : handle) (d : MemDb.memdb),
                fst (step (ConnExecute conn (create_query_of q name full false)) d) = Ok tt)
        /\ (exists rest',
              create_query_of q name full true = ws +:+ "CREATE TEMP TABLE " +:+ rest'
              /\ forall (conn : handle) (d : MemDb.memdb),
                   is_Some (MemDb.view d !! MemDb.name_token rest') ->
                   fst (step (ConnExecute conn (create_query_of q name full true)) d)
                   = Raise (MemDb.duplicate_table (MemDb.name_token rest')))).
Proof.
  split.
  - intros D drv P df conn name index if_exists cols schema temp q w full G Hdrop.
    destruct (create_is_issued df conn name index if_exists cols schema temp q w G Hdrop)
      as [rest Hlog].
    exists rest. rewrite Hlog. unfold ddl_calls, is_replace, drop_stmt.
    rewrite <- !List.app_assoc. reflexivity.
  - intros ws rest name full Hws q. subst q. split.
    + eexists. split.
      * rewrite CreateFacts.create_query_shape by assumption. reflexivity.
      * intros conn d. rewrite CreateFacts.create_query_shape by assumption.
        now apply (CreateFacts.create_if_not_exists_accepted conn ws).
    + eexists. split.
      * rewrite CreateFacts.create_query_shape by assumption. reflexivity.
      * intros conn d Hex. rewrite CreateFacts.create_query_shape by assumption.
        exact (f_equal fst (CreateFacts.create_temp_refused conn ws _ d Hws Hex)).
Qed.

(** A schema text of the usual shape, and a database in which the table
    exists already: the create statement is accepted. *)
Lemma create_statement_is_guarded_unless_temp_witness :
  fst (step (ConnExecute Engine
               (create_query_of
                  (Str.nl +:+ "CREATE TABLE " +:+ Str.quoted "beds_test" +:+ " (x TEXT)")
                  "beds_test" "beds_test" false)) stocked) = Ok tt.
Proof.
  destruct create_statement_is_guarded_unless_temp as [_ H].
  destruct (H Str.nl (Str.quoted "beds_test" +:+ " (x TEXT)") "beds_test" "beds_test"
              eq_refl) as [(rest' & _ & Hok) _].
  exact (Hok Engine stocked).
Defined.

(** ** C5: the DDL text of a frame whose dtypes are all mapped *)

(** C5, as stated, fails.  The two columns of the frame have dtype
    [float64], which the map sends to [numeric(12, 6)], and they have the
    same label.  [dict(df.dtypes)] holds the Series of the two dtypes under
    that label, the test against the map hashes it, and the call raises a
    [TypeError]: no text is returned. *)
Lemma draft_ddl_counterexample :
  Forall (fun col => exists ty, dict_get _dtype_map (snd col) = Some ty) (columns twins)
  /\ draft_sql_ddl_statement twins (Some "beds_test") = Raise unhashable_series
  /\ exn_class unhashable_series = "TypeError"
  /\ ~ (exists out, draft_sql_ddl_statement twins (Some "beds_test") = Ok out).
Proof.
  split; [|split; [|split]].
  - repeat constructor; exists "numeric(12, 6)"; reflexivity.
  - vm_compute. reflexivity.
  - reflexivity.
  - intros [out H]. vm_compute in H. discriminate H.
Qed.

(** A label with a line break is why the labels of the amended claim have
    none.  The one column of the frame has dtype [object] and a label with a
    line break followed by two spaces; [dedent] takes those two spaces for
    the common margin, and the text returned does not contain the
    declaration of the column. *)
Lemma label_line_break_is_dedented :
  Forall (fun col => exists ty, dict_get _dtype_map (snd col) = Some ty) (columns odd)
  /\ exists out,
       draft_sql_ddl_statement odd (Some "beds_test") = Ok out
       /\ Str.contains (column_decl odd_label "TEXT") out = false.
Proof.
  split.
  - constructor; [|constructor]. exists "TEXT". reflexivity.
  - eexists. split; vm_compute; reflexivity.
Qed.

(** C5, amended.  For every frame whose column labels are distinct, all of
    whose dtypes are keys of the type map, and whose table name and column
    labels contain no line feed, [draft_sql_ddl_statement] returns the text
    whose lines are: an empty line, [CREATE TABLE <name> (], one line per
    column in order with the quoted label and the type of the map (lines
    separated by commas), [);], the comment placeholder of the table, and one
    comment placeholder per column in order.  The types are those of the
    fixed map. *)
Theorem draft_ddl_declares_every_column :
  forall (df : DataFrame) (table_name : option string),
    let t := match table_name with None => "REPLACE_NAME" | Some t => t end in
    distinct (list_df df) = true ->
    Forall (fun col => exists ty, dict_get _dtype_map (snd col) = Some ty) (columns df) ->
    no_nl t ->
    Forall (fun col => no_nl (fst col)) (columns df) ->
    draft_sql_ddl_statement df table_name
    = Ok (Str.join Str.nl
            ([EmptyString; "CREATE TABLE " +:+ t +:+ " ("]
             ++ out_block "    " ","
                  (map (fun col => Str.quoted (fst col) +:+ " " +:+ mapped_type (snd col))
                       (columns df))
             ++ [");"; EmptyString; "COMMENT ON TABLE " +:+ t +:+ " is E'';"; EmptyString]
             ++ out_block EmptyString EmptyString
                  (map (fun col => "COMMENT ON COLUMN " +:+ t +:+ "." +:+ fst col +:+ " is E'';")
                       (columns df))
             ++ [EmptyString]))
    /\ mapped_type (NpDtype "float64") = "numeric(12, 6)"
    /\ mapped_type (NpDtype "float32") = "numeric(10, 4)"
    /\ mapped_type (NpDtype "int64") = "INT"
    /\ mapped_type (NpDtype "int32") = "SMALLINT"
    /\ mapped_type (NpDtype "datetime64[ns]") = "TIMESTAMP WITHOUT TIME ZONE"
    /\ mapped_type (DatetimeTZDtype "ns" "UTC") = "TIMESTAMPTZ"
    /\ mapped_type (NpDtype "object") = "TEXT".
Proof.
  intros df table_name t Hd Hmap Ht Hlab.
  split; [|repeat split; reflexivity].
  exact (DraftFacts.draft_text df table_name Hd Hmap Ht Hlab).
Qed.

(** The spec's frame *)
Lemma draft_ddl_declares_every_column_witness :
  draft_sql_ddl_statement beds (Some "beds_test")
  = Ok (Str.join Str.nl
          [EmptyString;
           "CREATE TABLE beds_test (";
           "    " +:+ Str.quoted "county" +:+ " TEXT,";
           "    " +:+ Str.quoted "value" +:+ " numeric(12, 6)";
           ");";
           EmptyString;
           "COMMENT ON TABLE beds_test is E'';";
           EmptyString;
           "COMMENT ON COLUMN beds_test.county is E'';";
           "COMMENT ON COLUMN beds_test.value is E'';";
           EmptyString]).
Proof.
  assert (Hmap : Forall (fun col => exists ty, dict_get _dtype_map (snd col) = Some ty)
                        (columns beds)).
  { repeat constructor; eexists; reflexivity. }
  assert (Hlab : Forall (fun col => no_nl (fst col)) (columns beds)).
  { repeat constructor. }
  destruct (draft_ddl_declares_every_column beds (Some "beds_test") eq_refl Hmap eq_refl
              Hlab) as [E _].
  rewrite E. reflexivity.
Defined.

(** ** C6: the DDL text of a frame with a dtype outside the map *)

(** C6, as stated, fails.  The frame has a text column and a boolean column
    under one label, and [bool] is not a key of the type map.  The call
    raises the [TypeError] of the hash of a Series, at the first column, and
    not the [ValueError] that names a column and its dtype. *)
Lemma draft_ddl_repeated_label_counterexample :
  Exists (fun col => dict_get _dtype_map (snd col) = None) (columns twin_flags)
  /\ draft_sql_ddl_statement twin_flags None = Raise unhashable_series
  /\ exn_class unhashable_series = "TypeError"
  /\ ~ UnsupportedTypeError unhashable_series.
Proof.
  split; [|split; [|split]].
  - right. left. reflexivity.
  - vm_compute. reflexivity.
  - reflexivity.
  - intros (dt & c & H). discriminate H.
Qed.

(** C6, amended.  (1) For every frame with distinct column labels and a
    column whose dtype is not a key of the type map,
    [draft_sql_ddl_statement] raises the [ValueError] that the spec calls
    [UnsupportedTypeError]; its message gives the dtype and the label of the
    first column, in column order, whose dtype is outside the map.  (2) For
    every frame with such a column, whatever its labels, the call raises at
    the first column that has a repeated label or a dtype outside the map:
    the [TypeError] of the hash of a Series when the label is repeated, and
    otherwise the [ValueError] with the dtype and the label of that column.
    (3) The function takes no handle and is a pure function of the frame and
    the name: run in any world, it leaves the log and the driver state as
    they were. *)
Theorem draft_ddl_rejects_unmapped_dtype :
  (forall (df : DataFrame) (table_name : option string),
     distinct (list_df df) = true ->
     Exists (fun col => dict_get _dtype_map (snd col) = None) (columns df) ->
     exists c dt,
       find unmapped (columns df) = Some (c, dt)
       /\ In (c, dt) (columns df)
       /\ dict_get _dtype_map dt = None
       /\ draft_sql_ddl_statement df table_name
          = Raise (ValueError [" Don't know how to handle dtype " +:+ dtype_str dt
                               +:+ " for column " +:+ c +:+ ". Add it!"])
       /\ UnsupportedTypeError
            (ValueError [" Don't know how to handle dtype " +:+ dtype_str dt
                         +:+ " for column " +:+ c +:+ ". Add it!"]))
  /\ (forall (df : DataFrame) (table_name : option string),
        Exists (fun col => dict_get _dtype_map (snd col) = None) (columns df) ->
        exists c dt,
          find (refused (columns df)) (columns df) = Some (c, dt)
          /\ In (c, dt) (columns df)
          /\ draft_sql_ddl_statement df table_name
             = if repeated (columns df) (c, dt)
               then Raise unhashable_series
               else Raise (ValueError [" Don't know how to handle dtype " +:+ dtype_str dt
                                       +:+ " for column " +:+ c +:+ ". Add it!"]))
  /\ (forall (df : DataFrame) (table_name : option string) (D : Type) (w : world D),
        snd (lift (draft_sql_ddl_statement df table_name) w) = w).
Proof.
  split; [|split].
  - intros df table_name Hd Hex.
    destruct (DraftFacts.find_unmapped_some (columns df) Hex) as (c & dt & Hf & Hin & Hn).
    exists c, dt. split; [exact Hf|]. split; [exact Hin|]. split; [exact Hn|]. split.
    + pose proof (DraftFacts.draft_spec df table_name) as Hs. cbv zeta in Hs.
      rewrite Hs, (DraftFacts.find_refused_distinct (columns df) Hd), Hf.
      now rewrite (DraftFacts.distinct_not_repeated (columns df) (c, dt) Hd Hin).
    + exists dt, c. reflexivity.
  - intros df table_name Hex.
    destruct (DraftFacts.find_refused_some (columns df) Hex) as (c & dt & Hf & Hin).
    exists c, dt. split; [exact Hf|]. split; [exact Hin|].
    pose proof (DraftFacts.draft_spec df table_name) as Hs. cbv zeta in Hs.
    now rewrite Hs, Hf.
  - reflexivity.
Qed.

(** The frame with the boolean column *)
Lemma draft_ddl_rejects_unmapped_dtype_witness :
  draft_sql_ddl_statement flags None
  = Raise (ValueError [" Don't know how to handle dtype bool for column open. Add it!"]).
Proof.
  assert (Hex : Exists (fun col => dict_get _dtype_map (snd col) = None) (columns flags)).
  { right. left. reflexivity. }
  destruct (proj1 draft_ddl_rejects_unmapped_dtype flags None eq_refl Hex)
    as (c & dt & Hf & _ & _ & E & _).
  vm_compute in Hf. injection Hf as <- <-. exact E.
Defined.

(** ** C7: a dtype outside the type map, given to the loader *)

(** C7, as stated, fails.  The frame has a boolean column, and [bool] is not
    a key of [_dtype_map].  The replace load returns normally; it raises
    nothing, and its first call is the drop. *)
Lemma loader_type_check_counterexample :
  let r := fast_to_sql flags Engine "openings" false "replace" None None false
             (World [] empty_db) in
  In ("open", NpDtype "bool") (columns flags)
  /\ dict_get _dtype_map (NpDtype "bool") = None
  /\ fst r = Ok tt
  /\ ~ (exists e, fst r = Raise e /\ UnsupportedTypeError e /\ log (snd r) = [])
  /\ nth_error (log (snd r)) 0 = Some (ConnExecute Engine "DROP TABLE IF EXISTS openings;")
  /\ MemDb.visible (dbst (snd r)) "openings" = Some [[Some "Dade"; Some "True"]].
Proof.
  cbv zeta. repeat split; try (vm_compute; reflexivity).
  - right. left. reflexivity.
  - intros (e & He & _). vm_compute in He. discriminate He.
Qed.

(** C7, amended.  [fast_to_sql] does not consult the type map: the column
    types of the create statement are those of pandas' [get_schema].  For
    every frame, one with columns outside the map included, and every Engine
    or Connection: when [get_schema] and [to_csv] return and the driver
    accepts the calls, the load returns without raising; and when
    [get_schema] raises, its exception reaches the caller after the drop of
    the replace policy has been issued. *)
Theorem loader_does_not_consult_type_map :
  forall (D : Type) (drv : Driver D) (P : Pandas) (df : DataFrame) (conn : handle)
         (name : string) (index : bool) (if_exists : string)
         (cols : option (list string)) (schema : option string) (temp : bool)
         (w : world D),
    Exists (fun col => dict_get _dtype_map (snd col) = None) (columns df) ->
    let full := full_name_of schema name in
    (forall (q csv : string) (d' : D),
       recognised conn = true ->
       get_schema df name conn = Ok q ->
       to_csv df Str.tab (selected_cols df index cols) index false = Ok csv ->
       let calls := load_calls conn if_exists full (create_query_of q name full temp) csv
                      (map Str.quoted (selected_cols df index cols)) in
       accepts calls (dbst w) = Some d' ->
       fast_to_sql df conn name index if_exists cols schema temp w
       = (Ok tt, World (log w ++ calls) d'))
    /\ (forall (e : exn) (d' : D),
          get_schema df name conn = Raise e ->
          step (ConnExecute conn ("DROP TABLE IF EXISTS " +:+ full +:+ ";")) (dbst w)
          = (Ok tt, d') ->
          fast_to_sql df conn name index "replace" cols schema temp w
          = (Raise e,
             World (log w ++ [ConnExecute conn ("DROP TABLE IF EXISTS " +:+ full +:+ ";")]) d')).
Proof.
  intros D drv P df conn name index if_exists cols schema temp w _ full. split.
  - intros q csv d' Hrec G C calls Hacc.
    exact (load_runs df conn name index if_exists cols schema temp q csv w d' Hrec G C Hacc).
  - intros e d' G E.
    exact (schema_error_after_drop df conn name index cols schema temp e w d' G E).
Qed.

(** The frame with the boolean column is loaded. *)
Lemma loader_does_not_consult_type_map_witness :
  fst (fast_to_sql flags Connection "openings" false "append" None None false
         (World [] empty_db)) = Ok tt.
Proof.
  assert (Hex : Exists (fun col => dict_get _dtype_map (snd col) = None) (columns flags)).
  { right. left. reflexivity. }
  destruct (loader_does_not_consult_type_map MemDb.memdb MemDb.memdb_driver
              RefPandas.ref_pandas flags Connection "openings" false "append" None None
              false (World [] empty_db) Hex) as [H _].
  rewrite (H _ _ _ eq_refl eq_refl eq_refl eq_refl). reflexivity.
Defined.

(** ** C8: the truncate of the session never raises *)

(** C8.  [_try_empty_table] returns normally for every driver, every driver
    state and every session, whatever the truncate statement did (the table
    missing or any other failure): it issues the one [TRUNCATE TABLE]
    statement and swallows its outcome.  So [__enter__] always goes on to
    [fast_to_sql], and [__exit__] always goes on to the drop. *)
Theorem try_empty_table_never_raises :
  forall (D : Type) (drv : Driver D) (P : Pandas) (self : TempTable) (w : world D),
    let w1 := snd (_try_empty_table self w) in
    fst (_try_empty_table self w) = Ok tt
    /\ log w1 = log w ++ [ConnExecute (tt_conn self)
                            ("TRUNCATE TABLE " +:+ table_name self +:+ ";")]
    /\ __enter__ self w
       = (fast_to_sql (tt_df self) (tt_conn self) (table_name self)
            (kw_index (tt_kw self)) (kw_if_exists (tt_kw self))
            (kw_cols (tt_kw self)) (kw_schema (tt_kw self)) (kw_temp (tt_kw self))
          >> ret self) w1
    /\ __exit__ self w
       = (if destroy self
          then perform (ConnExecute (tt_conn self)
                          ("DROP TABLE IF EXISTS " +:+ table_name self +:+ ";"))
          else ret tt) w1.
Proof.
  intros D drv P self w. cbv zeta.
  unfold __enter__, __exit__, bind.
  rewrite !try_empty_table_ok. cbn [fst snd log]. repeat split; reflexivity.
Qed.

(** ** C9: missing values and empty texts in the staged payload *)




(** ** C10: an unknown handle is refused only after the DDL *)

(** C10.  When [conn] is neither an Engine nor a Connection but accepts the
    [execute] calls, [fast_to_sql] has executed the drop statement (under
    [if_exists="replace"]) and the create statement on it before it raises
    the [ValueError] about the handle type: the log holds exactly those
    calls, and the driver state is the one they left. *)
Theorem unknown_handle_raises_after_ddl :
  forall (D : Type) (drv : Driver D) (P : Pandas) (df : DataFrame) (ty name : string)
         (index : bool) (if_exists : string) (cols : option (list string))
         (schema : option string) (temp : bool) (q : string) (w : world D) (d' : D),
    get_schema df name (Other ty) = Ok q ->
    let full := full_name_of schema name in
    let ddl := (if String.eqb if_exists "replace"
                then [ConnExecute (Other ty) ("DROP TABLE IF EXISTS " +:+ full +:+ ";")]
                else [])
               ++ [ConnExecute (Other ty) (create_query_of q name full temp)] in
    accepts ddl (dbst w) = Some d' ->
    fast_to_sql df (Other ty) name index if_exists cols schema temp w
    = (Raise (ValueError ["Don't know how to handle conn with type:"; ty]),
       World (log w ++ ddl) d')
    /\ ConfigurationError (ValueError ["Don't know how to handle conn with type:"; ty]).
Proof.
  intros D drv P df ty name index if_exists cols schema temp q w d' G full ddl Hacc.
  split; [|now exists ty].
  exact (unknown_handle df ty name index if_exists cols schema temp q w d' G Hacc).
Qed.

(** On the reference database, with [beds_test] holding a row: the row is
    gone, and the table is there, when the error reaches the caller. *)
Lemma unknown_handle_raises_after_ddl_witness :
  let r := fast_to_sql beds (Other "<class 'int'>") "beds_test" false "replace"
             None None false (World [] stocked) in
  fst r = Raise (ValueError ["Don't know how to handle conn with type:"; "<class 'int'>"])
  /\ MemDb.visible stocked "beds_test" = Some [[Some "Polk"; Some "7"]]
  /\ MemDb.visible (dbst (snd r)) "beds_test" = Some [].
Proof.
  pose proof (unknown_handle_raises_after_ddl MemDb.memdb MemDb.memdb_driver
                RefPandas.ref_pandas beds "<class 'int'>" "beds_test" false "replace"
                None None false _ (World [] stocked) _ eq_refl eq_refl) as [E _].
  cbv zeta. rewrite E. repeat split; vm_compute; reflexivity.
Defined.

(** * Further properties of the loader and the session *)

(** Unfold a run down to the calls on the driver, split on every answer in
    program order, and replay recorded answers. *)
Ltac run_loader :=
  cbv [fast_to_sql upload_via_conn bind ret raise lift perform with_
       try_except_pass _try_empty_table __enter__ __exit__ session];
  cbn [log dbst].

Ltac answer_cases :=
  repeat match goal with
  | |- context [step ?c ?d] =>
      let E := fresh "E" in
      destruct (step c d) as [[[]|?] ?] eqn:E; cbn [log dbst]
  | |- context [get_schema ?a ?b ?c] =>
      let E := fresh "G" in
      destruct (get_schema a b c) eqn:E; cbn [log dbst]
  | |- context [to_csv ?a ?b ?c ?d ?e] =>
      let E := fresh "C" in
      destruct (to_csv a b c d e) eqn:E; cbn [log dbst]
  end.

Ltac replay :=
  repeat match goal with
  | E : step _ _ = _ |- _ => rewrite E; clear E; cbv beta iota zeta delta [log dbst]
  end.

Ltac one_log := repeat rewrite <- app_assoc; cbn [app].

Ltac new_calls :=
  cbn [snd log]; one_log; eexists;
  split; [try reflexivity; symmetry; apply app_nil_r|].

Ltac answers_of Hacc :=
  cbn [app accepts] in Hacc;
  repeat match type of Hacc with
  | context [step ?c ?d] =>
      let E := fresh "E" in
      destruct (step c d) as [[[]|?] ?] eqn:E; try discriminate Hacc
  end;
  injection Hacc as <-.

(** ** The existence policy *)

(** X1.  [if_exists] is compared with the text replace and with nothing else:
    under every other value, whether append, fail or a misspelt Replace, the
    load is the append load, and the calls of every run are the create
    statement through [conn.execute] and no statement through the cursor, so
    neither a drop nor a delete. *)
Theorem only_replace_is_not_append :
  forall (D : Type) (drv : Driver D) (P : Pandas) (df : DataFrame) (conn : handle)
         (name : string) (index : bool) (if_exists : string)
         (cols : option (list string)) (schema : option string) (temp : bool)
         (w : world D),
    is_replace if_exists = false ->
    fast_to_sql df conn name index if_exists cols schema temp w
    = fast_to_sql df conn name index "append" cols schema temp w
    /\ exists new,
         log (snd (fast_to_sql df conn name index if_exists cols schema temp w))
         = log w ++ new
         /\ Forall (append_call df conn name (full_name_of schema name) temp) new.
Proof.
  intros D drv P df conn name index if_exists cols schema temp w R.
  unfold is_replace in R.
  assert (Heq : fast_to_sql df conn name index if_exists cols schema temp w
                = fast_to_sql df conn name index "append" cols schema temp w).
  { unfold fast_to_sql, upload_via_conn. rewrite R. reflexivity. }
  split; [exact Heq|]. rewrite Heq. clear Heq R if_exists.
  run_loader. cbn [String.eqb Ascii.eqb Bool.eqb].
  destruct conn; answer_cases; new_calls;
    repeat (match goal with |- Forall _ _ => constructor end); cbn [append_call];
    first [exact I | split; [reflexivity|]; eexists; split; [eassumption|reflexivity]].
Qed.

(** A load with [if_exists="fail"] into a table that holds a row: the row is
    kept and the frame's two rows are added. *)
Lemma only_replace_is_not_append_witness :
  let r := fast_to_sql beds Engine "beds_test" false "fail" None None false
             (World [] stocked) in
  r = fast_to_sql beds Engine "beds_test" false "append" None None false
        (World [] stocked)
  /\ MemDb.visible (dbst (snd r)) "beds_test"
     = Some [[Some "Polk"; Some "7"]; [Some "Dade"; Some "120.5"]; [Some "Leon"; None]].
Proof.
  cbv zeta. split.
  - exact (proj1 (only_replace_is_not_append MemDb.memdb MemDb.memdb_driver
                    RefPandas.ref_pandas beds Engine "beds_test" false "fail" None None
                    false (World [] stocked) eq_refl)).
  - vm_compute. reflexivity.
Defined.

(** ** Cursors, connections and commits *)

(** X2.  Whatever the driver and pandas answer, and wherever the run stops,
    a load leaves no cursor and no connection open: each one that was opened
    has been left through its [with] block by the time [fast_to_sql] returns
    or raises. *)
Theorem loader_closes_what_it_opens :
  forall (D : Type) (drv : Driver D) (P : Pandas) (df : DataFrame) (conn : handle)
         (name : string) (index : bool) (if_exists : string)
         (cols : option (list string)) (schema : option string) (temp : bool)
         (w : world D),
  exists new,
    log (snd (fast_to_sql df conn name index if_exists cols schema temp w)) = log w ++ new
    /\ brackets_closed new (dbst w) 0 0 = true.
Proof.
  intros D drv P df conn name index if_exists cols schema temp w.
  run_loader.
  destruct (String.eqb if_exists "replace"); destruct conn; answer_cases; new_calls;
    cbn [brackets_closed]; replay; reflexivity.
Qed.

(** X3.  Whatever the driver and pandas answer, a load commits only as the
    call that follows a copy the driver accepted: there is no commit on any
    path on which the copy was not reached or was refused. *)
Theorem loader_commits_only_after_copy :
  forall (D : Type) (drv : Driver D) (P : Pandas) (df : DataFrame) (conn : handle)
         (name : string) (index : bool) (if_exists : string)
         (cols : option (list string)) (schema : option string) (temp : bool)
         (w : world D),
  exists new,
    log (snd (fast_to_sql df conn name index if_exists cols schema temp w)) = log w ++ new
    /\ commits_follow_copy new (dbst w) false = true.
Proof.
  intros D drv P df conn name index if_exists cols schema temp w.
  run_loader.
  destruct (String.eqb if_exists "replace"); destruct conn; answer_cases; new_calls;
    cbn [commits_follow_copy]; replay; reflexivity.
Qed.

(** ** Failures around the staging *)

(** X4.  An exception of [to_csv], such as the one for a selected column the
    frame does not have, reaches the caller as it is, and only after the DDL:
    the drop of the replace policy and the create statement have been
    executed, an Engine has been connected and left again, and no cursor has
    been opened. *)
Theorem staging_error_comes_after_ddl :
  forall (D : Type) (drv : Driver D) (P : Pandas) (df : DataFrame) (conn : handle)
         (name : string) (index : bool) (if_exists : string)
         (cols : option (list string)) (schema : option string) (temp : bool)
         (q : string) (e : exn) (w : world D) (d1 d2 : D),
    recognised conn = true ->
    get_schema df name conn = Ok q ->
    to_csv df Str.tab (selected_cols df index cols) index false = Raise e ->
    let full := full_name_of schema name in
    let ddl := ddl_calls conn if_exists full (create_query_of q name full temp) in
    accepts ddl (dbst w) = Some d1 ->
    accepts (connect_calls conn) d1 = Some d2 ->
    fast_to_sql df conn name index if_exists cols schema temp w
    = (Raise e, World (log w ++ ddl ++ connect_calls conn) d2).
Proof.
  intros D drv P df conn name index if_exists cols schema temp q e w d1 d2
         Hrec G C full ddl Hddl Hconn. subst full ddl.
  unfold ddl_calls, connect_calls, is_replace, selected_cols, drop_stmt in *.
  destruct (String.eqb if_exists "replace") eqn:R; destruct conn; try discriminate Hrec.
  all: answers_of Hddl; answers_of Hconn.
  all: run_loader; rewrite R, G, ?C; replay; rewrite ?C; one_log; try rewrite app_nil_r; reflexivity.
Qed.

(** A replace load through a Connection that selects a column the frame does
    not have: pandas raises the [KeyError], and the row the table held has
    been dropped with it. *)
Lemma staging_error_comes_after_ddl_witness :
  let r := fast_to_sql beds Connection "beds_test" false "replace"
             (Some ["county"; "beds"]) None false (World [] stocked) in
  fst r = Raise (KeyError "beds")
  /\ MemDb.visible (dbst (snd r)) "beds_test" = Some [].
Proof.
  cbv zeta.
  rewrite (staging_error_comes_after_ddl MemDb.memdb MemDb.memdb_driver
             RefPandas.ref_pandas beds Connection "beds_test" false "replace"
             (Some ["county"; "beds"]) None false _ (KeyError "beds") (World [] stocked)
             _ _ eq_refl eq_refl eq_refl eq_refl eq_refl).
  split; reflexivity.
Defined.

(** ** The session when the acquisition fails *)

(** X6.  [__enter__] truncates and then loads.  When that load raises, the
    [with] statement raises its exception at once: the body is not run and
    neither is [__exit__], so the log ends with the calls of the failed load
    and what they did to the table stays. *)
Theorem failed_acquisition_skips_release :
  forall (D : Type) (drv : Driver D) (P : Pandas) (A : Type) (self : TempTable)
         (body : TempTable -> M D A) (w w1 : world D) (e : exn),
    fast_to_sql (tt_df self) (tt_conn self) (table_name self)
      (kw_index (tt_kw self)) (kw_if_exists (tt_kw self)) (kw_cols (tt_kw self))
      (kw_schema (tt_kw self)) (kw_temp (tt_kw self))
      (snd (_try_empty_table self w)) = (Raise e, w1) ->
    __enter__ self w = (Raise e, w1)
    /\ session self body w = (Raise e, w1).
Proof.
  intros D drv P A self body w w1 e Hload.
  assert (He : __enter__ self w = (Raise e, w1)).
  { unfold __enter__, bind. destruct (_try_empty_table self w) as [[[]|e0] w0] eqn:T.
    - cbn [snd] in Hload. rewrite Hload. reflexivity.
    - unfold _try_empty_table, try_except_pass in T.
      destruct (perform _ w) in T. discriminate T. }
  split; [exact He|]. unfold session, with_. rewrite He. reflexivity.
Qed.

(** The copy of the acquisition is refused: the session raises the driver's
    error, the body has not run, and the log ends with the exits of the load,
    without the truncate of a release. *)
Lemma failed_acquisition_skips_release_witness :
  let r := session (beds_session true) failing_body (World [] (Rejecting stocked)) in
  fst r = Raise (IntegrityError "null value in column violates not-null constraint")
  /\ last (log (snd r)) = Some ConnectionExit.
Proof.
  cbv zeta.
  set (w := World [] (Rejecting stocked)).
  set (e := IntegrityError "null value in column violates not-null constraint").
  set (load := fast_to_sql beds Engine "beds_test" false "append" None None false
                 (snd (_try_empty_table (beds_session true) w))).
  assert (Hload : load = (Raise e, snd load)) by (vm_compute; reflexivity).
  rewrite (proj2 (failed_acquisition_skips_release (rejecting MemDb.memdb)
                    rejecting_driver RefPandas.ref_pandas unit (beds_session true)
                    failing_body w (snd load) e Hload)).
  split; vm_compute; reflexivity.
Defined.


(** ** The append policy on the reference database *)

(** X7.  On the reference database, with a schema text of the usual shape
    (white space, then CREATE TABLE), a load under a policy other than
    replace that returns has kept every row the destination held and put the
    rows of the staged text behind them; a table that did not exist holds just
    these.  A second such load that returns adds the same rows once more, so
    two loads leave the former rows followed by twice the staged ones. *)
Theorem append_load_adds_rows :
  forall (P : Pandas) (df : DataFrame) (conn : handle) (name : string) (index : bool)
         (if_exists : string) (cols : option (list string)) (schema : option string)
         (temp : bool) (ws rest : string) (w w1 : world MemDb.memdb),
    is_replace if_exists = false ->
    get_schema df name conn = Ok (ws +:+ "CREATE TABLE " +:+ rest) ->
    blank_text ws ->
    fast_to_sql df conn name index if_exists cols schema temp w = (Ok tt, w1) ->
    let full := full_name_of schema name in
    let before := rows_of (MemDb.view (dbst w)) full in
    exists csv,
      to_csv df Str.tab (selected_cols df index cols) index false = Ok csv
      /\ MemDb.visible (dbst w1) full = Some (before ++ MemDb.copy_rows csv "")
      /\ forall w2 : world MemDb.memdb,
           fast_to_sql df conn name index if_exists cols schema temp w1 = (Ok tt, w2) ->
           MemDb.visible (dbst w2) full
           = Some (before ++ MemDb.copy_rows csv "" ++ MemDb.copy_rows csv "").
Proof.
  intros P df conn name index if_exists cols schema temp ws rest w w1 R G Hws Hrun
         full before.
  destruct (RunFacts.append_load_rows df conn name index if_exists cols schema temp
              ws rest w w1 R G Hws Hrun) as (csv & C & Hp & Hrows).
  fold full in Hrows. fold before in Hrows.
  exists csv. split; [exact C|]. split; [exact Hrows|].
  intros w2 Hrun2.
  destruct (RunFacts.append_load_rows df conn name index if_exists cols schema temp
              ws rest w1 w2 R G Hws Hrun2) as (csv2 & C2 & _ & Hrows2).
  fold full in Hrows2. rewrite C in C2. injection C2 as <-.
  unfold MemDb.visible. rewrite Hrows2. f_equal.
  unfold rows_of, MemDb.view. rewrite Hp, Hrows. now rewrite <- app_assoc.
Qed.

(** The spec's frame appended to a table that holds a row *)
Lemma append_load_adds_rows_witness :
  let r := fast_to_sql beds Engine "beds_test" false "append" None None false
             (World [] stocked) in
  MemDb.visible (dbst (snd r)) "beds_test"
  = Some [[Some "Polk"; Some "7"]; [Some "Dade"; Some "120.5"]; [Some "Leon"; None]].
Proof.
  cbv zeta.
  set (w := World [] stocked).
  set (run := fast_to_sql beds Engine "beds_test" false "append" None None false w).
  assert (Hrun : run = (Ok tt, snd run)) by (vm_compute; reflexivity).
  pose proof (append_load_adds_rows RefPandas.ref_pandas beds Engine "beds_test" false
                "append" None None false Str.nl _ w (snd run) eq_refl eq_refl eq_refl Hrun)
    as H.
  cbv zeta in H. cbn [full_name_of] in H. destruct H as (csv & C & Hrows & _).
  rewrite Hrows. vm_compute in C. injection C as <-. vm_compute. reflexivity.
Defined.

(** ** The session on the reference database *)

(** X8.  Truncate, then load: on the reference database, with no schema
    keyword, an acquisition that returns leaves in [table_name] exactly the
    rows of the staged text, whatever the table held before and whatever the
    other keywords are. *)
Theorem acquisition_leaves_the_staged_rows :
  forall (P : Pandas) (self t : TempTable) (w w1 : world MemDb.memdb),
    kw_schema (tt_kw self) = None ->
    __enter__ self w = (Ok t, w1) ->
    exists csv,
      to_csv (tt_df self) Str.tab
        (selected_cols (tt_df self) (kw_index (tt_kw self)) (kw_cols (tt_kw self)))
        (kw_index (tt_kw self)) false = Ok csv
      /\ MemDb.visible (dbst w1) (table_name self) = Some (MemDb.copy_rows csv "").
Proof.
  intros P self t w w1 Hs He. apply RunFacts.enter_load in He. rewrite Hs in He.
  destruct (is_replace (kw_if_exists (tt_kw self))) eqn:R.
  - apply RunFacts.is_replace_true in R. rewrite R in He.
    exact (MemDbFacts.replace_load_rows _ _ _ _ _ _ _ _ _ He).
  - destruct (RunFacts.append_load_state _ _ _ _ _ _ _ _ _ _ R He)
      as (q & csv & dc & old & _ & C & E & Hold & Hst).
    cbn [full_name_of dbst] in E, Hold, Hst.
    exists csv. split; [exact C|]. unfold MemDb.visible. rewrite Hst.
    cbn [MemDb.committed]. rewrite lookup_insert_eq.
    enough (old = []) as -> by reflexivity.
    apply RunFacts.conn_execute_state in E as (tc & Hc & ->).
    cbn [MemDb.view MemDb.pending MemDb.committed] in Hold.
    assert (Hempty : MemDb.view
                       (snd (step (ConnExecute (tt_conn self)
                                     (truncate_stmt (table_name self))) (dbst w)))
                     !! table_name self = Some []
                     \/ MemDb.view
                          (snd (step (ConnExecute (tt_conn self)
                                        (truncate_stmt (table_name self))) (dbst w)))
                        !! table_name self = None).
    { rewrite MemDbFacts.truncate_step.
      destruct (MemDb.view (dbst w) !! table_name self) eqn:Et;
        cbn [snd MemDb.view MemDb.pending].
      - left. apply lookup_insert_eq.
      - right. exact Et. }
    destruct (RunFacts.run_stmt_rows _ _ _ (table_name self) Hc) as [Hk|[Hk|Hk]];
      rewrite Hold in Hk; destruct Hempty as [Ht|Ht]; congruence.
Qed.

(** A session on a table that holds a row: after the acquisition the table
    holds the frame's two rows and not the former one. *)
Lemma acquisition_leaves_the_staged_rows_witness :
  let r := __enter__ (beds_session false) (World [] stocked) in
  MemDb.visible (dbst (snd r)) "beds_test"
  = Some [[Some "Dade"; Some "120.5"]; [Some "Leon"; None]].
Proof.
  cbv zeta.
  set (w := World [] stocked).
  set (r := __enter__ (beds_session false) w).
  assert (Hr : r = (Ok (beds_session false), snd r)) by (vm_compute; reflexivity).
  destruct (acquisition_leaves_the_staged_rows RefPandas.ref_pandas (beds_session false)
              (beds_session false) w (snd r) eq_refl Hr) as (csv & C & Hrows).
  change (table_name (beds_session false)) with "beds_test" in Hrows.
  rewrite Hrows. vm_compute in C. injection C as <-. vm_compute. reflexivity.
Defined.

(** X9.  The session keeps the schema keyword for the load only.  With a
    schema keyword the rows are copied into the qualified name, while the
    statements of [__exit__] name [table_name] as it is, which is another
    name.  On the reference database, where a table is the name written in
    the statement, the rows the acquisition loaded are still in the qualified
    table after the release, with or without [destroy]. *)
Theorem release_ignores_schema_keyword :
  forall (P : Pandas) (self t : TempTable) (s : string) (w w1 : world MemDb.memdb),
    kw_schema (tt_kw self) = Some s ->
    __enter__ self w = (Ok t, w1) ->
    let full := full_name_of (Some s) (table_name self) in
    let r := __exit__ self w1 in
    exists csv old,
      to_csv (tt_df self) Str.tab
        (selected_cols (tt_df self) (kw_index (tt_kw self)) (kw_cols (tt_kw self)))
        (kw_index (tt_kw self)) false = Ok csv
      /\ log (snd r) = log w1 ++ release_calls self
      /\ full <> table_name self
      /\ MemDb.visible (dbst w1) full = Some (old ++ MemDb.copy_rows csv "")
      /\ MemDb.visible (dbst (snd r)) full = Some (old ++ MemDb.copy_rows csv "").
Proof.
  intros P self t s w w1 Hs He full r. apply RunFacts.enter_load in He. rewrite Hs in He.
  assert (Hload : exists csv old,
             to_csv (tt_df self) Str.tab
               (selected_cols (tt_df self) (kw_index (tt_kw self)) (kw_cols (tt_kw self)))
               (kw_index (tt_kw self)) false = Ok csv
             /\ MemDb.pending (dbst w1) = None
             /\ MemDb.visible (dbst w1) full = Some (old ++ MemDb.copy_rows csv "")).
  { destruct (is_replace (kw_if_exists (tt_kw self))) eqn:R.
    - pose proof (RunFacts.load_leaves_nothing_pending _ _ _ _ _ _ _ _ _ _ He) as Hp.
      apply RunFacts.is_replace_true in R. rewrite R in He.
      destruct (MemDbFacts.replace_load_rows _ _ _ _ _ _ _ _ _ He) as (csv & C & Hrows).
      exists csv, []. split; [exact C|]. split; [exact Hp|exact Hrows].
    - destruct (RunFacts.append_load_state _ _ _ _ _ _ _ _ _ _ R He)
        as (q & csv & dc & old & _ & C & _ & _ & Hst).
      exists csv, old. split; [exact C|]. rewrite Hst. split; [reflexivity|].
      unfold MemDb.visible. cbn [MemDb.committed]. apply lookup_insert_eq. }
  destruct Hload as (csv & old & C & Hp & Hrows).
  exists csv, old. split; [exact C|].
  split; [subst r; rewrite exit_runs; now destruct (destroy self)|].
  split; [apply RunFacts.qualified_name_differs|].
  split; [exact Hrows|].
  subst r. rewrite RunFacts.release_frame; [exact Hrows| |exact Hp].
  apply RunFacts.qualified_name_differs.
Qed.

(** A session into the schema [covid], where the table exists, that
    destroys its table: the release drops [beds_test], and the two rows are
    still in [covid.beds_test]. *)
Lemma release_ignores_schema_keyword_witness :
  let w1 := snd (__enter__ (schema_session true) (World [] covid_db)) in
  MemDb.visible (dbst (snd (__exit__ (schema_session true) w1))) "covid.beds_test"
  = Some [[Some "Dade"; Some "120.5"]; [Some "Leon"; None]].
Proof.
  cbv zeta.
  set (w := World [] covid_db).
  set (r := __enter__ (schema_session true) w).
  assert (Hr : r = (Ok (schema_session true), snd r)) by (vm_compute; reflexivity).
  pose proof (release_ignores_schema_keyword RefPandas.ref_pandas (schema_session true)
                (schema_session true) "covid" w (snd r) eq_refl Hr) as H.
  cbv zeta in H. destruct H as (csv & old & _ & _ & _ & Hin & Hout).
  change (full_name_of (Some "covid") (table_name (schema_session true)))
    with "covid.beds_test" in Hin, Hout.
  rewrite Hout, <- Hin. vm_compute. reflexivity.
Defined.

(** * Further properties of the DDL drafter *)

(** X10.  [draft_sql_ddl_statement] returns a text exactly when the column
    labels of the frame are distinct and the dtype of every column is a key
    of the type map.  The table name plays no part in that, and neither do
    the characters of the labels; the lookup of a label among the dtypes of
    the frame never fails with a [KeyError]. *)
Theorem draft_ddl_returns_iff_distinct_and_mapped :
  forall (df : DataFrame) (table_name : option string),
    (exists text, draft_sql_ddl_statement df table_name = Ok text)
    <-> distinct (list_df df) = true
        /\ Forall (fun col => unmapped col = false) (columns df).
Proof.
  intros df table_name.
  pose proof (DraftFacts.draft_spec df table_name) as Hs. cbv zeta in Hs. rewrite Hs.
  split.
  - intros [text Ht].
    destruct (find (refused (columns df)) (columns df)) as [[c dt]|] eqn:Hf.
    { destruct (repeated (columns df) (c, dt)); discriminate Ht. }
    pose proof (find_none _ _ Hf) as Hall. split.
    + apply DraftFacts.not_repeated_distinct. intros col Hin.
      specialize (Hall col Hin). unfold refused in Hall.
      now apply orb_false_iff in Hall as [Hr _].
    + apply List.Forall_forall. intros col Hin.
      specialize (Hall col Hin). unfold refused in Hall.
      now apply orb_false_iff in Hall as [_ Hu].
  - intros [Hd Hall].
    rewrite (DraftFacts.find_refused_distinct (columns df) Hd).
    destruct (find unmapped (columns df)) as [[c dt]|] eqn:Hf; [|eauto].
    apply find_some in Hf as [Hin Hu].
    rewrite List.Forall_forall in Hall. rewrite (Hall _ Hin) in Hu. discriminate Hu.
Qed.

(** X11.  A frame without columns is not refused: the text has the
    statement with an empty line for its column list, the comment placeholder
    of the table, and no other comment. *)
Theorem draft_ddl_of_a_frame_without_columns :
  forall (df : DataFrame) (table_name : option string),
    let t := match table_name with None => "REPLACE_NAME" | Some t => t end in
    columns df = [] ->
    no_nl t ->
    draft_sql_ddl_statement df table_name
    = Ok (Str.nl +:+ "CREATE TABLE " +:+ t +:+ " (" +:+ Str.nl +:+
          Str.nl +:+
          ");" +:+ Str.nl +:+
          Str.nl +:+
          "COMMENT ON TABLE " +:+ t +:+ " is E'';" +:+ Str.nl +:+
          Str.nl +:+
          Str.nl).
Proof.
  intros df table_name t Hcols Ht.
  pose proof (DraftFacts.draft_text df table_name) as Hd. cbv zeta in Hd. fold t in Hd.
  rewrite Hd; [|unfold list_df; now rewrite Hcols|rewrite Hcols; constructor|exact Ht
               |rewrite Hcols; constructor].
  unfold ddl_text, ddl_lines. rewrite Hcols. cbn [map out_block app Str.join].
  rewrite !StrFacts.append_assoc. reflexivity.
Qed.

(** The frame without columns, and no table name *)
Lemma draft_ddl_of_a_frame_without_columns_witness :
  draft_sql_ddl_statement no_columns None
  = Ok (Str.nl +:+ "CREATE TABLE REPLACE_NAME (" +:+ Str.nl +:+
        Str.nl +:+
        ");" +:+ Str.nl +:+
        Str.nl +:+
        "COMMENT ON TABLE REPLACE_NAME is E'';" +:+ Str.nl +:+
        Str.nl +:+
        Str.nl).
Proof.
  exact (draft_ddl_of_a_frame_without_columns no_columns None eq_refl eq_refl).
Defined.

(** * The cleaning of the hospital frames *)

Module CleanFacts.
Import Str StrFacts.

(** Removing a pattern brings in no character. *)
Lemma replace_from_free c old s : forall k,
  has_char c s = false -> has_char c (replace_from k s old "") = false.
Proof.
  induction s as [|a s IH]; intros k H; [reflexivity|].
  cbn [has_char] in H. apply orb_false_iff in H as [Ha Hs].
  cbn [replace_from]. destruct k as [|k]; [|now apply IH].
  destruct (startswith old (String a s)).
  - rewrite append_nil_l. now apply IH.
  - cbn [has_char]. rewrite Ha. now apply IH.
Qed.

Lemma replace_free c a old s :
  has_char c s = false -> has_char c (replace s (String a old) "") = false.
Proof. apply replace_from_free. Qed.

(** Removing a character leaves none of it. *)
Lemma replace_char_gone c s : has_char c (replace s (String c "") "") = false.
Proof.
  unfold replace. induction s as [|a s IH]; [reflexivity|].
  cbn [replace_from startswith String.length Nat.sub].
  destruct (Ascii.eqb_spec c a) as [->|Hne]; cbn [andb].
  - rewrite append_nil_l. exact IH.
  - cbn [has_char]. rewrite IH, orb_false_r.
    destruct (Ascii.eqb_spec a c); [congruence|reflexivity].
Qed.

Lemma contains_char c s : contains (String c "") s = has_char c s.
Proof.
  induction s as [|a s IH]; [reflexivity|].
  cbn [contains startswith has_char]. rewrite IH, andb_true_r.
  now rewrite Ascii.eqb_sym.
Qed.

(** A pattern that does not occur is not replaced. *)
Lemma replace_absent a old new s :
  contains (String a old) s = false -> replace s (String a old) new = s.
Proof.
  unfold replace. induction s as [|b s IH]; [reflexivity|].
  cbn [contains]. intros H. apply orb_false_iff in H as [H1 H2].
  cbn [replace_from]. rewrite H1. now rewrite (IH H2).
Qed.

(** The three patterns on one text *)
Lemma clean_text_free t :
  has_char ","%char (clean_text t) = false /\ has_char "%"%char (clean_text t) = false.
Proof.
  unfold clean_text. split.
  - apply replace_free, replace_free, replace_char_gone.
  - apply replace_free, replace_char_gone.
Qed.

Lemma clean_text_id t : clean_already t -> clean_text t = t.
Proof.
  intros (Hc & Hp & Hn). unfold clean_text.
  rewrite (replace_absent ","%char "" "" t) by now rewrite contains_char.
  rewrite (replace_absent "%"%char "" "" t) by now rewrite contains_char.
  now apply replace_absent.
Qed.

(** The loop over [bads] on a series, value by value *)
Lemma clean_series_bads s :
  clean_series bads s = map (fun c => Text (clean_text (astype_str c))) s.
Proof.
  unfold clean_series, bads, str_replace_series. cbn [fold_left].
  rewrite !map_map. reflexivity.
Qed.

(** The loop over the columns, column by column *)
Lemma clean_cols_columns to_numeric df bs sc out :
  _clean_cols to_numeric df bs sc = Ok out ->
  Forall2 (fun cin cout =>
             fst cout = fst cin
             /\ if in_list (fst cin) sc
                then snd cout = clean_series bs (snd cin)
                else to_numeric (clean_series bs (snd cin)) = Ok (snd cout))
          df out.
Proof.
  revert out. induction df as [|[col s] rest IH]; intros out; cbn [_clean_cols].
  - intros [= <-]. constructor.
  - destruct (in_list col sc) eqn:Hin.
    + destruct (_clean_cols to_numeric rest bs sc) as [o|e]; [|discriminate].
      intros [= <-]. constructor; [|now apply IH].
      cbn [fst snd]. now rewrite Hin.
    + destruct (to_numeric (clean_series bs s)) as [s2|e] eqn:Hn; [|discriminate].
      destruct (_clean_cols to_numeric rest bs sc) as [o|e]; [|discriminate].
      intros [= <-]. constructor; [|now apply IH].
      cbn [fst snd]. now rewrite Hin.
Qed.

Lemma clean_series_separator_free s : Forall separator_free (clean_series bads s).
Proof.
  rewrite clean_series_bads. apply List.Forall_forall. intros c Hc.
  apply in_map_iff in Hc as (c0 & <- & _).
  exists (clean_text (astype_str c0)). split; [reflexivity|]. apply clean_text_free.
Qed.

End CleanFacts.

(** X12.  [_clean_cols] with the patterns of [_clean_df]: the frame it
    returns has the columns of the input, in their order; every value of a
    column listed in [str_cols] is a text with no comma and no percent sign;
    and [pd.to_numeric] is given nothing but series of such texts, so that a
    conversion that agrees with it on those gives the same result. *)
Theorem clean_cols_strips_separators :
  (forall (to_numeric : list cell -> outcome (list cell))
          (df out : list (string * list cell)) (sc : list string),
     _clean_cols to_numeric df bads sc = Ok out ->
     map fst out = map fst df
     /\ forall col s, In (col, s) out -> in_list col sc = true ->
                      Forall separator_free s)
  /\ (forall (f g : list cell -> outcome (list cell))
             (df : list (string * list cell)) (sc : list string),
        (forall s, Forall separator_free s -> f s = g s) ->
        _clean_cols f df bads sc = _clean_cols g df bads sc).
Proof.
  split.
  - intros to_numeric df out sc Hrun. apply CleanFacts.clean_cols_columns in Hrun.
    induction Hrun as [|[c s] [c' s'] df out [Hl Hs] Hrest [IH1 IH2]];
      [split; [reflexivity|intros ? ? []]|].
    cbn [fst snd] in Hl, Hs. subst c'. split; [cbn [map fst]; now rewrite IH1|].
    intros col s0 [[= <- <-]|Hin] Hsc; [|now apply (IH2 col)].
    rewrite Hsc in Hs. subst s'. apply CleanFacts.clean_series_separator_free.
  - intros f g df sc Hfg. induction df as [|[col s] rest IH]; [reflexivity|].
    cbn [_clean_cols]. rewrite IH.
    destruct (in_list col sc); [reflexivity|].
    now rewrite (Hfg _ (CleanFacts.clean_series_separator_free s)).
Qed.

(** The two columns of the example: the county column is kept as text, the
    census column goes through the conversion without its comma and its
    percent sign. *)
Lemma clean_cols_strips_separators_witness :
  _clean_cols whole_numbers census bads str_cols
  = Ok [("County", [Text "Dade"; Text ""]);
        ("Bed Census", [Number "1234"; Number "56"])]
  /\ Forall separator_free [Text "Dade"; Text ""].
Proof.
  split; [reflexivity|].
  apply (proj2 (proj1 clean_cols_strips_separators whole_numbers census
                  [("County", [Text "Dade"; Text ""]);
                   ("Bed Census", [Number "1234"; Number "56"])]
                  str_cols eq_refl) "County");
    [left; reflexivity | reflexivity].
Defined.

(** X13.  In a column listed in [str_cols], a value in whose text none of the
    three patterns occurs comes out as that text; a NaN, whose text is
    [nan], comes out as the empty text and so is no longer missing, while a
    [None] comes out as the text [None].  The column keeps its place, its
    label and its length. *)
Theorem clean_cols_keeps_clean_text :
  forall (to_numeric : list cell -> outcome (list cell))
         (df out : list (string * list cell)) (sc : list string)
         (i : nat) (col : string) (s : list cell),
    _clean_cols to_numeric df bads sc = Ok out ->
    df !! i = Some (col, s) ->
    in_list col sc = true ->
    exists s',
      out !! i = Some (col, s')
      /\ length s' = length s
      /\ forall (j : nat) (c : cell),
           s !! j = Some c ->
           exists t, s' !! j = Some (Text t)
                     /\ (clean_already (astype_str c) -> t = astype_str c)
                     /\ (c = Missing -> t = "")
                     /\ (c = NoneValue -> t = "None").
Proof.
  intros to_numeric df out sc i col s Hrun Hi Hsc.
  apply CleanFacts.clean_cols_columns in Hrun.
  destruct (Forall2_lookup_l _ _ _ _ _ Hrun Hi) as ([col' s'] & Ho & Hl & Hs).
  cbn [fst snd] in Hl, Hs. subst col'. rewrite Hsc in Hs. subst s'.
  exists (clean_series bads s). split; [exact Ho|].
  rewrite CleanFacts.clean_series_bads. split; [apply length_map|].
  intros j c Hj. exists (clean_text (astype_str c)).
  change (map ?f ?l) with (f <$> l). rewrite list_lookup_fmap, Hj.
  split; [reflexivity|]. split; [|split].
  - apply CleanFacts.clean_text_id.
  - intros ->. reflexivity.
  - intros ->. reflexivity.
Qed.

(** The county column of the example: the missing county comes out as the
    empty text. *)
Lemma clean_cols_keeps_clean_text_witness :
  exists s',
    [("County", [Text "Dade"; Text ""]);
     ("Bed Census", [Number "1234"; Number "56"])] !! 0 = Some ("County", s')
    /\ s' !! 0 = Some (Text "Dade")
    /\ s' !! 1 = Some (Text "").
Proof.
  destruct (clean_cols_keeps_clean_text whole_numbers census
              [("County", [Text "Dade"; Text ""]);
               ("Bed Census", [Number "1234"; Number "56"])]
              str_cols 0 "County" [Text "Dade"; Missing] eq_refl eq_refl eq_refl)
    as (s' & Ho & _ & Hv).
  exists s'. split; [exact Ho|].
  destruct (Hv 0 (Text "Dade") eq_refl) as (t0 & Ht0 & Hid & _).
  destruct (Hv 1 Missing eq_refl) as (t1 & Ht1 & _ & Hm & _).
  rewrite Ht0, Ht1, (Hm eq_refl), Hid; [split; reflexivity|].
  repeat split.
Defined.


